(** * BERT-keras: a shallow embedding of [transformer/layers.py] and
      [transformer/model.py]

    The development follows the two source files.  Python values that the
    code handles dynamically (shape tuples holding [None], lists of
    tensors) are kept dynamic; exceptions are an explicit [result];
    graph construction, file reads and the random generator are threaded
    through a small state-and-error monad.  Tensor entries are elements
    of an abstract scalar interface, so that every statement holds for
    whatever arithmetic the backend uses.

    Keras and NumPy are libraries, not part of the repository: the
    behaviour of the few calls the code makes into them is written out
    next to the definition that uses it. *)

From Stdlib Require Import ZArith Lia PrimFloat Uint63 Ascii.
From stdpp Require Import base option list strings pretty gmap.

Open Scope Z_scope.

Set Warnings "-register-all".

(** ** Python: exceptions, sequence indexing, integer arithmetic *)

Inductive exn :=
| AssertionError
| ZeroDivisionError
| IndexError
| TypeError
| ValueError
| FileNotFoundError.

Inductive result (A : Type) :=
| Ok (a : A)
| Raise (e : exn).
Arguments Ok {A} a.
Arguments Raise {A} e.

#[global] Instance result_ret : MRet result := fun _ a => Ok a.
#[global] Instance result_bind : MBind result := fun _ _ f m =>
  match m with
  | Ok a => f a
  | Raise e => Raise e
  end.
#[global] Instance result_fmap : FMap result := fun _ _ f m =>
  match m with
  | Ok a => Ok (f a)
  | Raise e => Raise e
  end.

(** [assert c] *)
Definition py_assert (c : bool) : result unit :=
  if c then Ok tt else Raise AssertionError.

(** [a % b] on Python ints: the sign follows the divisor, a zero divisor
    raises. *)
Definition py_mod (a b : Z) : result Z :=
  if b =? 0 then Raise ZeroDivisionError else Ok (a mod b).

(** [l[i]] on a Python sequence: negative indices count from the end. *)
Definition py_index {A} (l : list A) (i : Z) : result A :=
  let n := Z.of_nat (length l) in
  let j := if i <? 0 then i + n else i in
  if (0 <=? j) && (j <? n)
  then match l !! Z.to_nat j with
       | Some a => Ok a
       | None => Raise IndexError
       end
  else Raise IndexError.

(** [l[st:en]] on a Python sequence: negative bounds count from the end,
    bounds are clamped to the sequence. *)
Definition py_clamp (n i : Z) : Z :=
  let j := if i <? 0 then i + n else i in
  Z.max 0 (Z.min n j).

Definition py_slice {A} (l : list A) (st en : Z) : list A :=
  let n := Z.of_nat (length l) in
  let a := py_clamp n st in
  let b := py_clamp n en in
  take (Z.to_nat (b - a)) (drop (Z.to_nat a) l).

(** The values shape code handles: [None], ints, and tuples or lists of
    them (a shape, or a list of shapes when a layer has several
    inputs). *)
Inductive pyval :=
| PNone
| PInt (z : Z)
| PTuple (items : list pyval).

Definition py_getitem (v : pyval) (i : Z) : result pyval :=
  match v with
  | PTuple items => py_index items i
  | _ => Raise TypeError
  end.

(** [a // b] *)
Definition py_floordiv (a b : pyval) : result pyval :=
  match a, b with
  | PInt x, PInt y => if y =? 0 then Raise ZeroDivisionError else Ok (PInt (x / y))
  | _, _ => Raise TypeError
  end.

(** A Python float literal [man * 10^exp10], kept as written ([1e-6],
    [0.02], [0.1]). *)
Record pyfloat := Dec { man : Z; exp10 : Z }.

(** The shape of a tensor that exists at run time: every dimension is
    known. *)
Abbreviation tshape := (list Z) (only parsing).

(** ** transformer/funcs.py *)

Module funcs.

(** Modelled from the spec: [transformer/funcs.py] ([self_attention]) is
    not under src/.  Spec 4.1, at the level of shapes: the input
    [(batch, seq, 3*n_state)] is split into query, key and value of width
    [n_state]; the last dimension of each is reshaped into [n_head] heads
    of size [n_state / n_head]; scores are computed per head between
    query and key, a mask [(batch, 1, seq, seq)] being applied to them
    when given; the values are summed per head with the attention
    weights; the heads are concatenated back.  A reshape whose sizes
    disagree is the shape mismatch the spec names as failure. *)
Definition split_heads (x : tshape) (n_head : Z) : result tshape :=
  match x with
  | [b; s; m] =>
      if n_head =? 0 then Raise ZeroDivisionError
      else
        let head_size := m / n_head in
        if n_head * head_size =? m
        then Ok [b; n_head; s; head_size]
        else Raise ValueError
  | _ => Raise ValueError
  end.

Definition merge_heads (a : tshape) : result tshape :=
  match a with
  | [b; h; s; c] => Ok [b; s; h * c]
  | _ => Raise ValueError
  end.

Definition broadcastable (d m : Z) : bool := (m =? d) || (m =? 1).

Definition scaled_dot_product_attention (q k v : tshape) (mask : option tshape)
  : result tshape :=
  match q, k, v with
  | [b; h; s; c], [b'; h'; s'; c'], [b''; h''; s''; c''] =>
      if negb ((b =? b') && (h =? h') && (c =? c')
               && (b =? b'') && (h =? h'') && (s' =? s'')) then Raise ValueError
      else
        let scores := [b; h; s; s'] in
        match mask with
        | None => Ok [b; h; s; c'']
        | Some [mb; mh; ms; ms'] =>
            if broadcastable b mb && broadcastable h mh
               && broadcastable s ms && broadcastable s' ms'
            then Ok [b; h; s; c'']
            else Raise ValueError
        | Some _ => Raise ValueError
        end
  | _, _, _ => Raise ValueError
  end.

Definition self_attention (x : tshape) (mask : option tshape)
    (n_head n_state : Z) (attention_dropout : pyfloat) : result tshape :=
  match x with
  | [b; s; c] =>
      if negb (c =? 3 * n_state) then Raise ValueError
      else
        q ← split_heads [b; s; n_state] n_head;
        k ← split_heads [b; s; n_state] n_head;
        v ← split_heads [b; s; n_state] n_head;
        a ← scaled_dot_product_attention q k v mask;
        merge_heads a
  | _ => Raise ValueError
  end.

(** Modelled from the spec: [transformer/funcs.py] ([shape_list]) is not
    under src/.  Spec 4.4 has [PositionIdGenerator] depend on the
    sequence-length dimension of its input alone: [shape_list x] is the
    list of the dimensions of [x] as the backend knows them, [None]
    for one it does not know. *)
Definition shape_list (int_shape : list pyval) : list pyval := int_shape.

End funcs.

(** ** transformer/layers.py: SelfAttention *)

Module SelfAttention.

Record t := {
  name : string;
  n_head : Z;
  n_state : Z;
  attention_dropout : pyfloat;
  ignore_mask : bool
}.

Definition __init__ (n_head n_state : Z) (attention_dropout : pyfloat)
    (ignore_mask : bool) (name : string) : t :=
  {| name := name; n_head := n_head; n_state := n_state;
     attention_dropout := attention_dropout; ignore_mask := ignore_mask |}.

Definition compute_output_shape (self : t) (input_shape : pyval) : result pyval :=
  x ← (if ignore_mask self then Ok input_shape else py_getitem input_shape 0);
  x0 ← py_getitem x 0;
  x1 ← py_getitem x 1;
  x2 ← py_getitem x 2;
  d ← py_floordiv x2 (PInt 3);
  Ok (PTuple [x0; x1; d]).

(** What [call] receives at run time: one tensor, or a list of tensors;
    a tensor is followed through its shape.  Indexing a tensor selects
    along its first axis. *)
Inductive inputs :=
| Tensor (x : tshape)
| Tensors (xs : list tshape).

Definition inputs_getitem (i : inputs) (k : Z) : result tshape :=
  match i with
  | Tensors xs => py_index xs k
  | Tensor [] => Raise IndexError
  | Tensor (d :: rest) =>
      if (if k <? 0 then 0 <=? k + d else k <? d) then Ok rest else Raise IndexError
  end.

Definition call (self : t) (i : inputs) : result tshape :=
  x ← (if ignore_mask self
       then match i with Tensor x => Ok x | Tensors _ => Raise TypeError end
       else inputs_getitem i 0);
  mask ← (if ignore_mask self then Ok None else Some <$> inputs_getitem i 1);
  funcs.self_attention x mask (n_head self) (n_state self) (attention_dropout self).

End SelfAttention.

Definition attn_4_heads : SelfAttention.t :=
  SelfAttention.__init__ 4 64 (Dec 1 (-1)) false "layer_0/self_attention".


(** ** Scalars and tensors

    Tensor entries are floating-point numbers of the backend.  Nothing
    below depends on how they round: an entry is an element of a type
    with the operations the code applies to it. *)

Class Scalar (R : Type) := {
  zero : R;
  one : R;
  add : R → R → R;
  sub : R → R → R;
  mul : R → R → R;
  div : R → R → R;
  (** the value of a Python float literal *)
  lit : pyfloat → R;
  (** [astype(np.float32)] *)
  f32 : R → R;
  f32_zero : f32 zero = zero;
  (** [K.mean] and [K.std] of the entries along one axis *)
  K_mean : list R → R;
  K_std : list R → R
}.

(** A tensor of rank [n]: nested lists, the last axis innermost. *)
Fixpoint tensor (R : Type) (n : nat) : Type :=
  match n with
  | O => R
  | S k => list (tensor R k)
  end.

Section tensors.
Context {R : Type}.

(** An elementwise function. *)
Fixpoint tmap {n : nat} (f : R → R) : tensor R n → tensor R n :=
  match n with
  | O => f
  | S k => fun xs => @tmap k f <$> xs
  end.

(** A function applied to every vector along the last axis. *)
Fixpoint map_last {n : nat} (f : list R → list R) : tensor R (S n) → tensor R (S n) :=
  match n with
  | O => f
  | S k => fun xs => @map_last k f <$> xs
  end.

(** A reduction along [axis=-1] with [keepdims=True]: the last axis is
    kept, with length 1. *)
Definition reduce_last {n : nat} (f : list R → R) : tensor R (S n) → tensor R (S n) :=
  map_last (fun row => [f row]).

(** A vector seen as a tensor of higher rank: every axis added in front
    has length 1, as broadcasting does for an operand of lower rank. *)
Fixpoint expand {n : nat} (v : list R) : tensor R (S n) :=
  match n with
  | O => v
  | S k => [@expand k v]
  end.

Fixpoint zip_with_result {A B C} (f : A → B → result C) (xs : list A) (ys : list B)
  : result (list C) :=
  match xs, ys with
  | x :: xs', y :: ys' =>
      c ← f x y; cs ← zip_with_result f xs' ys'; Ok (c :: cs)
  | _, _ => Ok []
  end.

Fixpoint map_result {A B} (f : A → result B) (xs : list A) : result (list B) :=
  match xs with
  | [] => Ok []
  | x :: xs' => c ← f x; cs ← map_result f xs'; Ok (c :: cs)
  end.

(** A binary elementwise operation on two tensors of one rank, with
    broadcasting: along every axis the lengths agree, or one of them
    is 1 and that operand is repeated. *)
Fixpoint broadcast {n : nat} (op : R → R → R) : tensor R n → tensor R n → result (tensor R n) :=
  match n with
  | O => fun a b => Ok (op a b)
  | S k => fun xs ys =>
      if (length xs =? length ys)%nat then zip_with_result (@broadcast k op) xs ys
      else
        match xs, ys with
        | _, [y] => map_result (fun x => @broadcast k op x y) xs
        | [x], _ => map_result (fun y => @broadcast k op x y) ys
        | _, _ => Raise ValueError
        end
  end.

(** A property of every vector along the last axis. *)
Fixpoint all_last {n : nat} (P : list R → Prop) : tensor R (S n) → Prop :=
  match n with
  | O => P
  | S k => fun xs => Forall (@all_last k P) xs
  end.

(** Every vector along the last axis has length [d]. *)
Definition last_dim {n : nat} (d : nat) : tensor R (S n) → Prop :=
  all_last (fun row => length row = d).

(** Two tensors of one rank have the same shape. *)
Fixpoint same_shape {n : nat} : tensor R n → tensor R n → Prop :=
  match n with
  | O => fun _ _ => True
  | S k => fun xs ys => Forall2 (@same_shape k) xs ys
  end.

End tensors.

(** ** transformer/layers.py: LayerNormalization *)

Module LayerNormalization.

Definition default_eps : pyfloat := Dec 1 (-6).

Section defs.
Context {R : Type} `{Scalar R}.

Record t := {
  name : string;
  eps : pyfloat;
  built : bool;
  gamma : list R;
  beta : list R
}.

(** [__init__(self, eps=1e-6, **kwargs)]: [None] stands for an omitted
    argument. *)
Definition __init__ (eps : option pyfloat) (name : string) : t :=
  {| name := name; eps := default default_eps eps; built := false;
     gamma := []; beta := [] |}.

Inductive initializer := Ones | Zeros.

(** [add_weight(shape=..., initializer=...)]: a new variable of the given
    shape, every entry set by the initializer.  The weights of this
    layer are vectors; the backend refuses a dimension that is not a
    non-negative int. *)
Definition add_weight (shape : list pyval) (init : initializer) : result (list R) :=
  match shape with
  | [PInt d] =>
      if d <? 0 then Raise ValueError
      else Ok (replicate (Z.to_nat d) (match init with Ones => one | Zeros => zero end))
  | [PNone] => Raise TypeError
  | _ => Raise ValueError
  end.

Definition build (self : t) (input_shape : pyval) : result t :=
  match input_shape with
  | PTuple dims =>
      let last := py_slice dims (-1) (Z.of_nat (length dims)) in
      g ← add_weight last Ones;
      b ← add_weight last Zeros;
      Ok {| name := name self; eps := eps self; built := true; gamma := g; beta := b |}
  | _ => Raise TypeError
  end.

Definition call {n : nat} (self : t) (inputs : tensor R (S n)) : result (tensor R (S n)) :=
  let mean := reduce_last K_mean inputs in
  let std := reduce_last K_std inputs in
  centred ← broadcast sub inputs mean;
  scaled ← broadcast mul (expand (gamma self)) centred;
  let denom := tmap (fun s => add s (lit (eps self))) std in
  ratio ← broadcast div scaled denom;
  broadcast add ratio (expand (beta self)).

Definition compute_output_shape (self : t) (input_shape : pyval) : pyval := input_shape.

(** The layer after its two weights were given new values (by training
    or by loading): of the attributes only [gamma] and [beta] change. *)
Definition with_weights (self : t) (g b : list R) : t :=
  {| name := name self; eps := eps self; built := built self; gamma := g; beta := b |}.

(** The spec's formula for one position: the vector [x] of features
    becomes [gamma * (x - mean(x)) / (std(x) + eps) + beta], entry by
    entry. *)
Fixpoint normalize_entries (g x b : list R) (m s : R) (e : R) : list R :=
  match g, x, b with
  | gi :: g', xi :: x', bi :: b' =>
      add (div (mul gi (sub xi m)) (add s e)) bi :: normalize_entries g' x' b' m s e
  | _, _, _ => []
  end.

Definition normalize_position (g b : list R) (e : pyfloat) (x : list R) : list R :=
  normalize_entries g x b (K_mean x) (K_std x) (lit e).

End defs.
End LayerNormalization.

(** *** Double-precision scalars

    An instance of the scalar interface on the binary64 numbers of the
    kernel, with the mean and the population standard deviation summed
    from the left.  [astype(np.float32)] is left as the identity here:
    the instance keeps double precision. *)

Module Float64.

Definition of_Z (z : Z) : float :=
  match z with
  | Z0 => PrimFloat.zero
  | Zpos _ => PrimFloat.of_uint63 (Uint63.of_Z z)
  | Zneg p => PrimFloat.opp (PrimFloat.of_uint63 (Uint63.of_Z (Zpos p)))
  end.

Definition of_literal (l : pyfloat) : float :=
  if exp10 l <? 0
  then PrimFloat.div (of_Z (man l)) (of_Z (10 ^ (- exp10 l)))
  else PrimFloat.mul (of_Z (man l)) (of_Z (10 ^ exp10 l)).

Definition sum (l : list float) : float := foldl PrimFloat.add PrimFloat.zero l.

Definition mean (l : list float) : float :=
  PrimFloat.div (sum l) (of_Z (Z.of_nat (length l))).

Definition std (l : list float) : float :=
  let m := mean l in
  PrimFloat.sqrt
    (mean ((fun x => PrimFloat.mul (PrimFloat.sub x m) (PrimFloat.sub x m)) <$> l)).

#[global] Instance scalar : Scalar float := {|
  zero := PrimFloat.zero;
  one := PrimFloat.one;
  add := PrimFloat.add;
  sub := PrimFloat.sub;
  mul := PrimFloat.mul;
  div := PrimFloat.div;
  lit := of_literal;
  f32 := fun x => x;
  f32_zero := eq_refl;
  K_mean := mean;
  K_std := std
|}.

End Float64.

Definition ln_features : tensor float 3 :=
  [[[1; 2; 3; 4]; [0; 0; 0; 0]]; [[2; 4; 6; 8]; [1; 1; 1; 5]]]%float.

(** ** Arrays: a shape and the entries in row-major order *)

Record ndarray (A : Type) := NdArray { shape : list Z; data : list A }.
Arguments NdArray {A} shape data.
Arguments shape {A} _.
Arguments data {A} _.

(** [np.prod] of a shape. *)
Definition prod (s : list Z) : Z := foldr Z.mul 1 s.

Definition is_unknown (d : Z) : bool := d =? -1.

(** [reshape]: the entries are kept in order; one dimension may be given
    as [-1] and is then inferred from the number of entries. *)
Definition reshape {A} (a : ndarray A) (newshape : list Z) : result (ndarray A) :=
  let size := Z.of_nat (length (data a)) in
  let known := filter (fun d => negb (is_unknown d)) newshape in
  if negb (forallb (fun d => 0 <=? d) known) then Raise ValueError
  else
    match (length newshape - length known)%nat with
    | O => if prod newshape =? size then Ok (NdArray newshape (data a))
           else Raise ValueError
    | S O =>
        let p := prod known in
        if (p =? 0) || negb (size mod p =? 0) then Raise ValueError
        else Ok (NdArray ((fun d => if is_unknown d then size / p else d) <$> newshape)
                         (data a))
    | _ => Raise ValueError
    end.

Module K.

(** [K.arange(stop)]: the integers from 0 below [stop]; none when [stop]
    is negative; [stop] must be an int. *)
Definition arange (stop : pyval) : result (ndarray Z) :=
  match stop with
  | PInt n =>
      let n := Z.max 0 n in
      Ok (NdArray [n] (Z.of_nat <$> seq 0 (Z.to_nat n)))
  | _ => Raise TypeError
  end.

Definition reshape {A} (x : ndarray A) (newshape : list Z) : result (ndarray A) :=
  reshape x newshape.

(** A backend variable: a named slot of a fixed shape whose value lives
    in the session and changes under training or weight loading. *)
Record variable := Var { var_id : nat; var_name : string; var_shape : list Z }.

(** The symbolic tensors the layers of this repository make from
    variables: a variable read, or the transposition of a tensor.  A
    symbolic tensor holds no value; it is evaluated against the values
    the variables have at that time. *)
Inductive tensor :=
| Read (v : variable)
| Transpose (x : tensor).

Definition transpose (x : tensor) : tensor := Transpose x.

(** The variables a tensor depends on. *)
Fixpoint variables (x : tensor) : list variable :=
  match x with
  | Read v => [v]
  | Transpose y => variables y
  end.

(** All multi-indices of a shape, in row-major order, and the position
    of a multi-index in the row-major entries. *)
Fixpoint indices (s : list nat) : list (list nat) :=
  match s with
  | [] => [[]]
  | d :: s' => i ← seq 0 d; (fun idx => i :: idx) <$> indices s'
  end.

Definition offset (s idx : list nat) : nat :=
  foldl (fun acc di => (acc * di.1 + di.2)%nat) 0%nat (zip s idx).

(** The value of a transposition: the axes are reversed, the entry at a
    multi-index is the entry of the operand at the reversed
    multi-index. *)
Definition transpose_value {A} (a : ndarray A) : ndarray A :=
  let s := Z.to_nat <$> shape a in
  NdArray (reverse (shape a))
          (omap (fun idx => data a !! offset s (reverse idx)) (indices (reverse s))).

Fixpoint eval {A} (session : gmap nat (ndarray A)) (x : tensor) : option (ndarray A) :=
  match x with
  | Read v => session !! var_id v
  | Transpose y => transpose_value <$> eval session y
  end.

End K.

(** ** transformer/layers.py: PositionIdGenerator *)

Module PositionIdGenerator.

Record t := { name : string }.

Definition __init__ (name : string) : t := {| name := name |}.

(** A tensor handed to [call]: the shape the backend knows for it
    ([None] where it does not), and the values it holds at run time. *)
Record input := { int_shape : list pyval; values : ndarray Z }.

Definition call (self : t) (inputs : input) : result (ndarray Z) :=
  len ← py_index (funcs.shape_list (int_shape inputs)) 1;
  r ← K.arange len;
  K.reshape r [1; -1].

Definition compute_output_shape (self : t) (input_shape : pyval) : result pyval :=
  d ← py_getitem input_shape 1;
  Ok (PTuple [PInt 1; d]).

End PositionIdGenerator.

Definition token_batch : PositionIdGenerator.input :=
  {| PositionIdGenerator.int_shape := [PNone; PInt 5];
     PositionIdGenerator.values := NdArray [2; 5] [7; 7; 1; 0; 3; 9; 9; 9; 2; 4] |}.

(** ** Keras: the base layer

    What [keras.layers.Layer] keeps for every layer, and the part of its
    interface [TiedEmbeddingsTransposed] goes through. *)

Module Layer.

Record t := {
  name : string;
  trainable : bool;
  built : bool;
  _trainable_weights : list K.tensor;
  _non_trainable_weights : list K.tensor
}.

Definition __init__ (name : string) : t :=
  {| name := name; trainable := true; built := false;
     _trainable_weights := []; _non_trainable_weights := [] |}.

(** The property [trainable_weights] and its setter. *)
Definition trainable_weights (self : t) : list K.tensor :=
  if trainable self then _trainable_weights self else [].

Definition set_trainable_weights (self : t) (ws : list K.tensor) : t :=
  {| name := name self; trainable := trainable self; built := built self;
     _trainable_weights := ws; _non_trainable_weights := _non_trainable_weights self |}.

Definition non_trainable_weights (self : t) : list K.tensor :=
  if trainable self then _non_trainable_weights self
  else _trainable_weights self ++ _non_trainable_weights self.

Definition weights (self : t) : list K.tensor :=
  trainable_weights self ++ non_trainable_weights self.

Definition set_built (self : t) : t :=
  {| name := name self; trainable := trainable self; built := true;
     _trainable_weights := _trainable_weights self;
     _non_trainable_weights := _non_trainable_weights self |}.

End Layer.

(** ** The state the program runs in *)

Record world := World {
  (** names of the layers constructed so far, oldest first *)
  constructed : list string;
  (** number of backend variables created so far *)
  next_var : nat;
  (** layer objects that other objects hold a reference to *)
  objects : gmap nat Layer.t;
  (** paths of the files read so far, oldest first *)
  files_read : list string;
  (** number of samples drawn from NumPy's global random generator *)
  rng_drawn : nat;
  (** what [print] wrote, oldest first *)
  stdout : list pyval
}.

Definition empty_world : world :=
  {| constructed := []; next_var := 0%nat; objects := ∅; files_read := [];
     rng_drawn := 0%nat; stdout := [] |}.

(** A computation reads and changes the state and returns or raises; the
    state reached when an exception is raised is kept. *)
Definition M (A : Type) : Type := world → result A * world.

#[global] Instance M_ret : MRet M := fun _ a w => (Ok a, w).
#[global] Instance M_bind : MBind M := fun _ _ f m w =>
  match m w with
  | (Ok a, w') => f a w'
  | (Raise e, w') => (Raise e, w')
  end.

Definition lift {A} (r : result A) : M A := fun w => (r, w).

(** A new layer object: its name is recorded. *)
Definition with_layer (name : string) (w : world) : world :=
  {| constructed := constructed w ++ [name]; next_var := next_var w;
     objects := objects w; files_read := files_read w;
     rng_drawn := rng_drawn w; stdout := stdout w |}.

Definition new_layer (name : string) : M unit := fun w => (Ok tt, with_layer name w).

(** [K.variable]: a new variable. *)
Definition new_variable (name : string) (shape : list Z) : M K.variable := fun w =>
  (Ok (K.Var (next_var w) name shape),
   {| constructed := constructed w; next_var := S (next_var w);
      objects := objects w; files_read := files_read w;
      rng_drawn := rng_drawn w; stdout := stdout w |}).

(** The object a reference points to. *)
Definition deref (ref : nat) : M Layer.t := fun w =>
  match objects w !! ref with
  | Some o => (Ok o, w)
  | None => (Raise ValueError, w)
  end.

(** [Layer.add_weight(shape=..., name=...)] with the default
    [trainable=True]: a new variable, appended to [_trainable_weights].
    The initializer needs every dimension to be a non-negative int. *)
Definition int_dims (shape : list pyval) : result (list Z) :=
  map_result (fun d => match d with
                       | PInt z => if z <? 0 then Raise ValueError else Ok z
                       | _ => Raise TypeError
                       end) shape.

Definition add_weight (self : Layer.t) (shape : list pyval) (name : string)
  : M (K.tensor * Layer.t) :=
  dims ← lift (int_dims shape);
  v ← new_variable name dims;
  mret (K.Read v,
        Layer.set_trainable_weights self
          (Layer._trainable_weights self ++
           [K.Read v])).

(** ** Keras: Dense *)

Module Dense.

Record t := {
  base : Layer.t;
  units : Z;
  use_bias : bool;
  kernel : option K.tensor;
  bias : option K.tensor
}.

(** [Dense(units, use_bias=True, name=...)] *)
Definition __init__ (units : Z) (use_bias : bool) (name : string) : M t :=
  _ ← new_layer name;
  mret {| base := Layer.__init__ name; units := units; use_bias := use_bias;
          kernel := None; bias := None |}.

Definition py_len (v : pyval) : result Z :=
  match v with
  | PTuple items => Ok (Z.of_nat (length items))
  | _ => Raise TypeError
  end.

(** [Dense.build]: the kernel [(input_dim, units)], then the bias
    [(units,)] when the layer has one. *)
Definition build (self : t) (input_shape : pyval) : M t :=
  n ← lift (py_len input_shape);
  _ ← lift (py_assert (2 <=? n));
  input_dim ← lift (py_getitem input_shape (-1));
  '(k, l) ← add_weight (base self) [input_dim; PInt (units self)] "kernel";
  '(b, l) ← (if use_bias self
             then '(b, l) ← add_weight l [PInt (units self)] "bias"; mret (Some b, l)
             else mret (None, l));
  mret {| base := Layer.set_built l; units := units self; use_bias := use_bias self;
          kernel := Some k; bias := b |}.

End Dense.

(** ** transformer/layers.py: TiedEmbeddingsTransposed *)

Module TiedEmbeddingsTransposed.

(** A [Dense] layer with one more attribute, the reference [tied_to]. *)
Record t := {
  dense : Dense.t;
  tied_to : nat
}.

Definition __init__ (tied_to : nat) (units : Z) (use_bias : bool) (name : string) : M t :=
  d ← Dense.__init__ units use_bias name;
  mret {| dense := d; tied_to := tied_to |}.

Definition kernel (self : t) : option K.tensor := Dense.kernel (dense self).
Definition trainable_weights (self : t) : list K.tensor :=
  Layer.trainable_weights (Dense.base (dense self)).

Definition build (self : t) (input_shape : pyval) : M t :=
  d ← Dense.build (dense self) input_shape;
  tied ← deref (tied_to self);
  w0 ← lift (py_index (Layer.weights tied) 0);
  let d := {| Dense.base := Dense.base d; Dense.units := Dense.units d;
              Dense.use_bias := Dense.use_bias d;
              Dense.kernel := Some (K.transpose w0); Dense.bias := Dense.bias d |} in
  tw1 ← lift (py_index (Layer.trainable_weights (Dense.base d)) 1);
  mret {| dense := {| Dense.base := Layer.set_trainable_weights (Dense.base d) [tw1];
                      Dense.units := Dense.units d; Dense.use_bias := Dense.use_bias d;
                      Dense.kernel := Dense.kernel d; Dense.bias := Dense.bias d |};
          tied_to := tied_to self |}.

End TiedEmbeddingsTransposed.

(** A state in which the token-embedding layer (object 0) has been built:
    it has one weight, the matrix [embeddings] of 100 rows and 64
    columns. *)
Definition embeddings_variable : K.variable := K.Var 0 "embeddings" [100; 64].

Definition token_emb : Layer.t :=
  {| Layer.name := "TokenEmbedding"; Layer.trainable := true; Layer.built := true;
     Layer._trainable_weights := [K.Read embeddings_variable];
     Layer._non_trainable_weights := [] |}.

Definition world_with_embedding : world :=
  {| constructed := ["TokenEmbedding"]; next_var := 1%nat;
     objects := {[ 0%nat := token_emb ]}; files_read := [];
     rng_drawn := 0%nat; stdout := [] |}.

(** The decoder of [create_model], tied to object 0, before it is
    built. *)
Definition tied_decoder : TiedEmbeddingsTransposed.t :=
  {| TiedEmbeddingsTransposed.dense :=
       {| Dense.base := Layer.__init__ "TiedDecoder"; Dense.units := 100;
          Dense.use_bias := true; Dense.kernel := None; Dense.bias := None |};
     TiedEmbeddingsTransposed.tied_to := 0%nat |}.

(** ** Keras: the graph of layers

    A Keras tensor is the input of the model or the output of a layer
    applied to Keras tensors; it carries the shape Keras computed for it
    ([_keras_shape]).  Of a layer the graph keeps its name and what it
    computes. *)

Inductive op :=
| Conv1D (filters kernel_size : Z)
| Dropout (rate : pyfloat)
| Add
| Gelu
| LayerNorm (eps : pyfloat)
| SelfAttn (l : SelfAttention.t)
| PositionIds
| EmbeddingSum (output_dim : Z)
| TiedDense (tied_to : string) (units : Z)
| TimeDistributed (inner_name : string) (inner : op).

Record layer := Layer { layer_name : string; layer_op : op }.

Inductive ktensor :=
| Input (name : string) (batch_shape : pyval) (fed : bool)
| Call (l : layer) (from_list : bool) (args : list ktensor) (keras_shape : pyval).

Definition keras_shape_of (x : ktensor) : pyval :=
  match x with
  | Input _ s _ => s
  | Call _ _ _ s => s
  end.

(** [conv_output_length] with padding [valid], stride 1, dilation 1. *)
Definition conv_output_length (input_length : pyval) (filter_size : Z) : result pyval :=
  match input_length with
  | PNone => Ok PNone
  | PInt l => Ok (PInt (l - filter_size + 1))
  | PTuple _ => Raise TypeError
  end.

(** A dimension of a shape: [None] or an int. *)
Definition is_dim (d : pyval) : Prop := d = PNone ∨ ∃ z, d = PInt z.

(** Equality of two dimensions ([None] or an int). *)
Definition dim_eqb (a b : pyval) : bool :=
  match a, b with
  | PNone, PNone => true
  | PInt x, PInt y => x =? y
  | _, _ => false
  end.

Definition is_int (d : pyval) : bool :=
  match d with
  | PInt _ => true
  | _ => false
  end.

(** [_Merge._compute_elemwise_op_output_shape] on two shapes of one
    rank. *)
Fixpoint elemwise_shape (s1 s2 : list pyval) : result (list pyval) :=
  match s1, s2 with
  | [], [] => Ok []
  | i :: s1', j :: s2' =>
      d ← match i, j with
          | PNone, _ | _, PNone => Ok PNone
          | PInt a, PInt b =>
              if a =? 1 then Ok j
              else if b =? 1 then Ok i
              else if a =? b then Ok i else Raise ValueError
          | _, _ => Raise TypeError
          end;
      rest ← elemwise_shape s1' s2';
      Ok (d :: rest)
  | _, _ => Raise ValueError
  end.

(** [_Merge]: at least two inputs; at most one batch size apart from
    [None]; the other dimensions are combined elementwise; the batch
    dimension of the output is the common one, or [None]. *)
Definition merge_shape (input_shape : pyval) : result pyval :=
  match input_shape with
  | PTuple (PTuple (b1 :: s1) :: PTuple (b2 :: s2) :: []) =>
      if is_int b1 && is_int b2 && negb (dim_eqb b1 b2)
      then Raise ValueError
      else
        s ← elemwise_shape s1 s2;
        Ok (PTuple ((if dim_eqb b1 b2 then b1 else PNone) :: s))
  | _ => Raise ValueError
  end.

(** [Dense.compute_output_shape], after the check [Dense.build] makes. *)
Definition dense_shape (units : Z) (input_shape : pyval) : result pyval :=
  match input_shape with
  | PTuple dims =>
      _ ← py_assert (2 <=? Z.of_nat (length dims));
      last ← py_index dims (-1);
      match last with
      | PInt c =>
          _ ← py_assert (negb (c =? 0));
          Ok (PTuple (py_slice dims 0 (-1) ++ [PInt units]))
      | _ => Raise AssertionError
      end
  | _ => Raise TypeError
  end.

(** Modelled from the spec: [transformer/embedding.py] ([Embedding]) is
    not under src/.  Spec 2 and 6: the component takes
    [(tokens, segment_ids, position_ids)], combines the token, segment
    and position embeddings into one representation, and exposes the
    sub-layer [token_emb]; spec 4.7 and 8 fix the shape of the result
    for tokens [(batch, max_len)] as [(batch, max_len, embedding_dim)]. *)
Definition embedding_shape (output_dim : Z) (input_shape : pyval) : result pyval :=
  match input_shape with
  | PTuple [PTuple [b; l]; PTuple [_; _]; PTuple [_; _]] =>
      Ok (PTuple [b; l; PInt output_dim])
  | _ => Raise ValueError
  end.

(** The shape a layer declares for its output, after the checks it makes
    when it is built. *)
Fixpoint output_shape (o : op) (input_shape : pyval) : result pyval :=
  match o with
  | Conv1D filters kernel_size =>
      match input_shape with
      | PTuple [b; l; PInt _] =>
          l' ← conv_output_length l kernel_size;
          Ok (PTuple [b; l'; PInt filters])
      | _ => Raise ValueError
      end
  | Dropout _ => Ok input_shape
  | Add => merge_shape input_shape
  | Gelu => Ok input_shape
  | LayerNorm _ =>
      match input_shape with
      | PTuple dims =>
          _ ← int_dims (py_slice dims (-1) (Z.of_nat (length dims)));
          Ok input_shape
      | _ => Raise TypeError
      end
  | SelfAttn l => SelfAttention.compute_output_shape l input_shape
  | PositionIds =>
      PositionIdGenerator.compute_output_shape (PositionIdGenerator.__init__ "") input_shape
  | EmbeddingSum output_dim => embedding_shape output_dim input_shape
  | TiedDense _ units => dense_shape units input_shape
  | TimeDistributed _ inner =>
      match input_shape with
      | PTuple (b :: timesteps :: rest) =>
          _ ← py_assert (3 <=? Z.of_nat (length (b :: timesteps :: rest)));
          child ← output_shape inner (PTuple (b :: rest));
          match child with
          | PTuple (cb :: crest) => Ok (PTuple (cb :: timesteps :: crest))
          | _ => Raise TypeError
          end
      | _ => Raise AssertionError
      end
  end.

(** The shape as Keras passes it to a layer: the shape of the tensor, or
    the list of the shapes when the layer was called on a list. *)
Definition input_shape_of (from_list : bool) (shapes : list pyval) : result pyval :=
  if from_list then Ok (PTuple shapes)
  else match shapes with
       | [s] => Ok s
       | _ => Raise TypeError
       end.

(** A layer called on a tensor, and on a list of tensors. *)
Definition apply_layer (l : layer) (from_list : bool) (args : list ktensor) : M ktensor :=
  s ← lift (input_shape_of from_list (keras_shape_of <$> args)
            ≫= output_shape (layer_op l));
  mret (Call l from_list args s).

Definition call (l : layer) (x : ktensor) : M ktensor := apply_layer l false [x].
Definition call_list (l : layer) (xs : list ktensor) : M ktensor := apply_layer l true xs.

(** A layer constructor: the object is recorded under its name. *)
Definition make (o : op) (name : string) : M layer :=
  _ ← new_layer name; mret (Layer name o).

(** The shapes in a graph when the model is fed a batch of [batch]
    samples: the batch dimension an input leaves open is [batch], and
    every layer computes its shape again. *)
Definition feed_batch (batch : Z) (s : pyval) : pyval :=
  match s with
  | PTuple (PNone :: rest) => PTuple (PInt batch :: rest)
  | _ => s
  end.

Fixpoint shape_at (batch : Z) (x : ktensor) : result pyval :=
  match x with
  | Input _ s _ => Ok (feed_batch batch s)
  | Call l from_list args _ =>
      shapes ← (fix go (ts : list ktensor) : result (list pyval) :=
                  match ts with
                  | [] => Ok []
                  | t :: ts' => s ← shape_at batch t; ss ← go ts'; Ok (s :: ss)
                  end) args;
      s ← input_shape_of from_list shapes;
      output_shape (layer_op l) s
  end.

(** [np.random.randint(low, high, shape)] and the like: samples are drawn
    from the global generator. *)
Definition with_drawn (n : nat) (w : world) : world :=
  {| constructed := constructed w; next_var := next_var w; objects := objects w;
     files_read := files_read w; rng_drawn := (rng_drawn w + n)%nat;
     stdout := stdout w |}.

Definition draw (n : Z) : M unit := fun w => (Ok tt, with_drawn (Z.to_nat n) w).

(** A file that was opened: its path is recorded. *)
Definition with_file (p : string) (w : world) : world :=
  {| constructed := constructed w; next_var := next_var w; objects := objects w;
     files_read := files_read w ++ [p]; rng_drawn := rng_drawn w;
     stdout := stdout w |}.

Definition randint (low high : Z) (shape : list Z) : M unit :=
  if high <=? low then lift (Raise ValueError) else draw (prod shape).

(** [print] *)
Definition print (v : pyval) : M unit := fun w =>
  (Ok tt,
   {| constructed := constructed w; next_var := next_var w; objects := objects w;
      files_read := files_read w; rng_drawn := rng_drawn w;
      stdout := stdout w ++ [v] |}).

(** [Input(batch_shape=..., name=..., tensor=...)]: an input layer is
    constructed; [fed] tells that a tensor was given. *)
Definition make_input (batch_shape : pyval) (name : string) (fed : bool) : M ktensor :=
  _ ← new_layer name; mret (Input name batch_shape fed).

(** ** Constants of [data/vocab.py] and [transformer/config.py]

    The two files are not under src/: the constants the code reads from
    them are parameters. *)
Record constants := {
  SPECIAL_COUNT : Z;
  NUM_SEGMENTS : Z;
  USE_ONE_DROPOUT : bool;
  IGNORE_MASK : bool
}.

(** ** transformer/embedding.py *)

Module Embedding.

Record t := { output_dim : Z; token_emb : string }.

(** Modelled from the spec: [transformer/embedding.py] ([Embedding]) is
    not under src/.  Spec 6: the component exposes a sub-layer
    [token_emb]; constructing the component constructs that sub-layer.
    The spec gives no layer names: the two names here only tell the
    objects apart. *)
Definition __init__ (output_dim : Z) (dropout : pyfloat) (vocab_size max_len : Z)
    (trainable_pos_embedding use_one_dropout : bool) : M t :=
  _ ← new_layer "TokenEmbedding";
  mret {| output_dim := output_dim; token_emb := "TokenEmbedding" |}.

Definition __call__ (self : t) (tokens segment_ids pos_ids : ktensor) : M ktensor :=
  call_list (Layer "Embedding" (EmbeddingSum (output_dim self)))
    [tokens; segment_ids; pos_ids].

End Embedding.

(** ** transformer/model.py *)

Definition layer_name_of (layer_id : Z) (suffix : string) : string :=
  "layer_" +:+ pretty layer_id +:+ "/" +:+ suffix.

Module MultiHeadAttention.

Record t := { c_attn : layer; self_attn : layer; c_attn_proj : layer }.

Definition __init__ (n_state n_head : Z) (attention_dropout : pyfloat)
    (ignore_mask : bool) (layer_id : Z) : M t :=
  r ← lift (py_mod n_state n_head);
  _ ← lift (py_assert (r =? 0));
  c_attn ← make (Conv1D (3 * n_state) 1) (layer_name_of layer_id "c_attn");
  self_attn ← make (SelfAttn (SelfAttention.__init__ n_head n_state attention_dropout
                                ignore_mask (layer_name_of layer_id "self_attention")))
                   (layer_name_of layer_id "self_attention");
  c_attn_proj ← make (Conv1D n_state 1) (layer_name_of layer_id "c_attn_proj");
  mret {| c_attn := c_attn; self_attn := self_attn; c_attn_proj := c_attn_proj |}.

Definition __call__ (self : t) (x : ktensor) (mask : option ktensor) : M ktensor :=
  output ← call (c_attn self) x;
  output ← match mask with
           | None => call (self_attn self) output
           | Some m => call_list (self_attn self) [output; m]
           end;
  call (c_attn_proj self) output.

End MultiHeadAttention.

Module PositionWiseFF.

Record t := { c_fc : layer; activation : layer; c_ffn_proj : layer }.

Definition __init__ (n_state d_hid layer_id : Z) : M t :=
  c_fc ← make (Conv1D d_hid 1) (layer_name_of layer_id "c_fc");
  activation ← make Gelu (layer_name_of layer_id "gelu");
  c_ffn_proj ← make (Conv1D n_state 1) (layer_name_of layer_id "c_ffn_proj");
  mret {| c_fc := c_fc; activation := activation; c_ffn_proj := c_ffn_proj |}.

Definition __call__ (self : t) (x : ktensor) : M ktensor :=
  h ← call (c_fc self) x;
  output ← call (activation self) h;
  call (c_ffn_proj self) output.

End PositionWiseFF.

Module EncoderLayer.

Record t := {
  attention : MultiHeadAttention.t;
  drop1 : layer;
  add1 : layer;
  ln1 : layer;
  ffn : PositionWiseFF.t;
  drop2 : layer;
  add2 : layer;
  ln2 : layer
}.

Definition __init__ (n_state n_head d_hid : Z) (residual_dropout attention_dropout : pyfloat)
    (ignore_mask : bool) (layer_id : Z) : M t :=
  attention ← MultiHeadAttention.__init__ n_state n_head attention_dropout ignore_mask
                layer_id;
  drop1 ← make (Dropout residual_dropout) (layer_name_of layer_id "ln_1_drop");
  add1 ← make Add (layer_name_of layer_id "ln_1_add");
  ln1 ← make (LayerNorm LayerNormalization.default_eps) (layer_name_of layer_id "ln_1");
  ffn ← PositionWiseFF.__init__ n_state d_hid layer_id;
  drop2 ← make (Dropout residual_dropout) (layer_name_of layer_id "ln_2_drop");
  add2 ← make Add (layer_name_of layer_id "ln_2_add");
  ln2 ← make (LayerNorm LayerNormalization.default_eps) (layer_name_of layer_id "ln_2");
  mret {| attention := attention; drop1 := drop1; add1 := add1; ln1 := ln1;
          ffn := ffn; drop2 := drop2; add2 := add2; ln2 := ln2 |}.

Definition __call__ (self : t) (x : ktensor) (mask : option ktensor) : M ktensor :=
  a ← MultiHeadAttention.__call__ (attention self) x mask;
  dropped ← call (drop1 self) a;
  summed ← call_list (add1 self) [x; dropped];
  n ← call (ln1 self) summed;
  f ← PositionWiseFF.__call__ (ffn self) n;
  dropped ← call (drop2 self) f;
  summed ← call_list (add2 self) [n; dropped];
  call (ln2 self) summed.

End EncoderLayer.

Record Model := {
  inputs : list ktensor;
  outputs : list ktensor;
  model_name : string
}.

Record create_model_args := {
  embedding_dim : Z;
  embedding_dropout : pyfloat;
  vocab_size : Z;
  max_len : Z;
  trainable_pos_embedding : bool;
  num_heads : Z;
  num_layers : Z;
  attention_dropout : pyfloat;
  use_one_embedding_dropout : bool;
  d_hid : Z;
  residual_dropout : pyfloat;
  ignore_mask : bool;
  debug : bool
}.

(** The defaults in the signature of [create_model]. *)
Definition create_model_defaults (c : constants) : create_model_args :=
  {| embedding_dim := 768; embedding_dropout := Dec 1 (-1);
     vocab_size := 30000 + SPECIAL_COUNT c; max_len := 512;
     trainable_pos_embedding := true; num_heads := 12; num_layers := 12;
     attention_dropout := Dec 1 (-1); use_one_embedding_dropout := USE_ONE_DROPOUT c;
     d_hid := 768 * 4; residual_dropout := Dec 1 (-1);
     ignore_mask := IGNORE_MASK c; debug := false |}.

(** [for i in range(count): x = EncoderLayer(...)(x, mask)], from index
    [i] on. *)
Fixpoint encoder_stack (a : create_model_args) (mask : option ktensor)
    (count : nat) (i : Z) (x : ktensor) : M ktensor :=
  match count with
  | O => mret x
  | S count' =>
      l ← EncoderLayer.__init__ (embedding_dim a) (num_heads a) (d_hid a)
            (residual_dropout a) (attention_dropout a) (ignore_mask a) i;
      x' ← EncoderLayer.__call__ l x mask;
      encoder_stack a mask count' (i + 1) x'
  end.

(** The tensor given to an input in debug mode: a variable holding three
    random samples. *)
Definition debug_tensor (a : create_model_args) (low high : Z) (shape : list Z) : M unit :=
  if debug a
  then _ ← randint low high shape; _ ← new_variable "Variable" shape; mret tt
  else mret tt.

Definition create_model (a : create_model_args) : M Model :=
  let L := max_len a in
  mask ← (if ignore_mask a then mret None
          else
            _ ← debug_tensor a 0 2 [3; 1; L; L];
            m ← make_input (PTuple [PNone; PInt 1; PInt L; PInt L]) "MaskInput" (debug a);
            mret (Some m));
  _ ← debug_tensor a 0 (vocab_size a) [3; L];
  tokens ← make_input (PTuple [PNone; PInt L]) "TokenInput" (debug a);
  _ ← debug_tensor a 0 2 [3; L];
  segment_ids ← make_input (PTuple [PNone; PInt L]) "SegmentInput" (debug a);
  position ← make PositionIds "PositionInput";
  pos_ids ← call position tokens;
  embedding_layer ← Embedding.__init__ (embedding_dim a) (embedding_dropout a)
                      (vocab_size a) L (trainable_pos_embedding a)
                      (use_one_embedding_dropout a);
  x ← Embedding.__call__ embedding_layer tokens segment_ids pos_ids;
  x ← encoder_stack a mask (Z.to_nat (num_layers a)) 0 x;
  tied ← make (TiedDense (Embedding.token_emb embedding_layer) (vocab_size a)) "TiedDecoder";
  decoder ← make (TimeDistributed (layer_name tied) (layer_op tied)) "TiedDecoderDistributed";
  logits ← call decoder x;
  _ ← (if debug a
       then sx ← lift (shape_at 3 x); sl ← lift (shape_at 3 logits); print (PTuple [sx; sl])
       else mret tt);
  _ ← new_layer "Transformer";
  mret {| inputs := [tokens; segment_ids] ++ (if ignore_mask a then [] else option_list mask);
          outputs := [x; logits]; model_name := "Transformer" |}.

(** [create_model(num_layers=2, embedding_dim=64, num_heads=4, max_len=16,
    vocab_size=100)]: the other arguments keep their defaults. *)
Definition small_model_args (c : constants) : create_model_args :=
  let d := create_model_defaults c in
  {| embedding_dim := 64; embedding_dropout := embedding_dropout d;
     vocab_size := 100; max_len := 16;
     trainable_pos_embedding := trainable_pos_embedding d;
     num_heads := 4; num_layers := 2;
     attention_dropout := attention_dropout d;
     use_one_embedding_dropout := use_one_embedding_dropout d;
     d_hid := d_hid d; residual_dropout := residual_dropout d;
     ignore_mask := ignore_mask d; debug := debug d |}.

(** [create_model(num_layers=n, embedding_dim=5, num_heads=2, max_len=16,
    vocab_size=100, ignore_mask=False)]: 5 is not a multiple of 2. *)
Definition indivisible_args (n : Z) : create_model_args :=
  {| embedding_dim := 5; embedding_dropout := Dec 1 (-1);
     vocab_size := 100; max_len := 16; trainable_pos_embedding := true;
     num_heads := 2; num_layers := n;
     attention_dropout := Dec 1 (-1); use_one_embedding_dropout := false;
     d_hid := 768 * 4; residual_dropout := Dec 1 (-1);
     ignore_mask := false; debug := false |}.

(** The layers [create_model] has constructed when it reaches the first
    [EncoderLayer]. *)
Definition layers_before_encoder (a : create_model_args) : list string :=
  (if ignore_mask a then [] else ["MaskInput"])
  ++ ["TokenInput"; "SegmentInput"; "PositionInput"; "TokenEmbedding"].

(** An encoder layer of width 64 with 4 heads, an input of that width and
    a mask. *)
Definition encoder_0 : M EncoderLayer.t :=
  EncoderLayer.__init__ 64 4 3072 (Dec 1 (-1)) (Dec 1 (-1)) false 0.

Definition hidden_input : ktensor := Input "Hidden" (PTuple [PNone; PInt 16; PInt 64]) false.
Definition mask_input : ktensor :=
  Input "MaskInput" (PTuple [PNone; PInt 1; PInt 16; PInt 16]) false.

(** ** NumPy *)

Module np.

(** [np.concatenate(arrays, 0)]: at least one array, none of rank 0, all
    with the same dimensions after the first. *)
Definition concatenate {A} (arrays : list (ndarray A)) : result (ndarray A) :=
  match arrays with
  | [] => Raise ValueError
  | first :: _ =>
      match shape first with
      | [] => Raise ValueError
      | _ :: rest =>
          if forallb (fun a => match shape a with
                               | [] => false
                               | _ :: r => bool_decide (r = rest)
                               end) arrays
          then Ok (NdArray (foldr Z.add 0 ((fun a => default 0 (head (shape a))) <$> arrays)
                            :: rest)
                           (arrays ≫= data))
          else Raise ValueError
      end
  end.

(** [ary[st:en]]: a slice along the first axis. *)
Definition slice {A} (ary : ndarray A) (st en : Z) : result (ndarray A) :=
  match shape ary with
  | [] => Raise IndexError
  | n :: rest =>
      let row := prod rest in
      let lo := py_clamp n st in
      let hi := py_clamp n en in
      let len := Z.max 0 (hi - lo) in
      Ok (NdArray (len :: rest)
                  (take (Z.to_nat (len * row)) (drop (Z.to_nat (lo * row)) (data ary))))
  end.

(** [np.cumsum] *)
Fixpoint cumsum_from (acc : Z) (l : list Z) : list Z :=
  match l with
  | [] => []
  | x :: l' => (acc + x) :: cumsum_from (acc + x) l'
  end.

Definition cumsum (l : list Z) : list Z := cumsum_from 0 l.

(** [np.split(ary, indices)] along the first axis: the pieces between
    consecutive division points [0, indices..., len(ary)]. *)
Definition split {A} (ary : ndarray A) (indices : list Z) : result (list (ndarray A)) :=
  match shape ary with
  | [] => Raise ValueError
  | n :: _ =>
      let div_points := 0 :: indices ++ [n] in
      map_result (fun p => slice ary p.1 p.2) (zip div_points (tail div_points))
  end.

(** [np.zeros(shape)] *)
Definition zeros {A} (z : A) (shape : list Z) : result (ndarray A) :=
  if forallb (fun d => 0 <=? d) shape
  then Ok (NdArray shape (replicate (Z.to_nat (prod shape)) z))
  else Raise ValueError.

(** [a.astype(np.float32)] and [a * x] for a Python float [x] *)
Definition astype_float32 {R} `{Scalar R} (a : ndarray R) : ndarray R :=
  NdArray (shape a) (f32 <$> data a).

Definition scale {R} `{Scalar R} (a : ndarray R) (x : pyfloat) : ndarray R :=
  NdArray (shape a) ((fun v => mul v (lit x)) <$> data a).

End np.

(** The flat pieces of sizes [sizes] that follow position [acc] of a
    stream of entries. *)
Fixpoint pieces_from {A} (stream : list A) (acc : Z) (sizes : list Z) : list (ndarray A) :=
  match sizes with
  | [] => []
  | s :: sizes' =>
      NdArray [s] (take (Z.to_nat s) (drop (Z.to_nat acc) stream))
      :: pieces_from stream (acc + s) sizes'
  end.

(** A file of a checkpoint directory: the JSON list of shapes, or an
    array saved by NumPy. *)
Inductive file (R : Type) :=
| Json (shapes : list (list Z))
| Npy (a : ndarray R).
Arguments Json {R} shapes.
Arguments Npy {R} a.

(** ** transformer/model.py: load_openai_model *)

Section loader.
Context {R : Type} `{Scalar R}.

(** The samples of NumPy's global generator, in the order they are
    drawn. *)
Variable normal : nat → R.

(** The files on disk. *)
Variable fs : gmap string (file R).

Variable c : constants.

(** Keras: the variables of a model as [model.weights] lists them, and
    [model.set_weights]. *)
Variable Model_weights : Model → list K.variable.
Variable Model_set_weights : Model → list (ndarray R) → M unit.

Definition open_file (p : string) : M (file R) := fun w =>
  match fs !! p with
  | Some f => (Ok f, with_file p w)
  | None => (Raise FileNotFoundError, w)
  end.

(** [json.load(open(p))] *)
Definition json_load (p : string) : M (list (list Z)) :=
  f ← open_file p;
  match f with
  | Json shapes => mret shapes
  | Npy _ => lift (Raise ValueError)
  end.

(** [np.load(p)] *)
Definition np_load (p : string) : M (ndarray R) :=
  f ← open_file p;
  match f with
  | Npy a => mret a
  | Json _ => lift (Raise ValueError)
  end.

(** [np.random.randn(d0, d1)] *)
Definition randn (d0 d1 : Z) : M (ndarray R) := fun w =>
  if (d0 <? 0) || (d1 <? 0) then (Raise ValueError, w)
  else
    let n := Z.to_nat (d0 * d1) in
    (Ok (NdArray [d0; d1] ((fun k => normal (rng_drawn w + k)%nat) <$> seq 0 n)),
     with_drawn n w).

(** [for x in l: ...] with a body that may raise *)
Fixpoint for_each {A B} (f : A → M B) (l : list A) : M (list B) :=
  match l with
  | [] => mret []
  | x :: l' => y ← f x; ys ← for_each f l'; mret (y :: ys)
  end.

Definition params_file (path : string) (n : nat) : string :=
  path +:+ "params_" +:+ pretty n +:+ ".npy".

(** [l[i] = x] on a Python list *)
Definition py_setitem {A} (l : list A) (i : Z) (x : A) : result (list A) :=
  let n := Z.of_nat (length l) in
  let j := if i <? 0 then i + n else i in
  if (0 <=? j) && (j <? n) then Ok (<[Z.to_nat j := x]> l) else Raise IndexError.

(** Lines 84 to 93: the parameter list made from the checkpoint.
    [np.prod] of an empty shape is the float [1.0]; the offsets are then
    floats, and [np.split] refuses them as slice bounds. *)
Definition init_params (path : string) : M (list (ndarray R)) :=
  shapes ← json_load (path +:+ "params_shapes.json");
  let offsets := np.cumsum (prod <$> shapes) in
  arrays ← for_each (fun n => np_load (params_file path n)) (seq 0 10);
  flat ← lift (np.concatenate arrays);
  _ ← lift (if existsb (fun s => bool_decide (s = [])) shapes
            then Raise TypeError else Ok tt);
  pieces ← lift (np.split flat offsets);
  let pieces := py_slice pieces 0 (-1) in
  params ← lift (zip_with_result (fun param shape => reshape param shape) pieces shapes);
  (* add special token embedding to token embedding *)
  token ← lift (py_index params 1);
  special ← randn (SPECIAL_COUNT c) 768;
  let special := np.scale (np.astype_float32 special) (Dec 2 (-2)) in
  extended ← lift (np.concatenate [token; special]);
  params ← lift (py_setitem params 1 extended);
  (* segment embedding *)
  segment ← lift (np.zeros zero [NUM_SEGMENTS c; 768]);
  let params := np.astype_float32 segment :: params in
  (* decoder's bias *)
  bias ← lift (np.zeros zero [40478 + SPECIAL_COUNT c]);
  mret (params ++ [np.astype_float32 bias]).

(** Lines 98 to 101: the check made in debug mode. *)
Definition check_weights (weights : list K.variable) (params : list (ndarray R))
  : result unit :=
  _ ← py_assert (Z.of_nat (length weights) =? Z.of_nat (length params));
  _ ← zip_with_result (fun a b => py_assert (bool_decide (K.var_shape a = shape b)))
        weights params;
  Ok tt.

(** The arguments [load_openai_model] gives to [create_model]. *)
Definition openai_args (ignore_mask use_one_embedding_dropout debug : bool)
  : create_model_args :=
  {| embedding_dim := 768; embedding_dropout := Dec 1 (-1);
     vocab_size := 40478 + SPECIAL_COUNT c; max_len := 512;
     ignore_mask := ignore_mask; trainable_pos_embedding := true;
     num_heads := 12; num_layers := 12;
     use_one_embedding_dropout := use_one_embedding_dropout;
     d_hid := 4 * 768; attention_dropout := Dec 1 (-1);
     residual_dropout := Dec 1 (-1); debug := debug |}.

Definition load_openai_model (path : string) (ignore_mask use_one_embedding_dropout
    debug : bool) : M Model :=
  params ← init_params path;
  model ← create_model (openai_args ignore_mask use_one_embedding_dropout debug);
  _ ← (if debug then lift (check_weights (Model_weights model) params) else mret tt);
  _ ← Model_set_weights model params;
  mret model.

(** The parameter list as the spec words it: the concatenated stream is
    cut shape by shape, each piece holding as many entries as its shape
    has. *)
Fixpoint cut (shapes : list (list Z)) (stream : list R) : list (ndarray R) :=
  match shapes with
  | [] => []
  | s :: shapes' =>
      NdArray s (take (Z.to_nat (prod s)) stream)
      :: cut shapes' (drop (Z.to_nat (prod s)) stream)
  end.

(** The rows appended to the token embedding: fresh samples, as
    [float32], times 0.02. *)
Definition special_rows (drawn : nat) : list R :=
  (fun k => mul (f32 (normal (drawn + k)%nat)) (lit (Dec 2 (-2))))
  <$> seq 0 (Z.to_nat (SPECIAL_COUNT c * 768)).

End loader.

(** A small checkpoint directory: a manifest of three shapes and ten
    archives, the last entry of which no shape covers. *)
Definition checkpoint_shapes : list (list Z) := [[2]; [1; 768]; [3]].

Definition checkpoint_arrays : list (ndarray float) :=
  [NdArray [2] [1.5; 2.5]%float;
   NdArray [768] (replicate 768 0.25%float);
   NdArray [4] [1; 2; 3; 4]%float]
  ++ replicate 7 (NdArray [0] []).

Definition checkpoint : gmap string (file float) :=
  list_to_map
    (("./openai_weights/params_shapes.json", Json checkpoint_shapes)
     :: zip (params_file "./openai_weights/" <$> seq 0 10) (Npy <$> checkpoint_arrays)).

Definition sample_constants : constants :=
  {| SPECIAL_COUNT := 3; NUM_SEGMENTS := 2; USE_ONE_DROPOUT := false;
     IGNORE_MASK := false |}.

(** A stand-in for the samples of the generator. *)
Definition sample_stream (k : nat) : float := Float64.of_Z (Z.of_nat k).

(** ** Layer names and states, for the properties of [model.py] *)

(** The state after layers of the given names were constructed, in this
    order. *)
Definition with_layers (names : list string) (w : world) : world :=
  foldl (fun w name => with_layer name w) w names.

(** The layers [EncoderLayer.__init__] constructs, in the order it
    constructs them: the part of the name after [layer_<id>/]. *)
Definition encoder_layer_suffixes : list string :=
  ["c_attn"; "self_attention"; "c_attn_proj";
   "ln_1_drop"; "ln_1_add"; "ln_1";
   "c_fc"; "gelu"; "c_ffn_proj";
   "ln_2_drop"; "ln_2_add"; "ln_2"].

Definition encoder_layer_names (layer_id : Z) : list string :=
  layer_name_of layer_id <$> encoder_layer_suffixes.

(** The layers the loop of [create_model] constructs in [count] rounds
    from index [i] on. *)
Fixpoint encoder_stack_names (count : nat) (i : Z) : list string :=
  match count with
  | O => []
  | S count' => encoder_layer_names i ++ encoder_stack_names count' (i + 1)
  end.

(** [c in s] for a character and a string. *)
Fixpoint has_char (c : ascii) (s : string) : bool :=
  match s with
  | EmptyString => false
  | String c' s' => bool_decide (c = c') || has_char c s'
  end.

(** [create_model(num_layers=1, embedding_dim=64, num_heads=0, max_len=16,
    vocab_size=100, ignore_mask=False)] *)
Definition headless_args : create_model_args :=
  {| embedding_dim := 64; embedding_dropout := Dec 1 (-1);
     vocab_size := 100; max_len := 16; trainable_pos_embedding := true;
     num_heads := 0; num_layers := 1;
     attention_dropout := Dec 1 (-1); use_one_embedding_dropout := false;
     d_hid := 768 * 4; residual_dropout := Dec 1 (-1);
     ignore_mask := false; debug := false |}.

(** The state after the files of the given paths were opened, in this
    order. *)
Definition with_files (paths : list string) (w : world) : world :=
  foldl (fun w p => with_file p w) w paths.

(** [TiedEmbeddingsTransposed(token_emb, units=100, use_bias=False,
    name='TiedDecoder')], tied to object 0, before it is built. *)
Definition tied_decoder_no_bias : TiedEmbeddingsTransposed.t :=
  {| TiedEmbeddingsTransposed.dense :=
       {| Dense.base := Layer.__init__ "TiedDecoder"; Dense.units := 100;
          Dense.use_bias := false; Dense.kernel := None; Dense.bias := None |};
     TiedEmbeddingsTransposed.tied_to := 0%nat |}.

(** The small checkpoint directory with [params_3.npy] missing. *)
Definition checkpoint_without_3 : gmap string (file float) :=
  delete (params_file "./openai_weights/" 3) checkpoint.

(** A checkpoint directory whose manifest holds one shape only. *)
Definition checkpoint_one_shape : gmap string (file float) :=
  <[ "./openai_weights/params_shapes.json" := Json [[2]] ]> checkpoint.

(** A checkpoint directory whose second parameter has 2 columns, not
    768. *)
Definition checkpoint_narrow : gmap string (file float) :=
  <[ "./openai_weights/params_shapes.json" := Json [[2]; [384; 2]; [3]] ]> checkpoint.

(** The state after [debug_tensor] ran: in debug mode the samples were
    drawn and the variable was created. *)
Definition with_debug_tensor (a : create_model_args) (shape : list Z) (w : world) : world :=
  if debug a
  then (new_variable "Variable" shape (with_drawn (Z.to_nat (prod shape)) w)).2
  else w.

(** [create_model(num_layers=1, embedding_dim=64, num_heads=4, max_len=16,
    vocab_size=100, ignore_mask=False, debug=True)] *)
Definition debug_model_args : create_model_args :=
  {| embedding_dim := 64; embedding_dropout := Dec 1 (-1);
     vocab_size := 100; max_len := 16; trainable_pos_embedding := true;
     num_heads := 4; num_layers := 1;
     attention_dropout := Dec 1 (-1); use_one_embedding_dropout := false;
     d_hid := 768 * 4; residual_dropout := Dec 1 (-1);
     ignore_mask := false; debug := true |}.

(** What [ary[lo:hi]] holds for a flat array of the entries [stream]:
    the bounds are clamped to the array. *)
Definition flat_slice {A} (stream : list A) (lo hi : Z) : ndarray A :=
  let n := Z.of_nat (length stream) in
  let len := Z.max 0 (py_clamp n hi - py_clamp n lo) in
  NdArray [len] (take (Z.to_nat (len * 1)) (drop (Z.to_nat (py_clamp n lo * 1)) stream)).

(** The consecutive slices of sizes [sizes] from position [acc] on. *)
Fixpoint slices_from {A} (stream : list A) (acc : Z) (sizes : list Z) : list (ndarray A) :=
  match sizes with
  | [] => []
  | s :: sizes' => flat_slice stream acc (acc + s) :: slices_from stream (acc + s) sizes'
  end.

(** A checkpoint directory whose manifest asks for more entries than the
    archives hold. *)
Definition checkpoint_truncated : gmap string (file float) :=
  <[ "./openai_weights/params_shapes.json" := Json [[2]; [1; 768]; [5]] ]> checkpoint.
(** * Properties *)

(** *** SelfAttention: output shape *)

Lemma split_heads_divisible (b s n_state n_head : Z) :
  n_head ≠ 0 → n_state mod n_head = 0 →
  funcs.split_heads [b; s; n_state] n_head = Ok [b; n_head; s; n_state / n_head].
Proof.
  intros Hpos Hmod. unfold funcs.split_heads.
  destruct (Z.eqb_spec n_head 0) as [->|_]; [lia|].
  assert (Hdiv : n_head * (n_state / n_head) = n_state).
  { rewrite (Z.div_mod n_state n_head) at 2 by lia. lia. }
  by rewrite Hdiv, Z.eqb_refl.
Qed.

(** *** Python sequences *)

Lemma py_index_lookup {A} (l : list A) (i : Z) (a : A) :
  0 ≤ i → l !! Z.to_nat i = Some a → py_index l i = Ok a.
Proof.
  intros Hi Hl. unfold py_index.
  pose proof (lookup_lt_Some _ _ _ Hl) as Hlt.
  destruct (Z.ltb_spec i 0); [lia|].
  destruct (Z.leb_spec 0 i); [|lia].
  destruct (Z.ltb_spec i (Z.of_nat (length l))); [|lia].
  cbn. by rewrite Hl.
Qed.

Ltac py_index_steps :=
  repeat (erewrite py_index_lookup; [ | lia | reflexivity ]; cbn [mbind result_bind py_getitem]).

Lemma py_floordiv_triple (n : Z) : py_floordiv (PInt (3 * n)) (PInt 3) = Ok (PInt n).
Proof.
  cbn. do 2 f_equal. rewrite Z.mul_comm. apply Z.div_mul. lia.
Qed.

Lemma self_attention_divisible (b s n_head n_state : Z) (p : pyfloat)
    (mask : option tshape) :
  n_head ≠ 0 → n_state mod n_head = 0 →
  mask = None ∨ mask = Some [b; 1; s; s] →
  funcs.self_attention [b; s; 3 * n_state] mask n_head n_state p = Ok [b; s; n_state].
Proof.
  intros Hpos Hmod Hmask. unfold funcs.self_attention.
  rewrite Z.eqb_refl. cbn [negb].
  rewrite split_heads_divisible by done. cbn [mbind result_bind].
  assert (Hdiv : n_head * (n_state / n_head) = n_state).
  { rewrite (Z.div_mod n_state n_head) at 2 by lia. lia. }
  unfold funcs.scaled_dot_product_attention. rewrite !Z.eqb_refl. cbn [andb negb].
  destruct Hmask as [-> | ->].
  - cbn [mbind result_bind funcs.merge_heads]. by rewrite Hdiv.
  - unfold funcs.broadcastable. rewrite !Z.eqb_refl, !orb_true_r. cbn [andb orb].
    cbn [mbind result_bind funcs.merge_heads]. by rewrite Hdiv.
Qed.

Lemma SelfAttention_declared_shape (self : SelfAttention.t) (b l other : pyval) (n : Z) :
  let x := PTuple [b; l; PInt (3 * n)] in
  SelfAttention.compute_output_shape self
    (if SelfAttention.ignore_mask self then x else PTuple [x; other])
  = Ok (PTuple [b; l; PInt n]).
Proof.
  intros x. unfold SelfAttention.compute_output_shape, x.
  destruct (SelfAttention.ignore_mask self); cbn -[py_floordiv py_index Z.mul];
    py_index_steps; by rewrite py_floordiv_triple.
Qed.

(** C6.  For [n_state] and [n_head] with [n_state % n_head == 0],
    [SelfAttention] applied to an input of shape [(batch, seq, 3*n_state)]
    (with a mask [(batch, 1, seq, seq)] unless masking is disabled)
    produces an output of shape [(batch, seq, n_state)], and the shape it
    declares is the input shape with the last dimension divided by 3,
    that is [(batch, seq, n_state)] too, whatever the batch and sequence
    entries of the declared shape are. *)
Theorem SelfAttention_output_shape
    (self : SelfAttention.t) (batch seq : Z) (dbatch dseq dmask : pyval) :
  let n_state := SelfAttention.n_state self in
  let n_head := SelfAttention.n_head self in
  py_mod n_state n_head = Ok 0 →
  let x := [batch; seq; 3 * n_state] in
  let mask := [batch; 1; seq; seq] in
  let i := if SelfAttention.ignore_mask self
           then SelfAttention.Tensor x
           else SelfAttention.Tensors [x; mask] in
  let dx := PTuple [dbatch; dseq; PInt (3 * n_state)] in
  let input_shape := if SelfAttention.ignore_mask self then dx else PTuple [dx; dmask] in
  SelfAttention.call self i = Ok [batch; seq; n_state]
  ∧ SelfAttention.compute_output_shape self input_shape
    = Ok (PTuple [dbatch; dseq; PInt n_state]).
Proof.
  intros n_state n_head Hmod x mask i dx input_shape.
  assert (Hm : n_head ≠ 0 ∧ n_state mod n_head = 0).
  { unfold py_mod in Hmod. destruct (Z.eqb_spec n_head 0); [done|].
    split; congruence. }
  destruct Hm as [Hpos Hm].
  split.
  - unfold SelfAttention.call, i, x, mask. fold n_state n_head.
    destruct (SelfAttention.ignore_mask self); cbn -[funcs.self_attention Z.mul];
      apply self_attention_divisible; auto.
  - apply SelfAttention_declared_shape.
Qed.

Lemma SelfAttention_output_shape_witness :
  SelfAttention.call attn_4_heads
    (SelfAttention.Tensors [[8; 16; 192]; [8; 1; 16; 16]]) = Ok [8; 16; 64]
  ∧ SelfAttention.compute_output_shape attn_4_heads
      (PTuple [PTuple [PNone; PInt 16; PInt 192];
               PTuple [PNone; PInt 1; PInt 16; PInt 16]])
    = Ok (PTuple [PNone; PInt 16; PInt 64]).
Proof.
  apply (SelfAttention_output_shape attn_4_heads 8 16 PNone (PInt 16)
           (PTuple [PNone; PInt 1; PInt 16; PInt 16])).
  reflexivity.
Defined.

(** *** Tensors: broadcasting along the last axis *)

Section tensor_facts.
Context {R : Type}.

Lemma zip_with_result_fmap {A B C D} (f : A → B → result C)
    (F : D → A) (G : D → B) (H : D → C) (xs : list D) :
  Forall (fun x => f (F x) (G x) = Ok (H x)) xs →
  zip_with_result f (F <$> xs) (G <$> xs) = Ok (H <$> xs).
Proof.
  induction 1 as [|x xs Hx _ IH]; [done|].
  cbn. rewrite Hx. cbn. rewrite IH. done.
Qed.

Lemma map_result_fmap {A B D} (f : A → result B) (F : D → A) (H : D → B) (xs : list D) :
  Forall (fun x => f (F x) = Ok (H x)) xs →
  map_result f (F <$> xs) = Ok (H <$> xs).
Proof.
  induction 1 as [|x xs Hx _ IH]; [done|].
  cbn. rewrite Hx. cbn. rewrite IH. done.
Qed.

Lemma zip_with_result_pure {A B C} (op : A → B → C) (xs : list A) (ys : list B) :
  zip_with_result (fun a b => Ok (op a b)) xs ys = Ok (zip_with op xs ys).
Proof.
  revert ys. induction xs as [|x xs IH]; intros [|y ys]; try done.
  cbn. by rewrite IH.
Qed.

Lemma map_result_pure {A B} (f : A → B) (xs : list A) :
  map_result (fun a => Ok (f a)) xs = Ok (f <$> xs).
Proof.
  induction xs as [|x xs IH]; [done|]. cbn. by rewrite IH.
Qed.

Lemma map_last_id {n} (x : tensor R (S n)) : map_last (fun row => row) x = x.
Proof.
  induction n as [|k IH]; [done|].
  cbn. induction x as [|y ys IHys]; [done|].
  cbn. by rewrite IH, IHys.
Qed.

Lemma map_last_ext {n} (P : list R → Prop) (f g : list R → list R) (x : tensor R (S n)) :
  (∀ row, P row → f row = g row) → all_last P x → map_last f x = map_last g x.
Proof.
  intros Hfg. induction n as [|k IH]; cbn.
  - apply Hfg.
  - induction 1 as [|y ys Hy _ IHys]; [done|].
    cbn. by rewrite (IH y Hy), IHys.
Qed.

Lemma all_last_impl {n} (P Q : list R → Prop) (x : tensor R (S n)) :
  (∀ row, P row → Q row) → all_last P x → all_last Q x.
Proof.
  intros HPQ. induction n as [|k IH]; cbn; [apply HPQ|].
  intros Hx. eapply Forall_impl; [exact Hx|]. intros y. apply IH.
Qed.

Lemma tmap_reduce_last {n} (f : R → R) (h : list R → R) (x : tensor R (S n)) :
  tmap f (reduce_last h x) = reduce_last (fun row => f (h row)) x.
Proof.
  unfold reduce_last. induction n as [|k IH]; [done|].
  cbn. induction x as [|y ys IHys]; [done|].
  cbn. f_equal; [apply IH | apply IHys].
Qed.

Lemma map_last_same_shape {n} (f : list R → list R) (x : tensor R (S n)) :
  all_last (fun row => length (f row) = length row) x → same_shape x (map_last f x).
Proof.
  induction n as [|k IH]; cbn.
  - intros Hlen. apply Forall2_true; [done | by rewrite Hlen].
  - induction 1 as [|y ys Hy _ IHys]; cbn; constructor; [exact (IH y Hy) | exact IHys].
Qed.

Lemma broadcast_S {k} (op : R → R → R) (xs ys : tensor R (S k)) :
  broadcast op xs ys
  = if (length xs =? length ys)%nat then zip_with_result (@broadcast R k op) xs ys
    else match xs, ys with
         | _, [y] => map_result (fun x => @broadcast R k op x y) xs
         | [x], _ => map_result (fun y => @broadcast R k op x y) ys
         | _, _ => Raise ValueError
         end.
Proof. reflexivity. Qed.

Lemma map_last_S {k} (f : list R → list R) (xs : tensor R (S (S k))) :
  map_last f xs = @map_last R k f <$> xs.
Proof. reflexivity. Qed.

Lemma expand_S {k} (v : list R) : @expand R (S k) v = [@expand R k v].
Proof. reflexivity. Qed.

(** The second operand was reduced along the last axis. *)
Lemma broadcast_reduced {n} (op : R → R → R) (F : list R → list R) (h : list R → R)
    (x : tensor R (S n)) :
  broadcast op (map_last F x) (reduce_last h x)
  = Ok (map_last (fun row => (fun v => op v (h row)) <$> F row) x).
Proof.
  unfold reduce_last. induction n as [|k IH].
  - cbn. destruct (Nat.eqb_spec (length (F x)) 1) as [Hone|Hne].
    + destruct (F x) as [|a [|? ?]]; try done.
    + transitivity (map_result (fun v => Ok (op v (h x))) (F x));
        [by destruct (F x) as [|? [|? ?]] | apply map_result_pure].
  - rewrite broadcast_S, !map_last_S, !length_fmap, Nat.eqb_refl.
    apply zip_with_result_fmap, Forall_forall. intros y _. apply IH.
Qed.

(** The first operand is a vector, the rows of the second have its
    length. *)
Lemma broadcast_vector_l {n} (op : R → R → R) (g : list R) (F : list R → list R)
    (x : tensor R (S n)) :
  all_last (fun row => length (F row) = length g) x →
  broadcast op (expand g) (map_last F x)
  = Ok (map_last (fun row => zip_with op g (F row)) x).
Proof.
  induction n as [|k IH].
  - cbn. intros ->. rewrite Nat.eqb_refl. apply zip_with_result_pure.
  - intros Hx.
    assert (Hall : Forall (fun y => broadcast op (expand g) (map_last F y)
                     = Ok (map_last (fun row => zip_with op g (F row)) y)) x).
    { eapply Forall_impl; [exact Hx|]. intros y. apply IH. }
    rewrite broadcast_S, !map_last_S, expand_S, length_fmap.
    change (length [@expand R k g]) with 1%nat.
    destruct (Nat.eqb_spec 1 (length x)) as [Hone|Hne].
    + destruct x as [|y [|? ?]]; try done.
      inversion Hall as [|? ? Hy _]; subst.
      cbn [fmap list_fmap zip_with_result]. rewrite Hy. done.
    + transitivity (map_result (fun z => broadcast op (expand g) z) (map_last F <$> x)).
      { by destruct x as [|? [|? ?]]. }
      by apply (map_result_fmap (fun z => broadcast op (expand g) z)).
Qed.

(** The second operand is a vector, the rows of the first have its
    length. *)
Lemma broadcast_vector_r {n} (op : R → R → R) (b : list R) (F : list R → list R)
    (x : tensor R (S n)) :
  all_last (fun row => length (F row) = length b) x →
  broadcast op (map_last F x) (expand b)
  = Ok (map_last (fun row => zip_with op (F row) b) x).
Proof.
  induction n as [|k IH].
  - cbn. intros ->. rewrite Nat.eqb_refl. apply zip_with_result_pure.
  - intros Hx.
    assert (Hall : Forall (fun y => broadcast op (map_last F y) (expand b)
                     = Ok (map_last (fun row => zip_with op (F row) b) y)) x).
    { eapply Forall_impl; [exact Hx|]. intros y. apply IH. }
    rewrite broadcast_S, !map_last_S, expand_S, length_fmap.
    change (length [@expand R k b]) with 1%nat.
    destruct (Nat.eqb_spec (length x) 1) as [Hone|Hne].
    + destruct x as [|y [|? ?]]; try done.
      inversion Hall as [|? ? Hy _]; subst.
      cbn [fmap list_fmap zip_with_result]. rewrite Hy. done.
    + transitivity (map_result (fun z => broadcast op z (expand b)) (map_last F <$> x)).
      { by destruct x as [|? [|? ?]]. }
      by apply (map_result_fmap (fun z => broadcast op z (expand b))).
Qed.

End tensor_facts.

(** *** LayerNormalization *)

Section layer_normalization.
Context {R : Type} `{Scalar R}.

Lemma normalize_entries_zip (g x b : list R) (m s e : R) :
  zip_with add
    ((fun v => div v (add s e)) <$> zip_with mul g ((fun xi => sub xi m) <$> x)) b
  = LayerNormalization.normalize_entries g x b m s e.
Proof.
  revert x b. induction g as [|gi g IH]; intros [|xi x] [|bi b]; try done.
  cbn. f_equal. apply IH.
Qed.

Lemma normalize_entries_length (g x b : list R) (m s e : R) :
  length g = length x → length b = length x →
  length (LayerNormalization.normalize_entries g x b m s e) = length x.
Proof.
  revert x b. induction g as [|gi g IH]; intros [|xi x] [|bi b]; try done.
  cbn. intros Hg Hb. f_equal. apply IH; congruence.
Qed.

Lemma LayerNormalization_build_ok (self : LayerNormalization.t (R:=R))
    (lead : list pyval) (d : nat) :
  LayerNormalization.build self (PTuple (lead ++ [PInt (Z.of_nat d)]))
  = Ok {| LayerNormalization.name := LayerNormalization.name self;
          LayerNormalization.eps := LayerNormalization.eps self;
          LayerNormalization.built := true;
          LayerNormalization.gamma := replicate d one;
          LayerNormalization.beta := replicate d zero |}.
Proof.
  unfold LayerNormalization.build.
  assert (Hlast : py_slice (lead ++ [PInt (Z.of_nat d)]) (-1)
                    (Z.of_nat (length (lead ++ [PInt (Z.of_nat d)])))
                  = [PInt (Z.of_nat d)]).
  { unfold py_slice, py_clamp. rewrite length_app. cbn [length].
    set (k := length lead).
    replace (if -1 <? 0 then -1 + Z.of_nat (k + 1) else -1) with (Z.of_nat k) by (cbn; lia).
    destruct (Z.ltb_spec (Z.of_nat (k + 1)) 0); [lia|].
    rewrite !Z.min_r, !Z.max_r by lia.
    replace (Z.to_nat (Z.of_nat k)) with k by lia.
    replace (Z.to_nat (Z.of_nat (k + 1) - Z.of_nat k)) with 1%nat by lia.
    subst k. by rewrite drop_app_length. }
  rewrite Hlast. unfold LayerNormalization.add_weight.
  destruct (Z.ltb_spec (Z.of_nat d) 0); [lia|].
  by rewrite Nat2Z.id.
Qed.

Lemma LayerNormalization_call_ok {n} (self : LayerNormalization.t (R:=R))
    (x : tensor R (S n)) :
  let g := LayerNormalization.gamma self in
  let b := LayerNormalization.beta self in
  last_dim (length g) x → length b = length g →
  LayerNormalization.call self x
  = Ok (map_last (LayerNormalization.normalize_position g b (LayerNormalization.eps self)) x).
Proof.
  intros g b Hx Hb. unfold LayerNormalization.call. fold g b.
  rewrite <- (map_last_id x) at 1.
  rewrite broadcast_reduced. cbn [mbind result_bind].
  rewrite broadcast_vector_l; cycle 1.
  { eapply all_last_impl; [|exact Hx]. intros row Hrow. cbn beta in *.
    by rewrite length_fmap. }
  cbn [mbind result_bind].
  rewrite tmap_reduce_last, broadcast_reduced. cbn [mbind result_bind].
  rewrite broadcast_vector_r; cycle 1.
  { eapply all_last_impl; [|exact Hx]. intros row Hrow. cbn beta in *.
    rewrite length_fmap, length_zip_with, length_fmap. lia. }
  f_equal. eapply map_last_ext; [|exact Hx].
  intros row _. apply normalize_entries_zip.
Qed.

(** C7.  [LayerNormalization] built on an input shape whose last
    dimension is [d] has [gamma] all ones and [beta] all zeros, both of
    length [d], and [eps] is [1e-6] unless given; whatever values of
    length [d] the two weights hold later, the layer maps the features
    [x] of every position to
    [gamma * (x - mean(x)) / (std(x) + eps) + beta]; the output has
    the shape of the input, and so has the declared output shape. *)
Theorem LayerNormalization_formula {n} (lead : list pyval) (d : nat)
    (e : option pyfloat) (name : string) (g b : list R) (x : tensor R (S n)) :
  length g = d → length b = d → last_dim d x →
  let input_shape := PTuple (lead ++ [PInt (Z.of_nat d)]) in
  LayerNormalization.eps (LayerNormalization.__init__ (R:=R) None name) = Dec 1 (-6)
  ∧ ∃ self,
      LayerNormalization.build (LayerNormalization.__init__ e name) input_shape = Ok self
      ∧ LayerNormalization.gamma self = replicate d one
      ∧ LayerNormalization.beta self = replicate d zero
      ∧ LayerNormalization.eps self = default (Dec 1 (-6)) e
      ∧ (∃ y, LayerNormalization.call (LayerNormalization.with_weights self g b) x = Ok y
              ∧ y = map_last (LayerNormalization.normalize_position g b
                                (LayerNormalization.eps self)) x
              ∧ same_shape x y)
      ∧ LayerNormalization.compute_output_shape self input_shape = input_shape.
Proof.
  intros Hg Hb Hx input_shape. split; [done|].
  eexists. split; [apply LayerNormalization_build_ok|].
  cbn [LayerNormalization.gamma LayerNormalization.beta LayerNormalization.eps
       LayerNormalization.__init__].
  repeat split.
  eexists. split; [|split; [reflexivity|]].
  - rewrite LayerNormalization_call_ok; [done| |];
      cbn [LayerNormalization.with_weights LayerNormalization.gamma
           LayerNormalization.beta]; by rewrite ?Hg.
  - apply map_last_same_shape. eapply all_last_impl; [|exact Hx].
    intros row Hrow. cbn beta in *.
    unfold LayerNormalization.normalize_position.
    apply normalize_entries_length; congruence.
Qed.

End layer_normalization.

Lemma LayerNormalization_formula_witness :
  let g := [1; 1; 2; 2]%float in
  let b := [0; 0; 1; 1]%float in
  LayerNormalization.eps (LayerNormalization.__init__ (R:=float) None "layer_0/ln_1")
  = Dec 1 (-6)
  ∧ ∃ self,
      LayerNormalization.build (LayerNormalization.__init__ None "layer_0/ln_1")
        (PTuple ([PNone; PInt 2] ++ [PInt (Z.of_nat 4)])) = Ok self
      ∧ LayerNormalization.gamma self = replicate 4 one
      ∧ LayerNormalization.beta self = replicate 4 zero
      ∧ LayerNormalization.eps self = default (Dec 1 (-6)) None
      ∧ (∃ y, LayerNormalization.call (LayerNormalization.with_weights self g b)
                ln_features = Ok y
              ∧ y = map_last (LayerNormalization.normalize_position g b
                                (LayerNormalization.eps self)) ln_features
              ∧ same_shape ln_features y)
      ∧ LayerNormalization.compute_output_shape self
          (PTuple ([PNone; PInt 2] ++ [PInt (Z.of_nat 4)]))
        = PTuple ([PNone; PInt 2] ++ [PInt (Z.of_nat 4)]).
Proof.
  intros g b.
  apply (LayerNormalization_formula (R:=float) (n:=2) [PNone; PInt 2] 4 None
           "layer_0/ln_1" g b ln_features).
  - reflexivity.
  - reflexivity.
  - unfold last_dim, ln_features. simpl. repeat constructor.
Defined.

(** *** Arrays *)

Lemma reshape_row {A} (a : ndarray A) :
  reshape a [1; -1] = Ok (NdArray [1; Z.of_nat (length (data a))] (data a)).
Proof.
  unfold reshape. cbn -[Z.modulo Z.div Z.eqb].
  rewrite Z.mod_1_r, Z.div_1_r. done.
Qed.

(** *** PositionIdGenerator *)

(** C8.  For an input whose sequence-length dimension (the entry at
    index 1 of its shape) is [L], [PositionIdGenerator] returns the
    integers [0, 1, ..., L-1] as a tensor of shape [(1, L)], and the shape
    it declares is [(1, L)]; two inputs with the same entry at index 1
    give the same result, whatever their other dimensions and their
    values. *)
Theorem PositionIdGenerator_positions (self : PositionIdGenerator.t)
    (x : PositionIdGenerator.input) (L : nat) :
  py_index (PositionIdGenerator.int_shape x) 1 = Ok (PInt (Z.of_nat L)) →
  PositionIdGenerator.call self x
  = Ok (NdArray [1; Z.of_nat L] (Z.of_nat <$> seq 0 L))
  ∧ PositionIdGenerator.compute_output_shape self
      (PTuple (PositionIdGenerator.int_shape x))
    = Ok (PTuple [PInt 1; PInt (Z.of_nat L)])
  ∧ ∀ y : PositionIdGenerator.input,
      py_index (PositionIdGenerator.int_shape y) 1
      = py_index (PositionIdGenerator.int_shape x) 1 →
      PositionIdGenerator.call self y = PositionIdGenerator.call self x.
Proof.
  intros HL. split; [|split].
  - unfold PositionIdGenerator.call, funcs.shape_list. rewrite HL.
    cbn [mbind result_bind K.arange]. unfold K.reshape.
    rewrite reshape_row. cbn [data].
    rewrite Z.max_r, Nat2Z.id by lia.
    by rewrite length_fmap, length_seq.
  - unfold PositionIdGenerator.compute_output_shape. cbn [py_getitem].
    by rewrite HL.
  - intros y Hy. unfold PositionIdGenerator.call, funcs.shape_list. by rewrite Hy.
Qed.

Lemma PositionIdGenerator_positions_witness :
  PositionIdGenerator.call (PositionIdGenerator.__init__ "PositionInput") token_batch
  = Ok (NdArray [1; Z.of_nat 5] (Z.of_nat <$> seq 0 5))
  ∧ PositionIdGenerator.compute_output_shape (PositionIdGenerator.__init__ "PositionInput")
      (PTuple (PositionIdGenerator.int_shape token_batch))
    = Ok (PTuple [PInt 1; PInt (Z.of_nat 5)])
  ∧ ∀ y : PositionIdGenerator.input,
      py_index (PositionIdGenerator.int_shape y) 1
      = py_index (PositionIdGenerator.int_shape token_batch) 1 →
      PositionIdGenerator.call (PositionIdGenerator.__init__ "PositionInput") y
      = PositionIdGenerator.call (PositionIdGenerator.__init__ "PositionInput") token_batch.
Proof.
  apply (PositionIdGenerator_positions (PositionIdGenerator.__init__ "PositionInput")
           token_batch 5).
  reflexivity.
Defined.

(** *** The value of a transposition *)

Section transpose_facts.
Context {A : Type}.

Lemma omap_bind_rows {B C} (f : C → option A) (g : B → list C) (l : list B) :
  omap f (l ≫= g) = l ≫= (fun x => omap f (g x)).
Proof.
  induction l as [|x l IH]; [done|].
  by rewrite !bind_cons, omap_app, IH.
Qed.

Lemma omap_fmap_row {B C} (f : C → option A) (h : B → C) (l : list B) :
  omap f (h <$> l) = omap (fun x => f (h x)) l.
Proof.
  induction l as [|x l IH]; [done|].
  cbn. by rewrite IH.
Qed.

Lemma omap_all_some {B} (f : B → option A) (l : list B) (i : nat) :
  Forall (fun x => is_Some (f x)) l →
  length (omap f l) = length l ∧ omap f l !! i = l !! i ≫= f.
Proof.
  intros Hall. revert i. induction Hall as [|x l [y Hy] _ IH]; intros i; [done|].
  cbn. rewrite Hy. cbn. destruct i as [|i]; cbn.
  - split; [f_equal; apply (IH 0%nat) | by rewrite Hy].
  - split; [f_equal; apply (IH 0%nat) | apply IH].
Qed.

Lemma lookup_bind_rows {B C} (g : B → list C) (l : list B) (n j i : nat) :
  Forall (fun x => length (g x) = n) l → (i < n)%nat →
  (l ≫= g) !! (j * n + i)%nat = l !! j ≫= (fun x => g x !! i).
Proof.
  intros Hall Hi. revert j. induction Hall as [|x l Hx _ IH]; intros j; [done|].
  rewrite bind_cons. destruct j as [|j].
  - cbn [Nat.mul Nat.add]. rewrite lookup_app_l by lia. done.
  - rewrite lookup_app_r by lia.
    replace (S j * n + i - length (g x))%nat with (j * n + i)%nat by lia.
    apply IH.
Qed.

Lemma indices_vector (r : nat) : K.indices [r] = (fun i => [i]) <$> seq 0 r.
Proof.
  cbn [K.indices]. induction (seq 0 r) as [|i l IH]; [done|].
  rewrite bind_cons, IH. done.
Qed.

(** The transposition of a matrix of [r] rows and [c] columns has [c]
    rows and [r] columns, and its entry in row [j], column [i] is the
    entry of the matrix in row [i], column [j]. *)
Lemma transpose_value_matrix (r c i j : nat) (entries : list A) :
  length entries = (r * c)%nat → (i < r)%nat → (j < c)%nat →
  let t := K.transpose_value (NdArray [Z.of_nat r; Z.of_nat c] entries) in
  shape t = [Z.of_nat c; Z.of_nat r]
  ∧ data t !! (j * r + i)%nat = entries !! (i * c + j)%nat.
Proof.
  intros Hlen Hi Hj t. split; [done|].
  unfold t, K.transpose_value. cbn [shape data fmap list_fmap reverse rev_append].
  rewrite !Nat2Z.id.
  change (reverse [r; c]) with [c; r].
  change (K.indices [c; r]) with (seq 0 c ≫= fun j => (fun idx => j :: idx) <$> K.indices [r]).
  rewrite indices_vector, omap_bind_rows.
  assert (Hrow : ∀ j', (j' < c)%nat →
    Forall (fun x => is_Some ((fun i' => entries !! (i' * c + j')%nat) x)) (seq 0 r)).
  { intros j' Hj'. apply Forall_forall. intros i' Hi'%elem_of_seq.
    apply lookup_lt_is_Some. rewrite Hlen. nia. }
  assert (Hrows : ∀ j',
    omap (fun idx => entries !! K.offset [r; c] (reverse idx))
      ((fun idx => j' :: idx) <$> ((fun i' => [i']) <$> seq 0 r))
    = omap (fun i' => entries !! (i' * c + j')%nat) (seq 0 r)).
  { intros j'. rewrite !omap_fmap_row. apply list_omap_ext.
    apply Forall_Forall2_diag, Forall_forall. intros i' _.
    cbn. replace (i' * c + j')%nat with ((0 * r + i') * c + j')%nat by lia. done. }
  rewrite (lookup_bind_rows _ _ r); [| |done].
  - rewrite lookup_seq_lt by done. cbn [mbind option_bind Nat.add].
    rewrite Hrows. destruct (omap_all_some _ _ i (Hrow j Hj)) as [_ ->].
    rewrite lookup_seq_lt by done. done.
  - apply Forall_forall. intros j' Hj'%elem_of_seq. rewrite Hrows.
    destruct (omap_all_some _ _ 0 (Hrow j' ltac:(lia))) as [-> _].
    apply length_seq.
Qed.

End transpose_facts.

(** *** Dense and TiedEmbeddingsTransposed *)

Lemma bind_returns {A B} (m : M A) (f : A → M B) (w w' : world) (b : B) :
  (m ≫= f) w = (Ok b, w') ↔ ∃ a w1, m w = (Ok a, w1) ∧ f a w1 = (Ok b, w').
Proof.
  unfold mbind, M_bind. split.
  - destruct (m w) as [[a|e] w1]; [eauto|done].
  - intros (a & w1 & -> & Hf). done.
Qed.

Lemma lift_returns {A} (r : result A) (w w' : world) (a : A) :
  lift r w = (Ok a, w') ↔ r = Ok a ∧ w' = w.
Proof. unfold lift. split; [intros [= -> ->] | intros [-> ->]]; done. Qed.

Lemma ret_returns {A} (a a' : A) (w w' : world) :
  mret (M:=M) a w = (Ok a', w') ↔ a' = a ∧ w' = w.
Proof. unfold mret, M_ret. split; [intros [= -> ->] | intros [-> ->]]; done. Qed.

Ltac inv_returns H :=
  repeat match type of H with
  | (_ ≫= _) _ = (Ok _, _) =>
      let a := fresh "a" in let w := fresh "w" in
      let H1 := fresh "Hstep" in
      apply bind_returns in H; destruct H as (a & w & H1 & H)
  end.

Lemma bind_ok {A B} (m : M A) (f : A → M B) (w w1 : world) (a : A) :
  m w = (Ok a, w1) → (m ≫= f) w = f a w1.
Proof. unfold mbind, M_bind. by intros ->. Qed.

Lemma bind_raise {A B} (m : M A) (f : A → M B) (w w1 : world) (e : exn) :
  m w = (Raise e, w1) → (m ≫= f) w = (Raise e, w1).
Proof. unfold mbind, M_bind. by intros ->. Qed.

Lemma ret_run {A} (a : A) (w : world) : mret (M:=M) a w = (Ok a, w).
Proof. reflexivity. Qed.

Lemma bind_ret {A B} (a : A) (f : A → M B) (w : world) : (mret a ≫= f) w = f a w.
Proof. reflexivity. Qed.

Lemma bind_bind {A B C} (m : M A) (f : A → M B) (g : B → M C) (w : world) :
  ((m ≫= f) ≫= g) w = (m ≫= fun a => f a ≫= g) w.
Proof. unfold mbind, M_bind. by destruct (m w) as [[a|e] w1]. Qed.

Lemma add_weight_returns (self : Layer.t) (shape : list pyval) (name : string)
    (w w' : world) (x : K.tensor) (l : Layer.t) :
  add_weight self shape name w = (Ok (x, l), w') →
  ∃ dims, x = K.Read (K.Var (next_var w) name dims)
    ∧ l = Layer.set_trainable_weights self (Layer._trainable_weights self ++ [x])
    ∧ next_var w' = S (next_var w)
    ∧ objects w' = objects w
    ∧ constructed w' = constructed w.
Proof.
  unfold add_weight. intros H. inv_returns H.
  apply lift_returns in Hstep as [Hdims ->].
  unfold new_variable in Hstep0. injection Hstep0 as <- <-.
  apply ret_returns in H as [[= -> ->] ->]. exists a. done.
Qed.

Lemma Dense_build_returns (self : Dense.t) (input_shape : pyval) (w w' : world)
    (d : Dense.t) :
  Dense.build self input_shape w = (Ok d, w') →
  ∃ k : K.variable,
    K.var_id k = next_var w
    ∧ objects w' = objects w
    ∧ Dense.kernel d = Some (K.Read k)
    ∧ Layer.trainable (Dense.base d) = Layer.trainable (Dense.base self)
    ∧ if Dense.use_bias self
      then ∃ b : K.variable,
             K.var_id b = S (next_var w)
             ∧ Dense.bias d = Some (K.Read b)
             ∧ Layer._trainable_weights (Dense.base d)
               = Layer._trainable_weights (Dense.base self) ++ [K.Read k; K.Read b]
      else Dense.bias d = None
           ∧ Layer._trainable_weights (Dense.base d)
             = Layer._trainable_weights (Dense.base self) ++ [K.Read k].
Proof.
  unfold Dense.build. intros H. inv_returns H.
  apply lift_returns in Hstep as [_ ->].
  apply lift_returns in Hstep0 as [_ ->].
  apply lift_returns in Hstep1 as [_ ->].
  destruct a2 as [k l].
  apply add_weight_returns in Hstep2 as (dims & -> & -> & Hn & Ho & _).
  inv_returns H. destruct a2 as [b l'].
  apply ret_returns in H as [-> ->].
  destruct (Dense.use_bias self).
  - inv_returns Hstep. destruct a2 as [b0 l0].
    apply add_weight_returns in Hstep0 as (dims' & -> & -> & Hn' & Ho' & _).
    apply ret_returns in Hstep as [[= -> ->] ->].
    exists (K.Var (next_var w) "kernel" dims).
    split; [done|]. split; [congruence|]. split; [done|]. split; [done|].
    exists (K.Var (next_var w3) "bias" dims').
    split; [cbn; congruence|]. split; [done|].
    cbn. by rewrite <- app_assoc.
  - apply ret_returns in Hstep as [[= -> ->] ->].
    exists (K.Var (next_var w) "kernel" dims).
    split; [done|]. split; [done|]. split; [done|]. split; done.
Qed.

Lemma TiedEmbeddingsTransposed_init_returns (tied_to : nat) (units : Z) (use_bias : bool)
    (name : string) (w0 w1 : world) (self : TiedEmbeddingsTransposed.t) :
  TiedEmbeddingsTransposed.__init__ tied_to units use_bias name w0 = (Ok self, w1) →
  self = {| TiedEmbeddingsTransposed.dense :=
              {| Dense.base := Layer.__init__ name; Dense.units := units;
                 Dense.use_bias := use_bias; Dense.kernel := None; Dense.bias := None |};
            TiedEmbeddingsTransposed.tied_to := tied_to |}.
Proof.
  unfold TiedEmbeddingsTransposed.__init__, Dense.__init__. intros H.
  inv_returns H. inv_returns Hstep.
  apply ret_returns in Hstep as [-> ->]. apply ret_returns in H as [-> ->]. done.
Qed.

(** What a completed [build] went through. *)
Lemma TiedEmbeddingsTransposed_build_returns (self self' : TiedEmbeddingsTransposed.t)
    (input_shape : pyval) (w w' : world) :
  TiedEmbeddingsTransposed.build self input_shape w = (Ok self', w') →
  ∃ (d : Dense.t) (tied : Layer.t) (emb tw1 : K.tensor),
    Dense.build (TiedEmbeddingsTransposed.dense self) input_shape w = (Ok d, w')
    ∧ objects w !! TiedEmbeddingsTransposed.tied_to self = Some tied
    ∧ py_index (Layer.weights tied) 0 = Ok emb
    ∧ py_index (Layer.trainable_weights (Dense.base d)) 1 = Ok tw1
    ∧ self' = {| TiedEmbeddingsTransposed.dense :=
                   {| Dense.base := Layer.set_trainable_weights (Dense.base d) [tw1];
                      Dense.units := Dense.units d; Dense.use_bias := Dense.use_bias d;
                      Dense.kernel := Some (K.transpose emb);
                      Dense.bias := Dense.bias d |};
                 TiedEmbeddingsTransposed.tied_to :=
                   TiedEmbeddingsTransposed.tied_to self |}.
Proof.
  unfold TiedEmbeddingsTransposed.build. intros H. inv_returns H.
  pose proof (Dense_build_returns _ _ _ _ _ Hstep) as (k & _ & Ho & _).
  unfold deref in Hstep0. rewrite Ho in Hstep0.
  destruct (objects w !! TiedEmbeddingsTransposed.tied_to self) as [tied|] eqn:Htied;
    [|done].
  injection Hstep0 as <- <-.
  apply lift_returns in Hstep1 as [Hemb ->].
  apply lift_returns in Hstep2 as [Htw ->].
  apply ret_returns in H as [-> ->].
  exists a, tied, a1, a2. done.
Qed.

Lemma py_index_0_cons {A} (l : list A) (a : A) :
  py_index l 0 = Ok a → ∃ rest, l = a :: rest.
Proof.
  unfold py_index. destruct l as [|x l]; [done|].
  cbn [length]. destruct (Z.ltb_spec 0 (Z.of_nat (S (length l)))); [|lia].
  cbn. intros [= ->]. eauto.
Qed.

Lemma py_index_last {A} (l : list A) (x : A) : py_index (l ++ [x]) (-1) = Ok x.
Proof.
  unfold py_index. rewrite length_app. cbn [length].
  destruct (Z.ltb_spec (-1) 0); [|lia].
  destruct (Z.leb_spec 0 (-1 + Z.of_nat (length l + 1))); [|lia].
  destruct (Z.ltb_spec (-1 + Z.of_nat (length l + 1)) (Z.of_nat (length l + 1))); [|lia].
  cbn [andb].
  replace (Z.to_nat (-1 + Z.of_nat (length l + 1))) with (length l) by lia.
  by rewrite list_lookup_middle.
Qed.

Lemma add_weight_ok (self : Layer.t) (dims : list Z) (name : string) (w : world) :
  Forall (fun d => 0 ≤ d) dims →
  add_weight self (PInt <$> dims) name w
  = (Ok (K.Read (K.Var (next_var w) name dims),
         Layer.set_trainable_weights self
           (Layer._trainable_weights self ++ [K.Read (K.Var (next_var w) name dims)])),
     snd (new_variable name dims w)).
Proof.
  intros Hdims. unfold add_weight.
  assert (Hint : int_dims (PInt <$> dims) = Ok dims).
  { unfold int_dims. induction Hdims as [|d ds Hd _ IH]; [done|].
    cbn. destruct (Z.ltb_spec d 0); [lia|]. cbn. by rewrite IH. }
  by rewrite (bind_ok _ _ w w dims) by (unfold lift; by rewrite Hint).
Qed.

(** [build] completes for a freshly constructed layer with a bias, on an
    input shape of rank 2 or more whose last dimension is known, once
    the layer it is tied to has a weight. *)
Lemma TiedEmbeddingsTransposed_build_total (tied_to : nat) (units d : Z) (name : string)
    (lead : list pyval) (tied : Layer.t) (emb : K.tensor) (rest : list K.tensor)
    (w : world) :
  0 ≤ units → 0 ≤ d → lead ≠ [] →
  objects w !! tied_to = Some tied → Layer.weights tied = emb :: rest →
  ∃ (self' : TiedEmbeddingsTransposed.t) (w' : world),
    TiedEmbeddingsTransposed.build
      {| TiedEmbeddingsTransposed.dense :=
           {| Dense.base := Layer.__init__ name; Dense.units := units;
              Dense.use_bias := true; Dense.kernel := None; Dense.bias := None |};
         TiedEmbeddingsTransposed.tied_to := tied_to |}
      (PTuple (lead ++ [PInt d])) w = (Ok self', w').
Proof.
  intros Hunits Hd Hlead Htied Hemb.
  unfold TiedEmbeddingsTransposed.build, Dense.build.
  cbn [TiedEmbeddingsTransposed.dense TiedEmbeddingsTransposed.tied_to Dense.base
       Dense.units Dense.use_bias].
  rewrite !bind_bind.
  rewrite (bind_ok _ _ w w (Z.of_nat (length (lead ++ [PInt d])))) by done.
  rewrite bind_bind.
  rewrite (bind_ok _ _ w w tt); cycle 1.
  { unfold lift, py_assert. rewrite length_app. cbn [length].
    destruct lead; [done|]. cbn [length].
    by destruct (Z.leb_spec 2 (Z.of_nat (S (length lead) + 1))); [|lia]. }
  rewrite bind_bind.
  rewrite (bind_ok _ _ w w (PInt d)) by (unfold lift; cbn [py_getitem]; by rewrite py_index_last).
  rewrite bind_bind.
  rewrite (bind_ok _ _ _ _ _ (add_weight_ok _ [d; units] "kernel" w ltac:(by repeat constructor))).
  rewrite !bind_bind.
  rewrite (bind_ok _ _ _ _ _ (add_weight_ok _ [units] "bias" _ ltac:(by repeat constructor))).
  rewrite bind_ret, bind_ret.
  unfold deref at 1, new_variable, mbind at 1, M_bind at 1.
  cbn [snd objects]. rewrite Htied.
  rewrite (bind_ok _ _ _ _ emb) by (unfold lift; by rewrite Hemb).
  erewrite bind_ok by reflexivity.
  eexists _, _. apply ret_run.
Qed.

(** C1.  Once [TiedEmbeddingsTransposed.build] has run, the kernel of the
    layer is the symbolic transposition of the first weight of the layer
    it is tied to, and nothing else: it reads the variables of that weight
    only, so whatever values the variables hold, and whatever value [W]
    the embedding variable is given later, the kernel evaluates to the
    transpose of the embedding weight, [transpose(W)]. *)
Theorem TiedEmbeddingsTransposed_kernel_transpose {A : Type}
    (self self' : TiedEmbeddingsTransposed.t) (input_shape : pyval) (w w' : world) :
  TiedEmbeddingsTransposed.build self input_shape w = (Ok self', w') →
  ∃ (tied : Layer.t) (emb : K.tensor) (rest : list K.tensor),
    objects w !! TiedEmbeddingsTransposed.tied_to self = Some tied
    ∧ Layer.weights tied = emb :: rest
    ∧ TiedEmbeddingsTransposed.kernel self' = Some (K.transpose emb)
    ∧ K.variables (K.transpose emb) = K.variables emb
    ∧ (∀ session : gmap nat (ndarray A),
         K.eval session (K.transpose emb) = (K.transpose_value <$> K.eval session emb))
    ∧ (∀ (v : K.variable) (session : gmap nat (ndarray A)) (W : ndarray A),
         emb = K.Read v →
         K.eval (<[K.var_id v := W]> session) (K.transpose emb)
         = Some (K.transpose_value W)).
Proof.
  intros H.
  apply TiedEmbeddingsTransposed_build_returns in H
    as (d & tied & emb & tw1 & _ & Htied & Hemb & _ & ->).
  apply py_index_0_cons in Hemb as [rest Hrest].
  exists tied, emb, rest. repeat split; try done.
  intros v session W ->. cbn. by rewrite lookup_insert_eq.
Qed.

(** C10.  For a freshly constructed layer, a completed
    [TiedEmbeddingsTransposed.build] leaves exactly one tensor in the
    trainable weights: the second of the two trainable weights that
    [Dense.build] made, which is the bias; the kernel slot that
    [Dense.build] made and the transposed kernel the layer now uses are
    not in the list. *)
Theorem TiedEmbeddingsTransposed_trainable_weights
    (tied_to : nat) (units : Z) (use_bias : bool) (name : string) (input_shape : pyval)
    (w0 w1 w w' : world) (self self' : TiedEmbeddingsTransposed.t) :
  TiedEmbeddingsTransposed.__init__ tied_to units use_bias name w0 = (Ok self, w1) →
  TiedEmbeddingsTransposed.build self input_shape w = (Ok self', w') →
  ∃ (d : Dense.t) (slot b : K.tensor),
    Dense.build (TiedEmbeddingsTransposed.dense self) input_shape w = (Ok d, w')
    ∧ Layer.trainable_weights (Dense.base d) = [slot; b]
    ∧ Dense.kernel d = Some slot
    ∧ Dense.bias d = Some b
    ∧ Dense.bias (TiedEmbeddingsTransposed.dense self') = Some b
    ∧ TiedEmbeddingsTransposed.trainable_weights self' = [b]
    ∧ (slot ∉ TiedEmbeddingsTransposed.trainable_weights self')
    ∧ ∀ kernel, TiedEmbeddingsTransposed.kernel self' = Some kernel →
                kernel ∉ TiedEmbeddingsTransposed.trainable_weights self'.
Proof.
  intros Hinit H. apply TiedEmbeddingsTransposed_init_returns in Hinit as ->.
  apply TiedEmbeddingsTransposed_build_returns in H
    as (d & tied & emb & tw1 & Hd & _ & _ & Htw & ->).
  pose proof (Dense_build_returns _ _ _ _ _ Hd) as (k & Hk & _ & Hkern & Htr & Hb).
  cbn in Htr, Hb.
  unfold Layer.trainable_weights in Htw. rewrite Htr in Htw.
  destruct use_bias.
  - destruct Hb as (b & Hbid & Hbias & Hws). rewrite Hws in Htw.
    injection Htw as <-.
    exists d, (K.Read k), (K.Read b).
    unfold TiedEmbeddingsTransposed.trainable_weights, TiedEmbeddingsTransposed.kernel,
      Layer.trainable_weights. cbn. rewrite Htr, Hws.
    repeat split; try done.
    + intros Hin. apply list_elem_of_singleton in Hin. injection Hin as Heq.
      rewrite <- Heq in Hbid. lia.
    + intros kernel [= <-] Hin. apply list_elem_of_singleton in Hin. done.
  - destruct Hb as [_ Hws]. rewrite Hws in Htw. done.
Qed.

Lemma TiedEmbeddingsTransposed_kernel_transpose_witness :
  ∃ (self' : TiedEmbeddingsTransposed.t) (w' : world),
    TiedEmbeddingsTransposed.build tied_decoder (PTuple [PNone; PInt 64])
      world_with_embedding = (Ok self', w')
    ∧ ∃ (tied : Layer.t) (emb : K.tensor) (rest : list K.tensor),
        objects world_with_embedding !! TiedEmbeddingsTransposed.tied_to tied_decoder
        = Some tied
        ∧ Layer.weights tied = emb :: rest
        ∧ TiedEmbeddingsTransposed.kernel self' = Some (K.transpose emb)
        ∧ K.variables (K.transpose emb) = K.variables emb
        ∧ (∀ session : gmap nat (ndarray float),
             K.eval session (K.transpose emb)
             = (K.transpose_value <$> K.eval session emb))
        ∧ (∀ (v : K.variable) (session : gmap nat (ndarray float)) (W : ndarray float),
             emb = K.Read v →
             K.eval (<[K.var_id v := W]> session) (K.transpose emb)
             = Some (K.transpose_value W)).
Proof.
  eexists _, _. split; [vm_compute; reflexivity|].
  eapply (TiedEmbeddingsTransposed_kernel_transpose (A:=float) tied_decoder _
           (PTuple [PNone; PInt 64]) world_with_embedding _).
  vm_compute. reflexivity.
Defined.

Lemma TiedEmbeddingsTransposed_trainable_weights_witness :
  ∃ (self' : TiedEmbeddingsTransposed.t) (w' : world),
    TiedEmbeddingsTransposed.build tied_decoder (PTuple [PNone; PInt 64])
      world_with_embedding = (Ok self', w')
    ∧ ∃ (d : Dense.t) (slot b : K.tensor),
        Dense.build (TiedEmbeddingsTransposed.dense tied_decoder)
          (PTuple [PNone; PInt 64]) world_with_embedding = (Ok d, w')
        ∧ Layer.trainable_weights (Dense.base d) = [slot; b]
        ∧ Dense.kernel d = Some slot
        ∧ Dense.bias d = Some b
        ∧ Dense.bias (TiedEmbeddingsTransposed.dense self') = Some b
        ∧ TiedEmbeddingsTransposed.trainable_weights self' = [b]
        ∧ (slot ∉ TiedEmbeddingsTransposed.trainable_weights self')
        ∧ ∀ kernel, TiedEmbeddingsTransposed.kernel self' = Some kernel →
                    kernel ∉ TiedEmbeddingsTransposed.trainable_weights self'.
Proof.
  eexists _, _. split; [vm_compute; reflexivity|].
  eapply (TiedEmbeddingsTransposed_trainable_weights 0 100 true "TiedDecoder"
           (PTuple [PNone; PInt 64]) world_with_embedding
           {| constructed := ["TokenEmbedding"; "TiedDecoder"]; next_var := 1%nat;
              objects := {[ 0%nat := token_emb ]}; files_read := [];
              rng_drawn := 0%nat; stdout := [] |}
           world_with_embedding _ tied_decoder _).
  - reflexivity.
  - vm_compute. reflexivity.
Defined.

(** *** transformer/model.py *)

Lemma dim_eqb_int_refl (z : Z) : dim_eqb (PInt z) (PInt z) = true.
Proof. apply Z.eqb_refl. Qed.

Lemma bind_make {B} (o : op) (name : string) (f : layer → M B) (w : world) :
  (make o name ≫= f) w = f (Layer name o) (with_layer name w).
Proof. reflexivity. Qed.

Lemma bind_make_input {B} (s : pyval) (name : string) (fed : bool)
    (f : ktensor → M B) (w : world) :
  (make_input s name fed ≫= f) w = f (Input name s fed) (with_layer name w).
Proof. reflexivity. Qed.

Lemma apply_layer_returns (l : layer) (from_list : bool) (args : list ktensor)
    (w w' : world) (y : ktensor) :
  apply_layer l from_list args w = (Ok y, w') →
  ∃ s, y = Call l from_list args s ∧ w' = w.
Proof.
  unfold apply_layer. intros H. inv_returns H.
  apply lift_returns in Hstep as [_ ->].
  apply ret_returns in H as [-> ->]. eauto.
Qed.

Lemma MultiHeadAttention_call_state (self : MultiHeadAttention.t) (x : ktensor)
    (mask : option ktensor) (w w' : world) (y : ktensor) :
  MultiHeadAttention.__call__ self x mask w = (Ok y, w') → w' = w.
Proof.
  unfold MultiHeadAttention.__call__, call, call_list. intros H. inv_returns H.
  apply apply_layer_returns in Hstep as (? & _ & ->).
  apply apply_layer_returns in H as (? & _ & ->).
  destruct mask; apply apply_layer_returns in Hstep0 as (? & _ & ->); done.
Qed.

Lemma PositionWiseFF_call_state (self : PositionWiseFF.t) (x : ktensor)
    (w w' : world) (y : ktensor) :
  PositionWiseFF.__call__ self x w = (Ok y, w') → w' = w.
Proof.
  unfold PositionWiseFF.__call__, call. intros H. inv_returns H.
  apply apply_layer_returns in Hstep as (? & _ & ->).
  apply apply_layer_returns in Hstep0 as (? & _ & ->).
  apply apply_layer_returns in H as (? & _ & ->). done.
Qed.

(** **** Shapes through an encoder layer *)

Lemma apply_layer_ok (l : layer) (from_list : bool) (args : list ktensor) (s : pyval)
    (w : world) :
  input_shape_of from_list (keras_shape_of <$> args) ≫= output_shape (layer_op l) = Ok s →
  apply_layer l from_list args w = (Ok (Call l from_list args s), w).
Proof. intros Hs. unfold apply_layer, lift, mbind at 1, M_bind. by rewrite Hs. Qed.

Lemma conv1d_shape (filters c : Z) (b l : pyval) :
  is_dim l →
  output_shape (Conv1D filters 1) (PTuple [b; l; PInt c]) = Ok (PTuple [b; l; PInt filters]).
Proof.
  intros [->|[z ->]]; cbn; [done|].
  by replace (z - 1 + 1) with z by lia.
Qed.

Lemma elemwise_same (s : list pyval) : Forall is_dim s → elemwise_shape s s = Ok s.
Proof.
  induction 1 as [|d s Hd _ IH]; [done|].
  cbn [elemwise_shape]. rewrite IH. destruct Hd as [->|[z ->]]; [done|].
  destruct (Z.eqb_spec z 1); [done|]. by rewrite Z.eqb_refl.
Qed.

Lemma merge_same (b : pyval) (s : list pyval) :
  is_dim b → Forall is_dim s →
  output_shape Add (PTuple [PTuple (b :: s); PTuple (b :: s)]) = Ok (PTuple (b :: s)).
Proof.
  intros Hb Hs. cbn [output_shape merge_shape]. rewrite (elemwise_same s Hs).
  destruct Hb as [->|[z ->]]; [done|].
  cbn [is_int andb]. rewrite dim_eqb_int_refl. done.
Qed.

Lemma layer_norm_shape (e : pyfloat) (b l : pyval) (n : Z) :
  0 ≤ n →
  output_shape (LayerNorm e) (PTuple [b; l; PInt n]) = Ok (PTuple [b; l; PInt n]).
Proof.
  intros Hn. cbn [output_shape].
  change (py_slice [b; l; PInt n] (-1) (Z.of_nat (length [b; l; PInt n]))) with [PInt n].
  cbn. by destruct (Z.ltb_spec n 0); [lia|].
Qed.

Lemma EncoderLayer_init_inv (n_state n_head d_hid : Z) (rd ad : pyfloat) (im : bool)
    (i : Z) (w w' : world) (e : EncoderLayer.t) :
  EncoderLayer.__init__ n_state n_head d_hid rd ad im i w = (Ok e, w') →
  e = {| EncoderLayer.attention :=
           {| MultiHeadAttention.c_attn :=
                Layer (layer_name_of i "c_attn") (Conv1D (3 * n_state) 1);
              MultiHeadAttention.self_attn :=
                Layer (layer_name_of i "self_attention")
                  (SelfAttn (SelfAttention.__init__ n_head n_state ad im
                               (layer_name_of i "self_attention")));
              MultiHeadAttention.c_attn_proj :=
                Layer (layer_name_of i "c_attn_proj") (Conv1D n_state 1) |};
         EncoderLayer.drop1 := Layer (layer_name_of i "ln_1_drop") (Dropout rd);
         EncoderLayer.add1 := Layer (layer_name_of i "ln_1_add") Add;
         EncoderLayer.ln1 :=
           Layer (layer_name_of i "ln_1") (LayerNorm LayerNormalization.default_eps);
         EncoderLayer.ffn :=
           {| PositionWiseFF.c_fc := Layer (layer_name_of i "c_fc") (Conv1D d_hid 1);
              PositionWiseFF.activation := Layer (layer_name_of i "gelu") Gelu;
              PositionWiseFF.c_ffn_proj :=
                Layer (layer_name_of i "c_ffn_proj") (Conv1D n_state 1) |};
         EncoderLayer.drop2 := Layer (layer_name_of i "ln_2_drop") (Dropout rd);
         EncoderLayer.add2 := Layer (layer_name_of i "ln_2_add") Add;
         EncoderLayer.ln2 :=
           Layer (layer_name_of i "ln_2") (LayerNorm LayerNormalization.default_eps) |}.
Proof.
  unfold EncoderLayer.__init__, MultiHeadAttention.__init__, PositionWiseFF.__init__.
  intros H. inv_returns H. inv_returns Hstep. inv_returns Hstep3.
  repeat match goal with
         | Hm : make _ _ _ = (Ok _, _) |- _ => injection Hm as <- <-
         | Hr : mret _ _ = (Ok _, _) |- _ => apply ret_returns in Hr as [-> ->]
         end.
  done.
Qed.

Lemma MultiHeadAttention_call_total (n_state n_head : Z) (ad : pyfloat) (im : bool)
    (names : string * string * string) (w0 : world) (x : ktensor)
    (mask : option ktensor) (b l : pyval) :
  is_dim l →
  keras_shape_of x = PTuple [b; l; PInt n_state] →
  (if im then mask = None else is_Some mask) →
  ∃ a, MultiHeadAttention.__call__
         {| MultiHeadAttention.c_attn := Layer names.1.1 (Conv1D (3 * n_state) 1);
            MultiHeadAttention.self_attn :=
              Layer names.1.2 (SelfAttn (SelfAttention.__init__ n_head n_state ad im
                                           names.1.2));
            MultiHeadAttention.c_attn_proj := Layer names.2 (Conv1D n_state 1) |}
         x mask w0 = (Ok a, w0)
       ∧ keras_shape_of a = PTuple [b; l; PInt n_state].
Proof.
  intros Hl Hx Hmask.
  unfold MultiHeadAttention.__call__, call, call_list.
  cbn [MultiHeadAttention.c_attn MultiHeadAttention.self_attn
       MultiHeadAttention.c_attn_proj].
  erewrite bind_ok; cycle 1.
  { apply apply_layer_ok. cbn [fmap list_fmap input_shape_of layer_op mbind result_bind].
    rewrite Hx. by apply conv1d_shape. }
  destruct im.
  - rewrite Hmask. erewrite bind_ok; cycle 1.
    { apply apply_layer_ok.
      cbn [fmap list_fmap input_shape_of layer_op mbind result_bind keras_shape_of
           output_shape].
      apply (SelfAttention_declared_shape
               (SelfAttention.__init__ n_head n_state ad true _) b l PNone n_state). }
    eexists. split.
    + apply apply_layer_ok. cbn [fmap list_fmap input_shape_of layer_op mbind
        result_bind keras_shape_of]. by apply conv1d_shape.
    + reflexivity.
  - destruct Hmask as [m ->]. erewrite bind_ok; cycle 1.
    { apply apply_layer_ok.
      cbn [fmap list_fmap input_shape_of layer_op mbind result_bind keras_shape_of
           output_shape].
      apply (SelfAttention_declared_shape
               (SelfAttention.__init__ n_head n_state ad false _) b l
               (keras_shape_of m) n_state). }
    eexists. split.
    + apply apply_layer_ok. cbn [fmap list_fmap input_shape_of layer_op mbind
        result_bind keras_shape_of]. by apply conv1d_shape.
    + reflexivity.
Qed.

(** An encoder layer applied to a tensor of its width, with a mask
    exactly when it does not ignore masks, returns a tensor of the same
    shape. *)
Lemma EncoderLayer_call_total (n_state n_head d_hid : Z) (rd ad : pyfloat) (im : bool)
    (i : Z) (w w' w0 : world) (e : EncoderLayer.t) (x : ktensor)
    (mask : option ktensor) (b l : pyval) :
  EncoderLayer.__init__ n_state n_head d_hid rd ad im i w = (Ok e, w') →
  is_dim b → is_dim l → 0 ≤ n_state →
  keras_shape_of x = PTuple [b; l; PInt n_state] →
  (if im then mask = None else is_Some mask) →
  ∃ y, EncoderLayer.__call__ e x mask w0 = (Ok y, w0)
       ∧ keras_shape_of y = PTuple [b; l; PInt n_state].
Proof.
  intros He Hb Hl Hn Hx Hmask. apply EncoderLayer_init_inv in He as ->.
  assert (Hdims : Forall is_dim [l; PInt n_state]).
  { constructor; [done|]. constructor; [right; eauto | constructor]. }
  unfold EncoderLayer.__call__, PositionWiseFF.__call__, call, call_list.
  cbn [EncoderLayer.attention EncoderLayer.drop1 EncoderLayer.add1 EncoderLayer.ln1
       EncoderLayer.ffn EncoderLayer.drop2 EncoderLayer.add2 EncoderLayer.ln2
       PositionWiseFF.c_fc PositionWiseFF.activation PositionWiseFF.c_ffn_proj].
  destruct (MultiHeadAttention_call_total n_state n_head ad im
              (layer_name_of i "c_attn", layer_name_of i "self_attention",
               layer_name_of i "c_attn_proj") w0 x mask b l Hl Hx Hmask)
    as (a & Ha & Hsa).
  cbn [fst snd] in Ha. rewrite (bind_ok _ _ _ _ _ Ha).
  (* first residual and normalization *)
  erewrite bind_ok by (by apply apply_layer_ok).
  erewrite bind_ok; cycle 1.
  { apply apply_layer_ok. cbn [fmap list_fmap input_shape_of layer_op mbind result_bind
      keras_shape_of]. rewrite Hx, Hsa. by apply merge_same. }
  erewrite bind_ok; cycle 1.
  { apply apply_layer_ok. cbn [fmap list_fmap input_shape_of layer_op mbind result_bind
      keras_shape_of]. by apply layer_norm_shape. }
  (* feed-forward *)
  rewrite !bind_bind.
  erewrite bind_ok; cycle 1.
  { apply apply_layer_ok. cbn [fmap list_fmap input_shape_of layer_op mbind result_bind
      keras_shape_of]. by apply conv1d_shape. }
  rewrite bind_bind.
  erewrite bind_ok by (by apply apply_layer_ok).
  erewrite bind_ok; cycle 1.
  { apply apply_layer_ok. cbn [fmap list_fmap input_shape_of layer_op mbind result_bind
      keras_shape_of]. by apply conv1d_shape. }
  (* second residual and normalization *)
  erewrite bind_ok by (by apply apply_layer_ok).
  erewrite bind_ok; cycle 1.
  { apply apply_layer_ok. cbn [fmap list_fmap input_shape_of layer_op mbind result_bind
      keras_shape_of]. by apply merge_same. }
  eexists. split.
  - apply apply_layer_ok. cbn [fmap list_fmap input_shape_of layer_op mbind result_bind
      keras_shape_of]. by apply layer_norm_shape.
  - done.
Qed.

(** What [EncoderLayer.__call__] went through when it returned. *)
Lemma EncoderLayer_call_inv (self : EncoderLayer.t) (x : ktensor)
    (mask : option ktensor) (w w' : world) (output : ktensor) :
  EncoderLayer.__call__ self x mask w = (Ok output, w') →
  ∃ (a n f : ktensor) (s1 s2 s3 s4 s5 s6 : pyval),
    MultiHeadAttention.__call__ (EncoderLayer.attention self) x mask w = (Ok a, w)
    ∧ n = Call (EncoderLayer.ln1 self) false
            [Call (EncoderLayer.add1 self) true
               [x; Call (EncoderLayer.drop1 self) false [a] s1] s2] s3
    ∧ PositionWiseFF.__call__ (EncoderLayer.ffn self) n w = (Ok f, w)
    ∧ output = Call (EncoderLayer.ln2 self) false
                 [Call (EncoderLayer.add2 self) true
                    [n; Call (EncoderLayer.drop2 self) false [f] s4] s5] s6
    ∧ w' = w.
Proof.
  unfold EncoderLayer.__call__, call, call_list. intros H. inv_returns H.
  pose proof (MultiHeadAttention_call_state _ _ _ _ _ _ Hstep) as ->.
  apply apply_layer_returns in Hstep0 as (s1 & -> & ->).
  apply apply_layer_returns in Hstep1 as (s2 & -> & ->).
  apply apply_layer_returns in Hstep2 as (s3 & -> & ->).
  pose proof (PositionWiseFF_call_state _ _ _ _ _ Hstep3) as ->.
  apply apply_layer_returns in Hstep4 as (s4 & -> & ->).
  apply apply_layer_returns in Hstep5 as (s5 & -> & ->).
  apply apply_layer_returns in H as (s6 & -> & ->).
  by eexists a, _, a3, s1, s2, s3, s4, s5, s6.
Qed.

(** C5.  Whenever [EncoderLayer] returns an output for [x] and [mask], the
    output is built in this order: [a = Attention(x, mask)];
    [n = LayerNorm1(Add1([x, Dropout1(a)]))]; [f = FFN(n)];
    [output = LayerNorm2(Add2([n, Dropout2(f)]))].  Each addition is the
    argument of its normalization, and the second addition takes [n],
    the first normalized value, and not [x].  And it does return an
    output, of the shape of [x], when the layer was constructed for the
    width of [x] and is given a mask exactly when it does not ignore
    masks. *)
Theorem EncoderLayer_post_norm (self : EncoderLayer.t) (x : ktensor)
    (mask : option ktensor) (w : world) :
  (∀ (w' : world) (output : ktensor),
     EncoderLayer.__call__ self x mask w = (Ok output, w') →
     ∃ (a n f : ktensor) (s1 s2 s3 s4 s5 s6 : pyval),
       MultiHeadAttention.__call__ (EncoderLayer.attention self) x mask w = (Ok a, w)
       ∧ n = Call (EncoderLayer.ln1 self) false
               [Call (EncoderLayer.add1 self) true
                  [x; Call (EncoderLayer.drop1 self) false [a] s1] s2] s3
       ∧ PositionWiseFF.__call__ (EncoderLayer.ffn self) n w = (Ok f, w)
       ∧ output = Call (EncoderLayer.ln2 self) false
                    [Call (EncoderLayer.add2 self) true
                       [n; Call (EncoderLayer.drop2 self) false [f] s4] s5] s6
       ∧ w' = w)
  ∧ (∀ (n_state n_head d_hid layer_id : Z) (rd ad : pyfloat) (im : bool)
       (w1 w2 : world) (b l : pyval),
       EncoderLayer.__init__ n_state n_head d_hid rd ad im layer_id w1 = (Ok self, w2) →
       is_dim b → is_dim l → 0 ≤ n_state →
       keras_shape_of x = PTuple [b; l; PInt n_state] →
       (if im then mask = None else is_Some mask) →
       ∃ output, EncoderLayer.__call__ self x mask w = (Ok output, w)
                 ∧ keras_shape_of output = keras_shape_of x).
Proof.
  split.
  - intros w' output. apply EncoderLayer_call_inv.
  - intros n_state n_head d_hid layer_id rd ad im w1 w2 b l Hinit Hb Hl Hn Hx Hmask.
    rewrite Hx. by eapply EncoderLayer_call_total.
Qed.

Lemma EncoderLayer_post_norm_witness :
  ∃ (self : EncoderLayer.t) (w : world) (output : ktensor),
    encoder_0 empty_world = (Ok self, w)
    ∧ EncoderLayer.__call__ self hidden_input (Some mask_input) w = (Ok output, w)
    ∧ ∃ (a n f : ktensor) (s1 s2 s3 s4 s5 s6 : pyval),
        MultiHeadAttention.__call__ (EncoderLayer.attention self) hidden_input
          (Some mask_input) w = (Ok a, w)
        ∧ n = Call (EncoderLayer.ln1 self) false
                [Call (EncoderLayer.add1 self) true
                   [hidden_input; Call (EncoderLayer.drop1 self) false [a] s1] s2] s3
        ∧ PositionWiseFF.__call__ (EncoderLayer.ffn self) n w = (Ok f, w)
        ∧ output = Call (EncoderLayer.ln2 self) false
                     [Call (EncoderLayer.add2 self) true
                        [n; Call (EncoderLayer.drop2 self) false [f] s4] s5] s6
        ∧ w = w.
Proof.
  eexists _, _, _. split; [vm_compute; reflexivity|].
  split; [vm_compute; reflexivity|].
  eapply (proj1 (EncoderLayer_post_norm _ hidden_input (Some mask_input) _)).
  vm_compute. reflexivity.
Defined.

Lemma MultiHeadAttention_init_raises (n_state n_head r : Z) (ad : pyfloat) (im : bool)
    (layer_id : Z) (w : world) :
  py_mod n_state n_head = Ok r → r ≠ 0 →
  MultiHeadAttention.__init__ n_state n_head ad im layer_id w = (Raise AssertionError, w).
Proof.
  intros Hmod Hr. unfold MultiHeadAttention.__init__.
  rewrite (bind_ok _ _ w w r) by (by rewrite Hmod).
  apply bind_raise. unfold lift, py_assert.
  by destruct (Z.eqb_spec r 0).
Qed.

Lemma MultiHeadAttention_init_returns (n_state n_head : Z) (ad : pyfloat) (im : bool)
    (layer_id : Z) (w : world) :
  py_mod n_state n_head = Ok 0 →
  ∃ (m : MultiHeadAttention.t) (w' : world),
    MultiHeadAttention.__init__ n_state n_head ad im layer_id w = (Ok m, w')
    ∧ constructed w' = constructed w ++ [layer_name_of layer_id "c_attn";
                                          layer_name_of layer_id "self_attention";
                                          layer_name_of layer_id "c_attn_proj"].
Proof.
  intros Hmod. unfold MultiHeadAttention.__init__.
  rewrite (bind_ok _ _ w w 0) by (by rewrite Hmod).
  rewrite (bind_ok _ _ w w tt) by done.
  rewrite !bind_make. eexists _, _. split; [apply ret_run|].
  cbn [with_layer constructed]. by rewrite <- !app_assoc.
Qed.

Lemma EncoderLayer_init_raises (n_state n_head r d_hid : Z) (rd ad : pyfloat) (im : bool)
    (layer_id : Z) (w : world) :
  py_mod n_state n_head = Ok r → r ≠ 0 →
  EncoderLayer.__init__ n_state n_head d_hid rd ad im layer_id w = (Raise AssertionError, w).
Proof.
  intros Hmod Hr. unfold EncoderLayer.__init__.
  apply bind_raise. by eapply MultiHeadAttention_init_raises.
Qed.

Lemma EncoderLayer_init_returns (n_state n_head d_hid : Z) (rd ad : pyfloat) (im : bool)
    (layer_id : Z) (w : world) :
  py_mod n_state n_head = Ok 0 →
  ∃ (e : EncoderLayer.t) (w' : world),
    EncoderLayer.__init__ n_state n_head d_hid rd ad im layer_id w = (Ok e, w').
Proof.
  intros Hmod. unfold EncoderLayer.__init__.
  destruct (MultiHeadAttention_init_returns n_state n_head ad im layer_id w Hmod)
    as (m & w1 & Hm & _).
  rewrite (bind_ok _ _ _ _ _ Hm), !bind_make.
  unfold PositionWiseFF.__init__.
  repeat first [rewrite bind_bind | rewrite bind_make | rewrite bind_ret].
  eexists _, _. apply ret_run.
Qed.

Lemma call_position (name : string) (L : pyval) (fed : bool) (w : world) :
  call (Layer "PositionInput" PositionIds) (Input name (PTuple [PNone; L]) fed) w
  = (Ok (Call (Layer "PositionInput" PositionIds) false
           [Input name (PTuple [PNone; L]) fed] (PTuple [PInt 1; L])), w).
Proof. reflexivity. Qed.

Lemma call_embedding (self : Embedding.t) (n1 n2 : string) (L : pyval)
    (fed : bool) (p : ktensor) (w : world) :
  keras_shape_of p = PTuple [PInt 1; L] →
  Embedding.__call__ self (Input n1 (PTuple [PNone; L]) fed)
    (Input n2 (PTuple [PNone; L]) fed) p w
  = (Ok (Call (Layer "Embedding" (EmbeddingSum (Embedding.output_dim self))) true
           [Input n1 (PTuple [PNone; L]) fed; Input n2 (PTuple [PNone; L]) fed; p]
           (PTuple [PNone; L; PInt (Embedding.output_dim self)])), w).
Proof.
  intros Hp. unfold Embedding.__call__, call_list, apply_layer.
  cbn [fmap list_fmap keras_shape_of]. rewrite Hp. reflexivity.
Qed.

Lemma debug_tensor_returns (a : create_model_args) (high : Z) (shape : list Z) (w : world) :
  (debug a = true → 0 < high) →
  ∃ w1, debug_tensor a 0 high shape w = (Ok tt, w1) ∧ constructed w1 = constructed w.
Proof.
  intros Hhigh. unfold debug_tensor, randint. destruct (debug a).
  - destruct (Z.leb_spec high 0); [specialize (Hhigh eq_refl); lia|].
    eexists. split; reflexivity.
  - eexists. split; reflexivity.
Qed.

(** Up to its first [EncoderLayer], [create_model] does not raise. *)
Lemma create_model_reaches_encoder (a : create_model_args) (w : world) :
  (debug a = true → 0 < vocab_size a) →
  ∃ (mask : option ktensor) (x : ktensor) (w1 : world) (f : ktensor → M Model),
    create_model a w = (encoder_stack a mask (Z.to_nat (num_layers a)) 0 x ≫= f) w1
    ∧ constructed w1 = constructed w ++ layers_before_encoder a.
Proof.
  intros Hdebug. unfold create_model, layers_before_encoder.
  assert (Hmask : ∃ mask w0,
    (if ignore_mask a then mret None
     else _ ← debug_tensor a 0 2 [3; 1; max_len a; max_len a];
          m ← make_input (PTuple [PNone; PInt 1; PInt (max_len a); PInt (max_len a)])
                "MaskInput" (debug a);
          mret (Some m)) w = (Ok mask, w0)
    ∧ constructed w0
      = constructed w ++ (if ignore_mask a then [] else ["MaskInput"])).
  { destruct (ignore_mask a).
    - eexists _, _. split; [apply ret_run|]. by rewrite app_nil_r.
    - destruct (debug_tensor_returns a 2 [3; 1; max_len a; max_len a] w)
        as (w0 & Hd & Hc); [lia|].
      rewrite (bind_ok _ _ _ _ _ Hd), bind_make_input.
      eexists _, _. split; [apply ret_run|]. cbn [with_layer constructed]. by rewrite Hc. }
  destruct Hmask as (mask & w0 & Hmask & Hc0).
  rewrite (bind_ok _ _ _ _ _ Hmask).
  destruct (debug_tensor_returns a (vocab_size a) [3; max_len a] w0) as (w1 & Hd1 & Hc1);
    [done|].
  rewrite (bind_ok _ _ _ _ _ Hd1), bind_make_input.
  destruct (debug_tensor_returns a 2 [3; max_len a] (with_layer "TokenInput" w1))
    as (w2 & Hd2 & Hc2); [lia|].
  rewrite (bind_ok _ _ _ _ _ Hd2), bind_make_input, bind_make.
  rewrite (bind_ok _ _ _ _ _ (call_position _ _ _ _)).
  unfold Embedding.__init__. rewrite bind_bind.
  rewrite (bind_ok _ _ _ (with_layer "TokenEmbedding" _) tt) by reflexivity.
  rewrite bind_ret.
  erewrite bind_ok by (by apply call_embedding).
  eexists _, _, _, _. split; [reflexivity|].
  cbn [with_layer constructed]. rewrite Hc2. cbn [with_layer constructed].
  rewrite Hc1, Hc0. by rewrite <- !app_assoc.
Qed.

Lemma encoder_stack_raises (a : create_model_args) (mask : option ktensor) (count : nat)
    (i r : Z) (x : ktensor) (w : world) :
  py_mod (embedding_dim a) (num_heads a) = Ok r → r ≠ 0 → (0 < count)%nat →
  encoder_stack a mask count i x w = (Raise AssertionError, w).
Proof.
  intros Hmod Hr Hcount. destruct count as [|k]; [lia|].
  cbn [encoder_stack]. apply bind_raise. by eapply EncoderLayer_init_raises.
Qed.

(** C9, as the code has it.  With [n_state % n_head != 0], constructing a
    [MultiHeadAttention] or an [EncoderLayer] raises an assertion error
    and no layer has been constructed by then; [create_model] with at
    least one layer raises the same assertion error when it constructs
    its first [EncoderLayer], after the input layers, the position-id
    generator and the embedding have been constructed.  With
    [n_state % n_head == 0] the assertion does not fire: both
    constructors return, [MultiHeadAttention] having constructed its
    three layers. *)
Theorem divisibility_assertion (n_state n_head r : Z) :
  py_mod n_state n_head = Ok r →
  (r ≠ 0 →
     (∀ ad im layer_id w,
        MultiHeadAttention.__init__ n_state n_head ad im layer_id w
        = (Raise AssertionError, w))
     ∧ (∀ d_hid rd ad im layer_id w,
          EncoderLayer.__init__ n_state n_head d_hid rd ad im layer_id w
          = (Raise AssertionError, w))
     ∧ (∀ a w,
          embedding_dim a = n_state → num_heads a = n_head →
          1 ≤ num_layers a → (debug a = true → 0 < vocab_size a) →
          ∃ w', create_model a w = (Raise AssertionError, w')
                ∧ constructed w' = constructed w ++ layers_before_encoder a))
  ∧ (r = 0 →
     (∀ ad im layer_id w,
        ∃ m w', MultiHeadAttention.__init__ n_state n_head ad im layer_id w = (Ok m, w')
                ∧ constructed w'
                  = constructed w ++ [layer_name_of layer_id "c_attn";
                                      layer_name_of layer_id "self_attention";
                                      layer_name_of layer_id "c_attn_proj"])
     ∧ (∀ d_hid rd ad im layer_id w,
          ∃ e w', EncoderLayer.__init__ n_state n_head d_hid rd ad im layer_id w
                  = (Ok e, w'))).
Proof.
  intros Hmod. split.
  - intros Hr. split; [|split].
    + intros. by eapply MultiHeadAttention_init_raises.
    + intros. by eapply EncoderLayer_init_raises.
    + intros a w <- <- Hlayers Hdebug.
      destruct (create_model_reaches_encoder a w Hdebug) as (mask & x & w1 & f & -> & Hc).
      exists w1. split; [|done].
      apply bind_raise. eapply encoder_stack_raises; [done..|lia].
  - intros ->. split.
    + intros. by apply MultiHeadAttention_init_returns.
    + intros. by apply EncoderLayer_init_returns.
Qed.

Lemma divisibility_assertion_witness :
  (1 ≠ 0 →
     (∀ ad im layer_id w,
        MultiHeadAttention.__init__ 5 2 ad im layer_id w = (Raise AssertionError, w))
     ∧ (∀ d_hid rd ad im layer_id w,
          EncoderLayer.__init__ 5 2 d_hid rd ad im layer_id w
          = (Raise AssertionError, w))
     ∧ (∀ a w,
          embedding_dim a = 5 → num_heads a = 2 →
          1 ≤ num_layers a → (debug a = true → 0 < vocab_size a) →
          ∃ w', create_model a w = (Raise AssertionError, w')
                ∧ constructed w' = constructed w ++ layers_before_encoder a))
  ∧ (1 = 0 →
     (∀ ad im layer_id w,
        ∃ m w', MultiHeadAttention.__init__ 5 2 ad im layer_id w = (Ok m, w')
                ∧ constructed w'
                  = constructed w ++ [layer_name_of layer_id "c_attn";
                                      layer_name_of layer_id "self_attention";
                                      layer_name_of layer_id "c_attn_proj"])
     ∧ (∀ d_hid rd ad im layer_id w,
          ∃ e w', EncoderLayer.__init__ 5 2 d_hid rd ad im layer_id w = (Ok e, w'))).
Proof.
  apply (divisibility_assertion 5 2 1). reflexivity.
Defined.

(** C9 as stated fails for [create_model]: 5 is not a multiple of 2, yet
    with no layer to stack [create_model] returns a model, and with one
    layer the assertion error comes after five layers were
    constructed. *)
Lemma create_model_indivisible_counterexample :
  py_mod 5 2 = Ok 1
  ∧ (∃ m w', create_model (indivisible_args 0) empty_world = (Ok m, w'))
  ∧ ∃ w', create_model (indivisible_args 1) empty_world = (Raise AssertionError, w')
          ∧ constructed w' = ["MaskInput"; "TokenInput"; "SegmentInput";
                              "PositionInput"; "TokenEmbedding"].
Proof.
  split; [reflexivity|]. split.
  - eexists _, _. vm_compute. reflexivity.
  - eexists. split; vm_compute; reflexivity.
Qed.

(** C2.  For every batch size, the model that
    [create_model(num_layers=2, embedding_dim=64, num_heads=4, max_len=16,
    vocab_size=100)] returns has two outputs, the final hidden states of
    shape [(batch, 16, 64)] and the vocabulary logits of shape
    [(batch, 16, 100)], in that order; the shapes Keras records for them
    leave the batch dimension open. *)
Theorem create_model_output_shapes (c : constants) (batch : Z) (w : world) :
  ∃ (m : Model) (w' : world),
    create_model (small_model_args c) w = (Ok m, w')
    ∧ keras_shape_of <$> outputs m
      = [PTuple [PNone; PInt 16; PInt 64]; PTuple [PNone; PInt 16; PInt 100]]
    ∧ shape_at batch <$> outputs m
      = [Ok (PTuple [PInt batch; PInt 16; PInt 64]);
         Ok (PTuple [PInt batch; PInt 16; PInt 100])].
Proof.
  destruct c as [sc ns uo im]. destruct im.
  all: eexists _, _; split; [vm_compute; reflexivity|].
  all: split; [reflexivity|].
  all: cbn [outputs fmap list_fmap].
  all: repeat (lazy -[dim_eqb]; rewrite ?dim_eqb_int_refl).
  all: reflexivity.
Qed.

(** *** NumPy: splitting a flat array at running sums *)

Section numpy_facts.
Context {A : Type}.

Lemma prod_nonneg (s : list Z) : Forall (fun d => 0 ≤ d) s → 0 ≤ prod s.
Proof.
  induction 1 as [|d s Hd _ IH]; cbn; [lia|].
  unfold prod in IH. by apply Z.mul_nonneg_nonneg.
Qed.

Lemma sum_nonneg (sizes : list Z) :
  Forall (fun s => 0 ≤ s) sizes → 0 ≤ foldr Z.add 0 sizes.
Proof. induction 1; cbn; lia. Qed.

Lemma reshape_exact (a : ndarray A) (newshape : list Z) :
  Forall (fun d => 0 ≤ d) newshape →
  prod newshape = Z.of_nat (length (data a)) →
  reshape a newshape = Ok (NdArray newshape (data a)).
Proof.
  intros Hdims Hsize. unfold reshape.
  assert (Hknown : filter (fun d => negb (is_unknown d)) newshape = newshape).
  { clear Hsize. induction Hdims as [|d s Hd _ IH]; [done|].
    rewrite filter_cons_True.
    - by rewrite IH.
    - unfold is_unknown. by destruct (Z.eqb_spec d (-1)); [lia|]. }
  rewrite Hknown.
  assert (Hall : forallb (fun d => 0 <=? d) newshape = true).
  { apply forallb_forall. intros d Hd%list_elem_of_In.
    rewrite Forall_forall in Hdims. apply Z.leb_le. by apply Hdims. }
  rewrite Hall. cbn [negb]. rewrite Nat.sub_diag, Hsize, Z.eqb_refl. done.
Qed.

Lemma slice_flat (stream : list A) (a b : Z) :
  0 ≤ a → a ≤ b → b ≤ Z.of_nat (length stream) →
  np.slice (NdArray [Z.of_nat (length stream)] stream) a b
  = Ok (NdArray [b - a] (take (Z.to_nat (b - a)) (drop (Z.to_nat a) stream))).
Proof.
  intros Ha Hab Hb. unfold np.slice, py_clamp. cbn [shape data prod foldr].
  destruct (Z.ltb_spec a 0); [lia|]. destruct (Z.ltb_spec b 0); [lia|].
  rewrite !Z.min_r, !Z.max_r by lia.
  by rewrite !Z.mul_1_r.
Qed.

Lemma map_result_zip_cons {B C D} (f : B * C → result D) (x : B) (xs : list B)
    (y : C) (ys : list C) :
  map_result f (zip (x :: xs) (y :: ys))
  = (c ← f (x, y); cs ← map_result f (zip xs ys); Ok (c :: cs)).
Proof. reflexivity. Qed.

Lemma split_at_cumsum (stream : list A) (sizes : list Z) (acc : Z) :
  let n := Z.of_nat (length stream) in
  Forall (fun s => 0 ≤ s) sizes → 0 ≤ acc → acc + foldr Z.add 0 sizes ≤ n →
  ∃ last,
    map_result (fun p => np.slice (NdArray [n] stream) p.1 p.2)
      (zip (acc :: np.cumsum_from acc sizes ++ [n]) (np.cumsum_from acc sizes ++ [n]))
    = Ok (pieces_from stream acc sizes ++ [last]).
Proof.
  intros n Hsizes. revert acc.
  induction Hsizes as [|s sizes Hs Hrest IH]; intros acc Hacc Hsum.
  - cbn in Hsum. cbn -[np.slice]. unfold n. rewrite slice_flat by lia.
    eexists. reflexivity.
  - cbn [foldr] in Hsum. destruct (IH (acc + s)) as [last Hlast]; [lia..|].
    exists last. cbn [np.cumsum_from app pieces_from].
    rewrite map_result_zip_cons. cbn [fst snd].
    pose proof (sum_nonneg sizes Hrest).
    unfold n. rewrite slice_flat by lia. cbn [mbind result_bind].
    fold n. rewrite Hlast. cbn [mbind result_bind].
    by replace (acc + s - acc) with s by lia.
Qed.

Lemma py_slice_drop_last (xs : list A) (y : A) : py_slice (xs ++ [y]) 0 (-1) = xs.
Proof.
  unfold py_slice, py_clamp. rewrite length_app. cbn [length].
  destruct (Z.ltb_spec 0 0); [lia|]. destruct (Z.ltb_spec (-1) 0); [|lia].
  rewrite Z.min_r, Z.max_r, Z.min_r, Z.max_r by lia.
  replace (Z.to_nat (-1 + Z.of_nat (length xs + 1) - 0)) with (length xs) by lia.
  change (Z.to_nat 0) with 0%nat. by rewrite drop_0, take_app_length.
Qed.

Lemma concatenate_flat (arrays : list (ndarray A)) :
  arrays ≠ [] →
  Forall (fun a => shape a = [Z.of_nat (length (data a))]) arrays →
  np.concatenate arrays
  = Ok (NdArray [Z.of_nat (length (arrays ≫= data))] (arrays ≫= data)).
Proof.
  intros Hne Hflat. unfold np.concatenate.
  destruct arrays as [|first rest]; [done|].
  pose proof (Forall_inv Hflat) as Hfirst. rewrite Hfirst. cbv beta iota.
  match goal with |- context [forallb ?f ?l] => assert (Hall : forallb f l = true) end.
  { apply forallb_forall. intros a Ha%list_elem_of_In.
    rewrite Forall_forall in Hflat. by rewrite (Hflat a Ha). }
  rewrite Hall. do 3 f_equal.
  clear Hne Hall Hfirst. induction Hflat as [|a l Ha _ IH]; [done|].
  cbn [fmap list_fmap foldr mbind list_bind]. rewrite IH, Ha.
  cbn [head default]. rewrite length_app. unfold id. lia.
Qed.

End numpy_facts.

(** *** load_openai_model: the parameter list *)

Section loader_facts.
Context {R : Type} `{Scalar R}.
Variable normal : nat → R.
Variable fs : gmap string (file R).
Variable c : constants.

Lemma np_load_ok (p : string) (a : ndarray R) (w : world) :
  fs !! p = Some (Npy a) → np_load fs p w = (Ok a, with_file p w).
Proof.
  intros Hp. unfold np_load, open_file, mbind, M_bind. by rewrite Hp.
Qed.

Lemma json_load_ok (p : string) (shapes : list (list Z)) (w : world) :
  fs !! p = Some (Json shapes) → json_load fs p w = (Ok shapes, with_file p w).
Proof.
  intros Hp. unfold json_load, open_file, mbind, M_bind. by rewrite Hp.
Qed.

Lemma for_each_np_load (path : string) (ns : list nat) (arrays : list (ndarray R))
    (w : world) :
  Forall2 (fun n a => fs !! params_file path n = Some (Npy a)) ns arrays →
  ∃ w', for_each (fun n => np_load fs (params_file path n)) ns w = (Ok arrays, w')
        ∧ files_read w' = files_read w ++ (params_file path <$> ns)
        ∧ rng_drawn w' = rng_drawn w.
Proof.
  intros Hfiles. revert w.
  induction Hfiles as [|n a ns arrays Hn _ IH]; intros w.
  - exists w. by rewrite app_nil_r.
  - destruct (IH (with_file (params_file path n) w)) as (w' & Hrun & Hread & Hrng).
    exists w'. split; [|split].
    + cbn [for_each]. rewrite (bind_ok _ _ _ _ _ (np_load_ok _ _ _ Hn)).
      by rewrite (bind_ok _ _ _ _ _ Hrun).
    + rewrite Hread. cbn. by rewrite <- app_assoc.
    + by rewrite Hrng.
Qed.

Lemma reshape_pieces (stream : list R) (shapes : list (list Z)) (acc : Z) :
  Forall (fun s => Forall (fun d => 0 ≤ d) s) shapes → 0 ≤ acc →
  acc + foldr Z.add 0 (prod <$> shapes) ≤ Z.of_nat (length stream) →
  zip_with_result (fun param shape => reshape param shape)
    (pieces_from stream acc (prod <$> shapes)) shapes
  = Ok (cut shapes (drop (Z.to_nat acc) stream)).
Proof.
  intros Hshapes. revert acc.
  induction Hshapes as [|s shapes Hs Hrest IH]; intros acc Hacc Hsum; [done|].
  cbn [fmap list_fmap foldr] in Hsum.
  pose proof (prod_nonneg s Hs).
  assert (0 ≤ foldr Z.add 0 (prod <$> shapes)).
  { apply sum_nonneg, Forall_fmap. eapply Forall_impl; [exact Hrest|].
    intros s' Hs'. by apply prod_nonneg. }
  cbn [fmap list_fmap pieces_from zip_with_result cut].
  rewrite reshape_exact; cycle 1; [done| |].
  { cbn [data]. rewrite length_take, length_drop. lia. }
  cbn [mbind result_bind data]. rewrite IH by lia. cbn [mbind result_bind].
  rewrite drop_drop.
  by replace (Z.to_nat (acc + prod s)) with (Z.to_nat acc + Z.to_nat (prod s))%nat by lia.
Qed.

Lemma cut_shapes (shapes : list (list Z)) (stream : list R) :
  shape <$> cut shapes stream = shapes.
Proof.
  revert stream. induction shapes as [|s shapes IH]; intros stream; [done|].
  cbn. by rewrite IH.
Qed.

Lemma astype_zeros (shape : list Z) (n : nat) :
  np.astype_float32 (NdArray shape (replicate n zero)) = NdArray shape (replicate n zero).
Proof.
  unfold np.astype_float32. cbn [data]. by rewrite fmap_replicate, f32_zero.
Qed.

(** C3.  With the manifest and the ten flat archives on disk, the
    manifest holding at least two shapes, none empty, whose entries the
    archives cover, and the second shape being [(v, 768)],
    [load_openai_model] reads the manifest and then [params_0.npy] to
    [params_9.npy] in this order, and nothing else; it cuts the
    concatenation of the archives at the running sums of the products of
    the shapes and gives each slice its shape; and the list it hands on is
    these slices with three changes: slice 1 has [SPECIAL_COUNT] more
    rows, fresh samples times 0.02; a zero array [(NUM_SEGMENTS, 768)]
    comes first; a zero vector of length [40478 + SPECIAL_COUNT] comes
    last. *)
Theorem init_params_assembled (path : string) (shapes : list (list Z))
    (arrays : list (ndarray R)) (v : Z) (w : world) :
  fs !! (path +:+ "params_shapes.json") = Some (Json shapes) →
  Forall2 (fun n a => fs !! params_file path n = Some (Npy a)) (seq 0 10) arrays →
  Forall (fun a => shape a = [Z.of_nat (length (data a))]) arrays →
  Forall (fun s => s ≠ [] ∧ Forall (fun d => 0 ≤ d) s) shapes →
  foldr Z.add 0 (prod <$> shapes) ≤ Z.of_nat (length (arrays ≫= data)) →
  shapes !! 1%nat = Some [v; 768] →
  0 ≤ SPECIAL_COUNT c → 0 ≤ NUM_SEGMENTS c →
  let slices := cut shapes (arrays ≫= data) in
  ∃ (token : ndarray R) (w' : world),
    slices !! 1%nat = Some token
    ∧ init_params normal fs c path w
      = (Ok (NdArray [NUM_SEGMENTS c; 768]
               (replicate (Z.to_nat (prod [NUM_SEGMENTS c; 768])) zero)
             :: <[1%nat := NdArray [v + SPECIAL_COUNT c; 768]
                             (data token ++ special_rows normal c (rng_drawn w))]> slices
             ++ [NdArray [40478 + SPECIAL_COUNT c]
                   (replicate (Z.to_nat (prod [40478 + SPECIAL_COUNT c])) zero)]), w')
    ∧ files_read w'
      = files_read w ++ (path +:+ "params_shapes.json") :: (params_file path <$> seq 0 10)
    ∧ rng_drawn w' = (rng_drawn w + Z.to_nat (SPECIAL_COUNT c * 768))%nat.
Proof.
  intros Hjson Hfiles Hflat Hshapes Hcover Hsecond Hsc Hns slices.
  assert (Hdims : Forall (fun s => Forall (fun d => 0 ≤ d) s) shapes).
  { eapply Forall_impl; [exact Hshapes|]. by intros s [_ Hs]. }
  assert (Hnonempty : existsb (fun s => bool_decide (s = [])) shapes = false).
  { apply not_true_iff_false. intros (s & Hin%list_elem_of_In & Hs)%existsb_exists.
    apply bool_decide_eq_true in Hs. rewrite Forall_forall in Hshapes.
    by destruct (Hshapes s Hin). }
  assert (Harrays : arrays ≠ []).
  { intros ->. inversion Hfiles. }
  (* slice 1 *)
  assert (Htoken : ∃ token, slices !! 1%nat = Some token ∧ shape token = [v; 768]).
  { pose proof (cut_shapes shapes (arrays ≫= data)) as Hcut. fold slices in Hcut.
    rewrite <- Hcut, list_lookup_fmap in Hsecond.
    destruct (slices !! 1%nat) as [token|]; [|done].
    injection Hsecond as Htok. eauto. }
  destruct Htoken as (token & Htoken & Htshape).
  (* reading *)
  destruct (for_each_np_load path (seq 0 10) arrays
              (with_file (path +:+ "params_shapes.json") w) Hfiles)
    as (w1 & Hload & Hread & Hrng).
  (* splitting *)
  destruct (split_at_cumsum (arrays ≫= data) (prod <$> shapes) 0) as [last Hsplit].
  { apply Forall_fmap. eapply Forall_impl; [exact Hdims|]. intros s. apply prod_nonneg. }
  { done. }
  { lia. }
  exists token, (with_drawn (Z.to_nat (SPECIAL_COUNT c * 768)) w1).
  split; [done|]. split; [|split].
  - unfold init_params.
    rewrite (bind_ok _ _ _ _ _ (json_load_ok _ _ _ Hjson)).
    rewrite (bind_ok _ _ _ _ _ Hload).
    rewrite (bind_ok _ _ w1 w1 _) by (unfold lift; by rewrite concatenate_flat).
    rewrite Hnonempty. rewrite (bind_ok _ _ w1 w1 tt) by done.
    rewrite (bind_ok _ _ w1 w1 _) by (unfold lift, np.split, np.cumsum;
                                       cbn [shape tail]; by rewrite Hsplit).
    rewrite py_slice_drop_last.
    rewrite (bind_ok _ _ w1 w1 _)
      by (unfold lift; rewrite reshape_pieces by (done || lia); by rewrite drop_0).
    fold slices.
    rewrite (bind_ok _ _ w1 w1 token)
      by (unfold lift; by rewrite (py_index_lookup _ 1 token) by (lia || done)).
    set (w2 := with_drawn (Z.to_nat (SPECIAL_COUNT c * 768)) w1).
    rewrite (bind_ok _ _ w1 w2 (NdArray [SPECIAL_COUNT c; 768]
               ((fun k => normal (rng_drawn w1 + k)%nat)
                <$> seq 0 (Z.to_nat (SPECIAL_COUNT c * 768))))); cycle 1.
    { unfold randn. destruct (Z.ltb_spec (SPECIAL_COUNT c) 0); [lia|]. done. }
    set (extended := NdArray [v + SPECIAL_COUNT c; 768]
                       (data token ++ special_rows normal c (rng_drawn w))).
    rewrite (bind_ok _ _ w2 w2 extended); cycle 1.
    { unfold lift, np.concatenate, np.scale, np.astype_float32.
      cbn [shape data]. rewrite Htshape. cbn [forallb shape]. rewrite Htshape.
      rewrite !bool_decide_eq_true_2 by done.
      cbn [andb fmap list_fmap foldr mbind list_bind data shape]. rewrite Htshape.
      unfold default. cbn [head from_option id].
      unfold extended, special_rows. rewrite Hrng, app_nil_r, Z.add_0_r.
      cbn [with_file rng_drawn].
      by rewrite <- !list_fmap_compose. }
    rewrite (bind_ok _ _ w2 w2 (<[1%nat := extended]> slices)); cycle 1.
    { unfold lift, py_setitem.
      pose proof (lookup_lt_Some _ _ _ Htoken).
      destruct (Z.ltb_spec 1 0); [lia|].
      destruct (Z.leb_spec 0 1); [|lia].
      destruct (Z.ltb_spec 1 (Z.of_nat (length slices))); [|lia]. done. }
    rewrite (bind_ok _ _ w2 w2 (NdArray [NUM_SEGMENTS c; 768]
               (replicate (Z.to_nat (prod [NUM_SEGMENTS c; 768])) zero))); cycle 1.
    { unfold lift, np.zeros. cbn [forallb].
      destruct (Z.leb_spec 0 (NUM_SEGMENTS c)); [|lia]. done. }
    rewrite (bind_ok _ _ w2 w2 (NdArray [40478 + SPECIAL_COUNT c]
               (replicate (Z.to_nat (prod [40478 + SPECIAL_COUNT c])) zero))); cycle 1.
    { unfold lift, np.zeros. cbn [forallb].
      destruct (Z.leb_spec 0 (40478 + SPECIAL_COUNT c)); [|lia]. done. }
    by rewrite !astype_zeros.
  - cbn [with_drawn files_read]. rewrite Hread. cbn [with_file files_read].
    by rewrite <- app_assoc.
  - cbn [with_drawn rng_drawn]. rewrite Hrng. done.
Qed.

End loader_facts.

Lemma init_params_assembled_witness :
  let slices := cut checkpoint_shapes (checkpoint_arrays ≫= data) in
  ∃ (token : ndarray float) (w' : world),
    slices !! 1%nat = Some token
    ∧ init_params sample_stream checkpoint sample_constants "./openai_weights/" empty_world
      = (Ok (NdArray [NUM_SEGMENTS sample_constants; 768]
               (replicate (Z.to_nat (prod [NUM_SEGMENTS sample_constants; 768])) zero)
             :: <[1%nat := NdArray [1 + SPECIAL_COUNT sample_constants; 768]
                             (data token
                              ++ special_rows sample_stream sample_constants
                                   (rng_drawn empty_world))]> slices
             ++ [NdArray [40478 + SPECIAL_COUNT sample_constants]
                   (replicate (Z.to_nat (prod [40478 + SPECIAL_COUNT sample_constants]))
                      zero)]), w')
    ∧ files_read w'
      = files_read empty_world
        ++ ("./openai_weights/" +:+ "params_shapes.json")
           :: (params_file "./openai_weights/" <$> seq 0 10)
    ∧ rng_drawn w'
      = (rng_drawn empty_world + Z.to_nat (SPECIAL_COUNT sample_constants * 768))%nat.
Proof.
  apply (init_params_assembled sample_stream checkpoint sample_constants
           "./openai_weights/" checkpoint_shapes checkpoint_arrays 1 empty_world).
  - vm_compute. reflexivity.
  - unfold checkpoint_arrays. cbn [app replicate seq].
    repeat (constructor; [vm_compute; reflexivity|]). constructor.
  - unfold checkpoint_arrays. cbn [app replicate].
    repeat (constructor; [vm_compute; reflexivity|]). constructor.
  - repeat (constructor; [split; [discriminate | repeat constructor; lia]|]).
    constructor.
  - apply Z.leb_le. vm_compute. reflexivity.
  - reflexivity.
  - simpl. lia.
  - simpl. lia.
Defined.

(** *** load_openai_model: the check of the weights *)

Section check_facts.
Context {R : Type} `{Scalar R}.
Variable normal : nat → R.
Variable fs : gmap string (file R).
Variable c : constants.
Variable Model_weights : Model → list K.variable.
Variable Model_set_weights : Model → list (ndarray R) → M unit.

Lemma check_shapes_pairwise (weights : list K.variable) (params : list (ndarray R)) :
  length weights = length params →
  zip_with_result (fun a b => py_assert (bool_decide (K.var_shape a = shape b)))
    weights params ≫= (fun _ => Ok tt)
  = if bool_decide (K.var_shape <$> weights = shape <$> params)
    then Ok tt else Raise AssertionError.
Proof.
  revert params. induction weights as [|a weights IH]; intros [|b params] Hlen;
    try done.
  injection Hlen as Hlen. specialize (IH params Hlen).
  cbn [zip_with_result fmap list_fmap].
  destruct (decide (K.var_shape a = shape b)) as [Hab|Hab].
  - rewrite (bool_decide_eq_true_2 _ Hab). cbn [py_assert mbind result_bind].
    destruct (zip_with_result _ weights params) as [l|e]; cbn [mbind result_bind] in *.
    + case_bool_decide as Hrest; [|done].
      rewrite bool_decide_eq_true_2; [done|]. by rewrite Hab, Hrest.
    + case_bool_decide as Hrest; [done|]. injection IH as ->.
      rewrite bool_decide_eq_false_2; [done|]. intros [= _ Heq]. done.
  - rewrite (bool_decide_eq_false_2 _ Hab). cbn [py_assert mbind result_bind].
    rewrite bool_decide_eq_false_2; [done|]. intros [= Heq _]. done.
Qed.

(** The check of lines 98 to 101 passes exactly when the model has as
    many weights as there are parameters and their shapes agree one by
    one; it raises an assertion error otherwise. *)
Lemma check_weights_spec (weights : list K.variable) (params : list (ndarray R)) :
  check_weights weights params
  = if bool_decide (K.var_shape <$> weights = shape <$> params)
    then Ok tt else Raise AssertionError.
Proof.
  unfold check_weights.
  destruct (Z.eqb_spec (Z.of_nat (length weights)) (Z.of_nat (length params)))
    as [Hlen|Hlen]; cbn [py_assert mbind result_bind].
  - apply check_shapes_pairwise. lia.
  - rewrite bool_decide_eq_false_2; [done|].
    intros Heq. apply Hlen. f_equal.
    by rewrite <- (length_fmap K.var_shape), Heq, length_fmap.
Qed.

(** C4.  [load_openai_model] compares the number and the shapes of the
    assembled parameters with the weights of the model exactly when
    [debug] is true, and then raises an assertion error unless they
    agree one by one, before [set_weights] runs; when [debug] is false it
    goes on to [set_weights] whatever the shapes are.  The check reads
    the shapes only: parameters in a wrong order whose shapes coincide
    pass it. *)
Theorem load_openai_model_checks_in_debug_only (path : string)
    (ignore_mask use_one_embedding_dropout debug : bool) (w : world) :
  load_openai_model normal fs c Model_weights Model_set_weights path ignore_mask
    use_one_embedding_dropout debug w
  = match init_params normal fs c path w with
    | (Raise e, w1) => (Raise e, w1)
    | (Ok params, w1) =>
        match create_model (openai_args c ignore_mask use_one_embedding_dropout debug) w1
        with
        | (Raise e, w2) => (Raise e, w2)
        | (Ok model, w2) =>
            if debug
               && negb (bool_decide (K.var_shape <$> Model_weights model
                                     = shape <$> params))
            then (Raise AssertionError, w2)
            else
              match Model_set_weights model params w2 with
              | (Ok _, w3) => (Ok model, w3)
              | (Raise e, w3) => (Raise e, w3)
              end
        end
    end
  ∧ ∀ (weights : list K.variable) (params params' : list (ndarray R)),
      shape <$> params = shape <$> params' →
      check_weights weights params = check_weights weights params'.
Proof.
  split.
  - unfold load_openai_model, mbind at 1, M_bind at 1.
    destruct (init_params _ _ _ _ _) as [[params|e] w1]; [|done].
    unfold mbind at 1, M_bind at 1.
    destruct (create_model _ _) as [[model|e] w2]; [|done].
    destruct debug; cbn [andb].
    + unfold lift at 1, mbind at 1, M_bind at 1.
      rewrite check_weights_spec.
      case_bool_decide; cbn [negb]; [|done].
      unfold mbind, M_bind, mret, M_ret.
      by destruct (Model_set_weights model params w2) as [[[]|e] w3].
    + unfold mbind, M_bind, mret, M_ret.
      by destruct (Model_set_weights model params w2) as [[[]|e] w3].
  - intros weights params params' Hshapes. by rewrite !check_weights_spec, Hshapes.
Qed.

End check_facts.

(** On the small checkpoint the loader hands five parameters to a model
    for which Keras lists no weight at all; with [debug] off nothing
    compares the two, and the model is returned once [set_weights]
    accepts the list. *)
Example load_openai_model_unchecked :
  match load_openai_model sample_stream checkpoint sample_constants
          (fun _ => []) (fun _ _ => mret tt) "./openai_weights/" false false false
          empty_world
  with
  | (Ok model, w) =>
      model_name model = "Transformer"
      ∧ length (constructed w) = 152%nat
      ∧ rng_drawn w = 2304%nat
  | (Raise _, _) => False
  end.
Proof. vm_compute. repeat split. Qed.

(** * Further properties of the code *)

(** *** States *)

Lemma with_layers_app (ns ms : list string) (w : world) :
  with_layers (ns ++ ms) w = with_layers ms (with_layers ns w).
Proof. unfold with_layers. apply foldl_app. Qed.

Lemma with_layers_fields (ns : list string) (w : world) :
  constructed (with_layers ns w) = constructed w ++ ns
  ∧ next_var (with_layers ns w) = next_var w
  ∧ objects (with_layers ns w) = objects w
  ∧ files_read (with_layers ns w) = files_read w
  ∧ rng_drawn (with_layers ns w) = rng_drawn w
  ∧ stdout (with_layers ns w) = stdout w.
Proof.
  revert w. induction ns as [|n ns IH]; intros w.
  - cbn. by rewrite app_nil_r.
  - cbn [with_layers foldl]. fold (with_layers ns (with_layer n w)).
    destruct (IH (with_layer n w)) as (-> & -> & -> & -> & -> & ->).
    cbn. by rewrite <- app_assoc.
Qed.

(** *** MultiHeadAttention *)

Lemma MultiHeadAttention_init_run (n_state n_head : Z) (ad : pyfloat) (im : bool)
    (layer_id : Z) (w : world) :
  py_mod n_state n_head = Ok 0 →
  MultiHeadAttention.__init__ n_state n_head ad im layer_id w
  = (Ok {| MultiHeadAttention.c_attn :=
             Layer (layer_name_of layer_id "c_attn") (Conv1D (3 * n_state) 1);
           MultiHeadAttention.self_attn :=
             Layer (layer_name_of layer_id "self_attention")
               (SelfAttn (SelfAttention.__init__ n_head n_state ad im
                            (layer_name_of layer_id "self_attention")));
           MultiHeadAttention.c_attn_proj :=
             Layer (layer_name_of layer_id "c_attn_proj") (Conv1D n_state 1) |},
     with_layers [layer_name_of layer_id "c_attn"; layer_name_of layer_id "self_attention";
                  layer_name_of layer_id "c_attn_proj"] w).
Proof.
  intros Hmod. unfold MultiHeadAttention.__init__.
  rewrite (bind_ok _ _ w w 0) by (by rewrite Hmod).
  rewrite (bind_ok _ _ w w tt) by done.
  rewrite !bind_make. reflexivity.
Qed.

(** The tensor [MultiHeadAttention.__call__] returns, written out. *)
Lemma MultiHeadAttention_call_run (n_state n_head c : Z) (ad : pyfloat) (im : bool)
    (n1 n2 n3 : string) (w0 : world) (x : ktensor) (mask : option ktensor) (b l : pyval) :
  is_dim l →
  keras_shape_of x = PTuple [b; l; PInt c] →
  (if im then mask = None else is_Some mask) →
  let c_attn := Layer n1 (Conv1D (3 * n_state) 1) in
  let self_attn := Layer n2 (SelfAttn (SelfAttention.__init__ n_head n_state ad im n2)) in
  let c_attn_proj := Layer n3 (Conv1D n_state 1) in
  let qkv := Call c_attn false [x] (PTuple [b; l; PInt (3 * n_state)]) in
  let a := match mask with
           | None => Call self_attn false [qkv] (PTuple [b; l; PInt n_state])
           | Some m => Call self_attn true [qkv; m] (PTuple [b; l; PInt n_state])
           end in
  MultiHeadAttention.__call__
    {| MultiHeadAttention.c_attn := c_attn; MultiHeadAttention.self_attn := self_attn;
       MultiHeadAttention.c_attn_proj := c_attn_proj |} x mask w0
  = (Ok (Call c_attn_proj false [a] (PTuple [b; l; PInt n_state])), w0).
Proof.
  intros Hl Hx Hmask c_attn self_attn c_attn_proj qkv a.
  unfold MultiHeadAttention.__call__, call, call_list.
  cbn [MultiHeadAttention.c_attn MultiHeadAttention.self_attn
       MultiHeadAttention.c_attn_proj].
  rewrite (bind_ok _ _ w0 w0 qkv); cycle 1.
  { apply apply_layer_ok. cbn [fmap list_fmap input_shape_of layer_op mbind result_bind].
    rewrite Hx. by apply conv1d_shape. }
  rewrite (bind_ok _ _ w0 w0 a); cycle 1.
  { unfold a. destruct im.
    - rewrite Hmask. apply apply_layer_ok.
      cbn [fmap list_fmap input_shape_of layer_op mbind result_bind keras_shape_of
           output_shape].
      apply (SelfAttention_declared_shape
               (SelfAttention.__init__ n_head n_state ad true n2) b l PNone n_state).
    - destruct Hmask as [m ->]. apply apply_layer_ok.
      cbn [fmap list_fmap input_shape_of layer_op mbind result_bind keras_shape_of
           output_shape].
      apply (SelfAttention_declared_shape
               (SelfAttention.__init__ n_head n_state ad false n2) b l
               (keras_shape_of m) n_state). }
  apply apply_layer_ok.
  cbn [fmap list_fmap input_shape_of layer_op mbind result_bind].
  replace (keras_shape_of a) with (PTuple [b; l; PInt n_state]) by (unfold a; by destruct mask).
  by apply conv1d_shape.
Qed.

(** X1.  With [n_state % n_head == 0], a [MultiHeadAttention] applied to a
    tensor of shape [(b, l, c)], whatever its width [c], returns
    [c_attn_proj(self_attn(c_attn(x)))] of shape [(b, l, n_state)]: the
    first convolution widens to [3 * n_state], self-attention is called on
    the tensor alone when there is no mask and on the list
    [[tensor, mask]] when there is one, and no layer is constructed by the
    call. *)
Theorem MultiHeadAttention_projects (n_state n_head c layer_id : Z) (ad : pyfloat)
    (im : bool) (x : ktensor) (mask : option ktensor) (b l : pyval) (w : world) :
  py_mod n_state n_head = Ok 0 → 0 < n_state → 0 < n_head → 0 < c →
  is_dim l →
  keras_shape_of x = PTuple [b; l; PInt c] →
  (if im then mask = None else is_Some mask) →
  ∃ (m : MultiHeadAttention.t) (w1 : world),
    MultiHeadAttention.__init__ n_state n_head ad im layer_id w = (Ok m, w1)
    ∧ constructed w1
      = constructed w ++ (layer_name_of layer_id <$> ["c_attn"; "self_attention";
                                                     "c_attn_proj"])
    ∧ let qkv := Call (MultiHeadAttention.c_attn m) false [x]
                   (PTuple [b; l; PInt (3 * n_state)]) in
      let a := match mask with
               | None => Call (MultiHeadAttention.self_attn m) false [qkv]
                           (PTuple [b; l; PInt n_state])
               | Some k => Call (MultiHeadAttention.self_attn m) true [qkv; k]
                             (PTuple [b; l; PInt n_state])
               end in
      MultiHeadAttention.__call__ m x mask w1
      = (Ok (Call (MultiHeadAttention.c_attn_proj m) false [a]
               (PTuple [b; l; PInt n_state])), w1).
Proof.
  intros Hmod _ _ _ Hl Hx Hmask.
  eexists _, _. split; [by apply MultiHeadAttention_init_run|]. split.
  - by destruct (with_layers_fields
                   [layer_name_of layer_id "c_attn"; layer_name_of layer_id "self_attention";
                    layer_name_of layer_id "c_attn_proj"] w) as [-> _].
  - cbn [MultiHeadAttention.c_attn MultiHeadAttention.self_attn
         MultiHeadAttention.c_attn_proj].
    by apply (MultiHeadAttention_call_run n_state n_head c ad im).
Qed.

Lemma MultiHeadAttention_projects_witness :
  ∃ (m : MultiHeadAttention.t) (w1 : world),
    MultiHeadAttention.__init__ 64 4 (Dec 1 (-1)) false 0 empty_world = (Ok m, w1)
    ∧ constructed w1
      = constructed empty_world
        ++ (layer_name_of 0 <$> ["c_attn"; "self_attention"; "c_attn_proj"])
    ∧ let qkv := Call (MultiHeadAttention.c_attn m) false [hidden_input]
                   (PTuple [PNone; PInt 16; PInt (3 * 64)]) in
      let a := match Some mask_input with
               | None => Call (MultiHeadAttention.self_attn m) false [qkv]
                           (PTuple [PNone; PInt 16; PInt 64])
               | Some k => Call (MultiHeadAttention.self_attn m) true [qkv; k]
                             (PTuple [PNone; PInt 16; PInt 64])
               end in
      MultiHeadAttention.__call__ m hidden_input (Some mask_input) w1
      = (Ok (Call (MultiHeadAttention.c_attn_proj m) false [a]
               (PTuple [PNone; PInt 16; PInt 64])), w1).
Proof.
  apply (MultiHeadAttention_projects 64 4 64 0 (Dec 1 (-1)) false hidden_input
           (Some mask_input) PNone (PInt 16) empty_world).
  - reflexivity.
  - lia.
  - lia.
  - lia.
  - right. eexists. reflexivity.
  - reflexivity.
  - eexists. reflexivity.
Defined.

(** X2.  A head count of zero is not caught by the assertion: the remainder
    [n_state % 0] raises [ZeroDivisionError] before the assertion is
    evaluated and before any layer is constructed, in [MultiHeadAttention]
    and in [EncoderLayer]; [create_model] with [num_heads=0] and at least
    one layer raises it when it constructs its first [EncoderLayer], after
    the input layers, the position-id generator and the embedding. *)
Theorem zero_heads_division_error (a : create_model_args) (w : world) :
  num_heads a = 0 → 1 ≤ num_layers a → (debug a = true → 0 < vocab_size a) →
  (∀ n_state ad im layer_id w0,
     MultiHeadAttention.__init__ n_state 0 ad im layer_id w0
     = (Raise ZeroDivisionError, w0))
  ∧ (∀ n_state d_hid rd ad im layer_id w0,
       EncoderLayer.__init__ n_state 0 d_hid rd ad im layer_id w0
       = (Raise ZeroDivisionError, w0))
  ∧ ∃ w', create_model a w = (Raise ZeroDivisionError, w')
          ∧ constructed w' = constructed w ++ layers_before_encoder a.
Proof.
  intros Hheads Hlayers Hdebug.
  split; [intros; reflexivity|]. split; [intros; reflexivity|].
  destruct (create_model_reaches_encoder a w Hdebug) as (mask & x & w1 & f & -> & Hc).
  exists w1. split; [|done]. apply bind_raise.
  destruct (Z.to_nat (num_layers a)) as [|k] eqn:Hk; [lia|].
  cbn [encoder_stack]. apply bind_raise. rewrite Hheads. reflexivity.
Qed.

Lemma zero_heads_division_error_witness :
  (∀ n_state ad im layer_id w0,
     MultiHeadAttention.__init__ n_state 0 ad im layer_id w0
     = (Raise ZeroDivisionError, w0))
  ∧ (∀ n_state d_hid rd ad im layer_id w0,
       EncoderLayer.__init__ n_state 0 d_hid rd ad im layer_id w0
       = (Raise ZeroDivisionError, w0))
  ∧ ∃ w', create_model headless_args empty_world = (Raise ZeroDivisionError, w')
          ∧ constructed w' = constructed empty_world ++ layers_before_encoder headless_args.
Proof.
  apply (zero_heads_division_error headless_args empty_world).
  - reflexivity.
  - simpl. lia.
  - intros _. reflexivity.
Defined.

(** *** PositionWiseFF *)

(** X3.  [PositionWiseFF] constructs its three layers whatever its arguments
    are, and applied to a tensor of shape [(b, l, c)] it returns
    [c_ffn_proj(gelu(c_fc(x)))]: the hidden tensors have width [d_hid],
    the result has shape [(b, l, n_state)] whatever the width [c] of the
    input was, and the call constructs no layer. *)
Theorem PositionWiseFF_widths (n_state d_hid layer_id c : Z) (x : ktensor)
    (b l : pyval) (w : world) :
  0 < n_state → 0 < d_hid → 0 < c →
  is_dim l →
  keras_shape_of x = PTuple [b; l; PInt c] →
  ∃ (ff : PositionWiseFF.t) (w1 : world),
    PositionWiseFF.__init__ n_state d_hid layer_id w = (Ok ff, w1)
    ∧ constructed w1
      = constructed w ++ (layer_name_of layer_id <$> ["c_fc"; "gelu"; "c_ffn_proj"])
    ∧ layer_op <$> [PositionWiseFF.c_fc ff; PositionWiseFF.activation ff;
                    PositionWiseFF.c_ffn_proj ff]
      = [Conv1D d_hid 1; Gelu; Conv1D n_state 1]
    ∧ PositionWiseFF.__call__ ff x w1
      = (Ok (Call (PositionWiseFF.c_ffn_proj ff) false
               [Call (PositionWiseFF.activation ff) false
                  [Call (PositionWiseFF.c_fc ff) false [x] (PTuple [b; l; PInt d_hid])]
                  (PTuple [b; l; PInt d_hid])]
               (PTuple [b; l; PInt n_state])), w1).
Proof.
  intros _ _ _ Hl Hx.
  unfold PositionWiseFF.__init__. rewrite !bind_make.
  eexists _, _. split; [apply ret_run|].
  split; [cbn [with_layer constructed]; by rewrite <- !app_assoc|].
  split; [reflexivity|].
  cbn [PositionWiseFF.c_fc PositionWiseFF.activation PositionWiseFF.c_ffn_proj].
  unfold PositionWiseFF.__call__, call.
  cbn [PositionWiseFF.c_fc PositionWiseFF.activation PositionWiseFF.c_ffn_proj].
  erewrite bind_ok; cycle 1.
  { apply apply_layer_ok. cbn [fmap list_fmap input_shape_of layer_op mbind result_bind].
    rewrite Hx. by apply conv1d_shape. }
  erewrite bind_ok by (by apply apply_layer_ok).
  apply apply_layer_ok.
  cbn [fmap list_fmap input_shape_of layer_op mbind result_bind keras_shape_of].
  by apply conv1d_shape.
Qed.

Lemma PositionWiseFF_widths_witness :
  ∃ (ff : PositionWiseFF.t) (w1 : world),
    PositionWiseFF.__init__ 64 3072 0 empty_world = (Ok ff, w1)
    ∧ constructed w1
      = constructed empty_world ++ (layer_name_of 0 <$> ["c_fc"; "gelu"; "c_ffn_proj"])
    ∧ layer_op <$> [PositionWiseFF.c_fc ff; PositionWiseFF.activation ff;
                    PositionWiseFF.c_ffn_proj ff]
      = [Conv1D 3072 1; Gelu; Conv1D 64 1]
    ∧ PositionWiseFF.__call__ ff hidden_input w1
      = (Ok (Call (PositionWiseFF.c_ffn_proj ff) false
               [Call (PositionWiseFF.activation ff) false
                  [Call (PositionWiseFF.c_fc ff) false [hidden_input]
                     (PTuple [PNone; PInt 16; PInt 3072])]
                  (PTuple [PNone; PInt 16; PInt 3072])]
               (PTuple [PNone; PInt 16; PInt 64])), w1).
Proof.
  apply (PositionWiseFF_widths 64 3072 0 64 hidden_input PNone (PInt 16) empty_world).
  - lia.
  - lia.
  - lia.
  - right. eexists. reflexivity.
  - reflexivity.
Defined.

(** *** SelfAttention: the declared shape *)

(** X4.  [SelfAttention.compute_output_shape] divides the width by 3 rounding
    down and checks neither that 3 divides it nor that it is
    [3 * n_state]; given a list of shapes when the layer ignores masks it
    raises [IndexError], given one shape when it does not it raises
    [TypeError], and a width that is not known ([None]) is a
    [TypeError]. *)
Theorem SelfAttention_declared_shape_floor (self : SelfAttention.t)
    (b l other : pyval) (c : Z) :
  is_dim b →
  let x := PTuple [b; l; PInt c] in
  let unknown := PTuple [b; l; PNone] in
  SelfAttention.compute_output_shape self
    (if SelfAttention.ignore_mask self then x else PTuple [x; other])
  = Ok (PTuple [b; l; PInt (c / 3)])
  ∧ SelfAttention.compute_output_shape self
      (if SelfAttention.ignore_mask self then PTuple [x; other] else x)
    = Raise (if SelfAttention.ignore_mask self then IndexError else TypeError)
  ∧ SelfAttention.compute_output_shape self
      (if SelfAttention.ignore_mask self then unknown else PTuple [unknown; other])
    = Raise TypeError.
Proof.
  intros Hb x unknown. unfold SelfAttention.compute_output_shape, x, unknown.
  destruct (SelfAttention.ignore_mask self).
  - repeat split; cbn -[py_floordiv py_index]; py_index_steps; try reflexivity.
  - repeat split; cbn -[py_floordiv py_index]; py_index_steps; try reflexivity.
    by destruct Hb as [->|[z ->]].
Qed.

Lemma SelfAttention_declared_shape_floor_witness :
  SelfAttention.compute_output_shape attn_4_heads
    (PTuple [PTuple [PNone; PInt 16; PInt 200]; PTuple [PNone; PInt 1; PInt 16; PInt 16]])
  = Ok (PTuple [PNone; PInt 16; PInt (200 / 3)])
  ∧ SelfAttention.compute_output_shape attn_4_heads (PTuple [PNone; PInt 16; PInt 200])
    = Raise TypeError
  ∧ SelfAttention.compute_output_shape attn_4_heads
      (PTuple [PTuple [PNone; PInt 16; PNone]; PTuple [PNone; PInt 1; PInt 16; PInt 16]])
    = Raise TypeError.
Proof.
  apply (SelfAttention_declared_shape_floor attn_4_heads PNone (PInt 16)
           (PTuple [PNone; PInt 1; PInt 16; PInt 16]) 200).
  left. reflexivity.
Defined.

(** *** TiedEmbeddingsTransposed: what build needs *)

Lemma deref_ok (ref : nat) (o : Layer.t) (w : world) :
  objects w !! ref = Some o → deref ref w = (Ok o, w).
Proof. intros Ho. unfold deref. by rewrite Ho. Qed.

(** [Dense.build] on a freshly constructed layer and an input shape of
    rank 2 or more whose last dimension is known. *)
Lemma Dense_build_run (units d : Z) (ub : bool) (name : string) (lead : list pyval)
    (w : world) :
  0 ≤ units → 0 ≤ d → lead ≠ [] →
  ∃ (d' : Dense.t) (w' : world),
    Dense.build {| Dense.base := Layer.__init__ name; Dense.units := units;
                   Dense.use_bias := ub; Dense.kernel := None; Dense.bias := None |}
      (PTuple (lead ++ [PInt d])) w = (Ok d', w')
    ∧ Layer.trainable_weights (Dense.base d')
      = K.Read (K.Var (next_var w) "kernel" [d; units])
        :: (if ub then [K.Read (K.Var (S (next_var w)) "bias" [units])] else [])
    ∧ objects w' = objects w
    ∧ next_var w' = ((if ub then 2 else 1) + next_var w)%nat
    ∧ constructed w' = constructed w.
Proof.
  intros Hunits Hd Hlead. unfold Dense.build.
  cbn [Dense.base Dense.units Dense.use_bias].
  rewrite (bind_ok _ _ w w (Z.of_nat (length (lead ++ [PInt d])))) by done.
  rewrite (bind_ok _ _ w w tt); cycle 1.
  { unfold lift, py_assert. rewrite length_app. cbn [length].
    destruct lead; [done|]. cbn [length].
    by destruct (Z.leb_spec 2 (Z.of_nat (S (length lead) + 1))); [|lia]. }
  rewrite (bind_ok _ _ w w (PInt d))
    by (unfold lift; cbn [py_getitem]; by rewrite py_index_last).
  rewrite (bind_ok _ _ _ _ _
             (add_weight_ok _ [d; units] "kernel" w ltac:(by repeat constructor))).
  destruct ub.
  - rewrite bind_bind.
    rewrite (bind_ok _ _ _ _ _
               (add_weight_ok _ [units] "bias" _ ltac:(by repeat constructor))).
    rewrite bind_ret. eexists _, _. split; [apply ret_run|]. by cbn.
  - rewrite bind_ret. eexists _, _. split; [apply ret_run|]. by cbn.
Qed.

(** X5.  [TiedEmbeddingsTransposed.build], on a freshly constructed layer and
    an input shape of rank 2 or more with a known last dimension, returns
    exactly when the layer has a bias and the layer it is tied to has a
    weight.  Without a bias [trainable_weights[1]] does not exist, without
    a weight of the tied layer [weights[0]] does not: both are an
    [IndexError], raised after [Dense.build] has created its variables. *)
Theorem TiedEmbeddingsTransposed_build_requirements
    (tied_to : nat) (units d : Z) (use_bias : bool) (name : string) (lead : list pyval)
    (tied : Layer.t) (w0 w1 w : world) (self : TiedEmbeddingsTransposed.t) :
  TiedEmbeddingsTransposed.__init__ tied_to units use_bias name w0 = (Ok self, w1) →
  0 ≤ units → 0 ≤ d → lead ≠ [] →
  objects w !! tied_to = Some tied →
  ∃ w', next_var w' = ((if use_bias then 2 else 1) + next_var w)%nat
    ∧ if use_bias && bool_decide (Layer.weights tied ≠ [])
      then ∃ self', TiedEmbeddingsTransposed.build self (PTuple (lead ++ [PInt d])) w
                    = (Ok self', w')
      else TiedEmbeddingsTransposed.build self (PTuple (lead ++ [PInt d])) w
           = (Raise IndexError, w').
Proof.
  intros Hinit Hunits Hd Hlead Htied.
  apply TiedEmbeddingsTransposed_init_returns in Hinit as ->.
  destruct (Dense_build_run units d use_bias name lead w Hunits Hd Hlead)
    as (d' & w' & Hbuild & Htw & Ho & Hn & _).
  exists w'. split; [done|].
  unfold TiedEmbeddingsTransposed.build.
  cbn [TiedEmbeddingsTransposed.dense TiedEmbeddingsTransposed.tied_to].
  rewrite (bind_ok _ _ _ _ _ Hbuild).
  rewrite (bind_ok _ _ _ _ _ (deref_ok tied_to tied w' ltac:(by rewrite Ho))).
  destruct (Layer.weights tied) as [|emb rest] eqn:Hw.
  - rewrite bool_decide_eq_false_2, andb_false_r by (intros Hne; by apply Hne).
    by apply bind_raise.
  - rewrite bool_decide_eq_true_2, andb_true_r by done.
    rewrite (bind_ok _ _ w' w' emb) by reflexivity.
    cbn [Dense.base]. rewrite Htw. destruct use_bias.
    + erewrite bind_ok by reflexivity. eexists. apply ret_run.
    + by apply bind_raise.
Qed.

Lemma TiedEmbeddingsTransposed_build_requirements_witness :
  ∃ w', next_var w' = (1 + next_var world_with_embedding)%nat
    ∧ TiedEmbeddingsTransposed.build tied_decoder_no_bias (PTuple ([PNone] ++ [PInt 64]))
        world_with_embedding
      = (Raise IndexError, w').
Proof.
  eapply (TiedEmbeddingsTransposed_build_requirements 0 100 64 false "TiedDecoder"
            [PNone] token_emb empty_world _ world_with_embedding tied_decoder_no_bias).
  - reflexivity.
  - lia.
  - lia.
  - discriminate.
  - reflexivity.
Defined.

(** *** load_openai_model: a checkpoint it cannot use *)

Lemma with_files_fields (ps : list string) (w : world) :
  files_read (with_files ps w) = files_read w ++ ps
  ∧ constructed (with_files ps w) = constructed w
  ∧ next_var (with_files ps w) = next_var w
  ∧ rng_drawn (with_files ps w) = rng_drawn w
  ∧ stdout (with_files ps w) = stdout w.
Proof.
  revert w. induction ps as [|p ps IH]; intros w.
  - cbn. by rewrite app_nil_r.
  - cbn [with_files foldl]. fold (with_files ps (with_file p w)).
    destruct (IH (with_file p w)) as (-> & -> & -> & -> & ->).
    cbn. by rewrite <- app_assoc.
Qed.

Lemma for_each_raise {A B} (f : A → M B) (l1 l2 : list A) (x : A) (ys : list B)
    (e : exn) (w w1 w2 : world) :
  for_each f l1 w = (Ok ys, w1) → f x w1 = (Raise e, w2) →
  for_each f (l1 ++ x :: l2) w = (Raise e, w2).
Proof.
  revert ys w. induction l1 as [|a l1 IH]; intros ys w Hrun Hx.
  - injection Hrun as <- <-. cbn [app for_each]. by apply bind_raise.
  - cbn [app for_each] in *. inv_returns Hrun.
    rewrite (bind_ok _ _ _ _ _ Hstep). inv_returns Hrun.
    apply ret_returns in Hrun as [-> ->].
    apply bind_raise. eapply IH; eauto.
Qed.

Section load_failures.
Context {R : Type} `{Scalar R}.
Variable normal : nat → R.
Variable fs : gmap string (file R).
Variable c : constants.
Variable Model_weights : Model → list K.variable.
Variable Model_set_weights : Model → list (ndarray R) → M unit.

Lemma for_each_np_load_run (path : string) (ns : list nat) (arrays : list (ndarray R))
    (w : world) :
  Forall2 (fun n a => fs !! params_file path n = Some (Npy a)) ns arrays →
  for_each (fun n => np_load fs (params_file path n)) ns w
  = (Ok arrays, with_files (params_file path <$> ns) w).
Proof.
  intros Hfiles. revert w.
  induction Hfiles as [|n a ns arrays Hn _ IH]; intros w; [done|].
  cbn [for_each]. rewrite (bind_ok _ _ _ _ _ (np_load_ok fs _ _ _ Hn)).
  by rewrite (bind_ok _ _ _ _ _ (IH _)).
Qed.

(** X6.  When the manifest or one of the ten archives is missing,
    [load_openai_model] raises [FileNotFoundError] at the first missing
    file: it has read the files before it, in order, and has neither
    drawn a random sample nor constructed a layer, so no model exists. *)
Theorem load_openai_model_missing_file (path : string)
    (ignore_mask use_one_embedding_dropout debug : bool) (w : world) :
  (fs !! (path +:+ "params_shapes.json") = None →
   load_openai_model normal fs c Model_weights Model_set_weights path ignore_mask
     use_one_embedding_dropout debug w = (Raise FileNotFoundError, w))
  ∧ ∀ (k : nat) (shapes : list (list Z)) (arrays : list (ndarray R)),
      fs !! (path +:+ "params_shapes.json") = Some (Json shapes) →
      (k < 10)%nat →
      Forall2 (fun n a => fs !! params_file path n = Some (Npy a)) (seq 0 k) arrays →
      fs !! params_file path k = None →
      ∃ w', load_openai_model normal fs c Model_weights Model_set_weights path
              ignore_mask use_one_embedding_dropout debug w
            = (Raise FileNotFoundError, w')
            ∧ files_read w'
              = files_read w
                ++ (path +:+ "params_shapes.json") :: (params_file path <$> seq 0 k)
            ∧ constructed w' = constructed w
            ∧ rng_drawn w' = rng_drawn w.
Proof.
  split.
  - intros Hmissing. unfold load_openai_model, init_params, json_load.
    do 3 apply bind_raise. unfold open_file. by rewrite Hmissing.
  - intros k shapes arrays Hjson Hk Hfiles Hmissing.
    set (w1 := with_file (path +:+ "params_shapes.json") w).
    exists (with_files (params_file path <$> seq 0 k) w1).
    destruct (with_files_fields (params_file path <$> seq 0 k) w1) as (-> & -> & _ & -> & _).
    split; [|split; [|done]]; cycle 1.
    { cbn [w1 with_file files_read]. by rewrite <- app_assoc. }
    unfold load_openai_model, init_params. apply bind_raise.
    rewrite (bind_ok _ _ _ _ _ (json_load_ok fs _ _ _ Hjson)). fold w1.
    apply bind_raise.
    replace (seq 0 10) with (seq 0 k ++ k :: seq (S k) (9 - k)); cycle 1.
    { replace 10%nat with (k + S (9 - k))%nat by lia. by rewrite seq_app. }
    eapply for_each_raise; [by apply for_each_np_load_run|].
    unfold np_load. apply bind_raise. unfold open_file. by rewrite Hmissing.
Qed.

End load_failures.

Lemma load_openai_model_missing_file_witness :
  ∃ w', load_openai_model sample_stream checkpoint_without_3 sample_constants
          (fun _ => []) (fun _ _ => mret tt) "./openai_weights/" false false false
          empty_world
        = (Raise FileNotFoundError, w')
        ∧ files_read w'
          = files_read empty_world
            ++ ("./openai_weights/" +:+ "params_shapes.json")
               :: (params_file "./openai_weights/" <$> seq 0 3)
        ∧ constructed w' = constructed empty_world
        ∧ rng_drawn w' = rng_drawn empty_world.
Proof.
  eapply (proj2 (load_openai_model_missing_file sample_stream checkpoint_without_3
                   sample_constants (fun _ => []) (fun _ _ => mret tt)
                   "./openai_weights/" false false false empty_world)
            3%nat checkpoint_shapes (take 3 checkpoint_arrays)).
  - vm_compute. reflexivity.
  - lia.
  - unfold checkpoint_arrays. cbn [app replicate seq take].
    repeat (constructor; [vm_compute; reflexivity|]). constructor.
  - vm_compute. reflexivity.
Defined.

Lemma py_index_out_of_range {A} (l : list A) (i : Z) :
  Z.of_nat (length l) ≤ i → py_index l i = Raise IndexError.
Proof.
  intros Hi. unfold py_index.
  destruct (Z.ltb_spec i 0); [lia|].
  destruct (Z.ltb_spec i (Z.of_nat (length l))); [lia|].
  by rewrite andb_false_r.
Qed.

Section load_shapes.
Context {R : Type} `{Scalar R}.
Variable normal : nat → R.
Variable fs : gmap string (file R).
Variable c : constants.
Variable Model_weights : Model → list K.variable.
Variable Model_set_weights : Model → list (ndarray R) → M unit.

(** Lines 84 to 88: with the files on disk and the manifest covered by
    the archives, the parameters are the stream cut shape by shape; lines
    90 to 93 go on from there. *)
Lemma init_params_cut (path : string) (shapes : list (list Z))
    (arrays : list (ndarray R)) (w : world) :
  fs !! (path +:+ "params_shapes.json") = Some (Json shapes) →
  Forall2 (fun n a => fs !! params_file path n = Some (Npy a)) (seq 0 10) arrays →
  Forall (fun a => shape a = [Z.of_nat (length (data a))]) arrays →
  Forall (fun s => s ≠ [] ∧ Forall (fun d => 0 ≤ d) s) shapes →
  foldr Z.add 0 (prod <$> shapes) ≤ Z.of_nat (length (arrays ≫= data)) →
  init_params normal fs c path w
  = (token ← lift (py_index (cut shapes (arrays ≫= data)) 1);
     special ← randn normal (SPECIAL_COUNT c) 768;
     extended ← lift (np.concatenate
                        [token; np.scale (np.astype_float32 special) (Dec 2 (-2))]);
     params ← lift (py_setitem (cut shapes (arrays ≫= data)) 1 extended);
     segment ← lift (np.zeros zero [NUM_SEGMENTS c; 768]);
     bias ← lift (np.zeros zero [40478 + SPECIAL_COUNT c]);
     mret ((np.astype_float32 segment :: params) ++ [np.astype_float32 bias]))
    (with_files ((path +:+ "params_shapes.json") :: (params_file path <$> seq 0 10)) w).
Proof.
  intros Hjson Hfiles Hflat Hshapes Hcover.
  assert (Hdims : Forall (fun s => Forall (fun d => 0 ≤ d) s) shapes).
  { eapply Forall_impl; [exact Hshapes|]. by intros s [_ Hs]. }
  assert (Hnonempty : existsb (fun s => bool_decide (s = [])) shapes = false).
  { apply not_true_iff_false. intros (s & Hin%list_elem_of_In & Hs)%existsb_exists.
    apply bool_decide_eq_true in Hs. rewrite Forall_forall in Hshapes.
    by destruct (Hshapes s Hin). }
  assert (Harrays : arrays ≠ []).
  { intros ->. inversion Hfiles. }
  destruct (split_at_cumsum (arrays ≫= data) (prod <$> shapes) 0) as [last Hsplit].
  { apply Forall_fmap. eapply Forall_impl; [exact Hdims|]. intros s. apply prod_nonneg. }
  { done. }
  { lia. }
  unfold init_params.
  rewrite (bind_ok _ _ _ _ _ (json_load_ok fs _ _ _ Hjson)).
  rewrite (bind_ok _ _ _ _ _ (for_each_np_load_run fs path _ _ _ Hfiles)).
  set (w1 := with_files _ (with_file _ w)).
  rewrite (bind_ok _ _ w1 w1 _) by (unfold lift; by rewrite concatenate_flat).
  rewrite Hnonempty. rewrite (bind_ok _ _ w1 w1 tt) by done.
  rewrite (bind_ok _ _ w1 w1 _) by (unfold lift, np.split, np.cumsum;
                                     cbn [shape tail]; by rewrite Hsplit).
  rewrite py_slice_drop_last.
  rewrite (bind_ok _ _ w1 w1 _)
    by (unfold lift; rewrite reshape_pieces by (done || lia); by rewrite drop_0).
  reflexivity.
Qed.

Lemma cut_length (shapes : list (list Z)) (stream : list R) :
  length (cut shapes stream) = length shapes.
Proof. by rewrite <- (cut_shapes shapes stream) at 2; rewrite length_fmap. Qed.

(** X7.  A manifest that lists fewer than two shapes: [init_params[1]] does
    not exist, and [load_openai_model] raises [IndexError] after it has
    read the manifest and the ten archives, before it draws a sample or
    constructs a layer. *)
Theorem load_openai_model_short_manifest (path : string)
    (ignore_mask use_one_embedding_dropout debug : bool)
    (shapes : list (list Z)) (arrays : list (ndarray R)) (w : world) :
  fs !! (path +:+ "params_shapes.json") = Some (Json shapes) →
  Forall2 (fun n a => fs !! params_file path n = Some (Npy a)) (seq 0 10) arrays →
  Forall (fun a => shape a = [Z.of_nat (length (data a))]) arrays →
  Forall (fun s => s ≠ [] ∧ Forall (fun d => 0 ≤ d) s) shapes →
  foldr Z.add 0 (prod <$> shapes) ≤ Z.of_nat (length (arrays ≫= data)) →
  (length shapes < 2)%nat →
  ∃ w', load_openai_model normal fs c Model_weights Model_set_weights path
          ignore_mask use_one_embedding_dropout debug w
        = (Raise IndexError, w')
        ∧ files_read w'
          = files_read w
            ++ (path +:+ "params_shapes.json") :: (params_file path <$> seq 0 10)
        ∧ constructed w' = constructed w
        ∧ rng_drawn w' = rng_drawn w.
Proof.
  intros Hjson Hfiles Hflat Hshapes Hcover Hshort.
  eexists. split; [|by destruct (with_files_fields
    ((path +:+ "params_shapes.json") :: (params_file path <$> seq 0 10)) w)
    as (-> & -> & _ & -> & _)].
  unfold load_openai_model. apply bind_raise.
  rewrite (init_params_cut path shapes arrays) by done.
  apply bind_raise. unfold lift. rewrite py_index_out_of_range; [done|].
  rewrite cut_length. lia.
Qed.

(** X8.  A second parameter that is not a matrix with 768 columns cannot take
    the rows of the special tokens: [np.concatenate] refuses the two
    arrays, and [load_openai_model] raises [ValueError] without having
    constructed a layer. *)
Theorem load_openai_model_wrong_width (path : string)
    (ignore_mask use_one_embedding_dropout debug : bool)
    (shapes : list (list Z)) (arrays : list (ndarray R)) (s : list Z) (w : world) :
  fs !! (path +:+ "params_shapes.json") = Some (Json shapes) →
  Forall2 (fun n a => fs !! params_file path n = Some (Npy a)) (seq 0 10) arrays →
  Forall (fun a => shape a = [Z.of_nat (length (data a))]) arrays →
  Forall (fun s => s ≠ [] ∧ Forall (fun d => 0 ≤ d) s) shapes →
  foldr Z.add 0 (prod <$> shapes) ≤ Z.of_nat (length (arrays ≫= data)) →
  shapes !! 1%nat = Some s → tail s ≠ [768] →
  ∃ w', load_openai_model normal fs c Model_weights Model_set_weights path
          ignore_mask use_one_embedding_dropout debug w
        = (Raise ValueError, w')
        ∧ files_read w'
          = files_read w
            ++ (path +:+ "params_shapes.json") :: (params_file path <$> seq 0 10)
        ∧ constructed w' = constructed w.
Proof.
  intros Hjson Hfiles Hflat Hshapes Hcover Hsecond Hwidth.
  set (w1 := with_files
               ((path +:+ "params_shapes.json") :: (params_file path <$> seq 0 10)) w).
  assert (Htoken : ∃ token, cut shapes (arrays ≫= data) !! 1%nat = Some token
                            ∧ shape token = s).
  { pose proof (cut_shapes shapes (arrays ≫= data)) as Hcut.
    rewrite <- Hcut, list_lookup_fmap in Hsecond.
    destruct (cut shapes (arrays ≫= data) !! 1%nat) as [token|]; [|done].
    injection Hsecond as Htok. eauto. }
  destruct Htoken as (token & Htoken & Htshape).
  assert (Hs : ∃ d rest, s = d :: rest).
  { rewrite Forall_forall in Hshapes.
    destruct (Hshapes s (list_elem_of_lookup_2 _ _ _ Hsecond)) as [Hne _].
    destruct s as [|d rest]; [done|]. eauto. }
  destruct Hs as (d & rest & ->). cbn [tail] in Hwidth.
  assert (Hrun : ∃ w', init_params normal fs c path w = (Raise ValueError, w')
                       ∧ files_read w' = files_read w1
                       ∧ constructed w' = constructed w1).
  { rewrite (init_params_cut path shapes arrays) by done. fold w1.
    rewrite (bind_ok _ _ w1 w1 token)
      by (unfold lift; by rewrite (py_index_lookup _ 1 token) by (lia || done)).
    unfold randn at 1, mbind at 1, M_bind at 1.
    destruct ((SPECIAL_COUNT c <? 0) || (768 <? 0)); [by exists w1|].
    exists (with_drawn (Z.to_nat (SPECIAL_COUNT c * 768)) w1). split; [|done].
    apply bind_raise. unfold lift, np.concatenate, np.scale, np.astype_float32.
    cbn [shape data]. rewrite Htshape. cbn [forallb shape]. rewrite Htshape.
    rewrite bool_decide_eq_true_2 by done.
    rewrite bool_decide_eq_false_2 by (intros Heq; by apply Hwidth).
    reflexivity. }
  destruct Hrun as (w' & Hrun & Hread & Hcon).
  exists w'. split; [unfold load_openai_model; by apply bind_raise|].
  rewrite Hread, Hcon. unfold w1.
  by destruct (with_files_fields
    ((path +:+ "params_shapes.json") :: (params_file path <$> seq 0 10)) w)
    as (-> & -> & _).
Qed.

End load_shapes.

Lemma load_openai_model_short_manifest_witness :
  ∃ w', load_openai_model sample_stream checkpoint_one_shape sample_constants
          (fun _ => []) (fun _ _ => mret tt) "./openai_weights/" false false false
          empty_world
        = (Raise IndexError, w')
        ∧ files_read w'
          = files_read empty_world
            ++ ("./openai_weights/" +:+ "params_shapes.json")
               :: (params_file "./openai_weights/" <$> seq 0 10)
        ∧ constructed w' = constructed empty_world
        ∧ rng_drawn w' = rng_drawn empty_world.
Proof.
  apply (load_openai_model_short_manifest sample_stream checkpoint_one_shape
           sample_constants (fun _ => []) (fun _ _ => mret tt)
           "./openai_weights/" false false false [[2]] checkpoint_arrays empty_world).
  - vm_compute. reflexivity.
  - unfold checkpoint_arrays. cbn [app replicate seq].
    repeat (constructor; [vm_compute; reflexivity|]). constructor.
  - unfold checkpoint_arrays. cbn [app replicate].
    repeat (constructor; [vm_compute; reflexivity|]). constructor.
  - repeat (constructor; [split; [discriminate | repeat constructor; lia]|]).
    constructor.
  - apply Z.leb_le. vm_compute. reflexivity.
  - simpl. lia.
Defined.

Lemma load_openai_model_wrong_width_witness :
  ∃ w', load_openai_model sample_stream checkpoint_narrow sample_constants
          (fun _ => []) (fun _ _ => mret tt) "./openai_weights/" false false false
          empty_world
        = (Raise ValueError, w')
        ∧ files_read w'
          = files_read empty_world
            ++ ("./openai_weights/" +:+ "params_shapes.json")
               :: (params_file "./openai_weights/" <$> seq 0 10)
        ∧ constructed w' = constructed empty_world.
Proof.
  apply (load_openai_model_wrong_width sample_stream checkpoint_narrow
           sample_constants (fun _ => []) (fun _ _ => mret tt)
           "./openai_weights/" false false false [[2]; [384; 2]; [3]] checkpoint_arrays
           [384; 2] empty_world).
  - vm_compute. reflexivity.
  - unfold checkpoint_arrays. cbn [app replicate seq].
    repeat (constructor; [vm_compute; reflexivity|]). constructor.
  - unfold checkpoint_arrays. cbn [app replicate].
    repeat (constructor; [vm_compute; reflexivity|]). constructor.
  - repeat (constructor; [split; [discriminate | repeat constructor; lia]|]).
    constructor.
  - apply Z.leb_le. vm_compute. reflexivity.
  - reflexivity.
  - discriminate.
Defined.

(** *** Shapes when the model is fed a batch *)

Lemma shape_at_call1 (batch : Z) (l : layer) (t : ktensor) (s : pyval) :
  shape_at batch (Call l false [t] s) = shape_at batch t ≫= output_shape (layer_op l).
Proof. cbn [shape_at]. by destruct (shape_at batch t). Qed.

Lemma shape_at_call2 (batch : Z) (l : layer) (t1 t2 : ktensor) (s : pyval) :
  shape_at batch (Call l true [t1; t2] s)
  = (s1 ← shape_at batch t1; s2 ← shape_at batch t2;
     output_shape (layer_op l) (PTuple [s1; s2])).
Proof.
  cbn [shape_at]. destruct (shape_at batch t1); [|done].
  by destruct (shape_at batch t2).
Qed.

Lemma self_attn_shape (n_head n_state : Z) (ad : pyfloat) (im : bool) (name : string)
    (b l other : pyval) :
  output_shape (SelfAttn (SelfAttention.__init__ n_head n_state ad im name))
    (if im then PTuple [b; l; PInt (3 * n_state)]
     else PTuple [PTuple [b; l; PInt (3 * n_state)]; other])
  = Ok (PTuple [b; l; PInt n_state]).
Proof.
  apply (SelfAttention_declared_shape (SelfAttention.__init__ n_head n_state ad im name)
           b l other n_state).
Qed.

Lemma attention_shape_at (batch n_state n_head c : Z) (ad : pyfloat) (im : bool)
    (n1 n2 n3 : string) (x : ktensor) (mask : option ktensor) (B l s1 s2 s3 : pyval) :
  is_dim l →
  shape_at batch x = Ok (PTuple [B; l; PInt c]) →
  (if im then mask = None else is_Some mask) →
  (∀ m, mask = Some m → ∃ s, shape_at batch m = Ok s) →
  let self_attn := Layer n2 (SelfAttn (SelfAttention.__init__ n_head n_state ad im n2)) in
  let qkv := Call (Layer n1 (Conv1D (3 * n_state) 1)) false [x] s1 in
  let a := match mask with
           | None => Call self_attn false [qkv] s2
           | Some m => Call self_attn true [qkv; m] s2
           end in
  shape_at batch (Call (Layer n3 (Conv1D n_state 1)) false [a] s3)
  = Ok (PTuple [B; l; PInt n_state]).
Proof.
  intros Hl Hx Hmask Hm self_attn qkv a.
  assert (Hqkv : shape_at batch qkv = Ok (PTuple [B; l; PInt (3 * n_state)])).
  { unfold qkv. rewrite shape_at_call1, Hx. cbn [mbind result_bind layer_op].
    by apply conv1d_shape. }
  assert (Ha : shape_at batch a = Ok (PTuple [B; l; PInt n_state])).
  { unfold a, self_attn. destruct im.
    - rewrite Hmask, shape_at_call1, Hqkv. cbn [mbind result_bind layer_op].
      apply (self_attn_shape n_head n_state ad true n2 B l PNone).
    - destruct Hmask as [m ->]. destruct (Hm m eq_refl) as [s Hs].
      rewrite shape_at_call2, Hqkv, Hs. cbn [mbind result_bind layer_op].
      apply (self_attn_shape n_head n_state ad false n2 B l s). }
  rewrite shape_at_call1, Ha. cbn [mbind result_bind layer_op]. by apply conv1d_shape.
Qed.

Lemma feed_forward_shape_at (batch n_state d_hid c : Z) (n1 n2 n3 : string) (x : ktensor)
    (B l s1 s2 s3 : pyval) :
  is_dim l →
  shape_at batch x = Ok (PTuple [B; l; PInt c]) →
  shape_at batch
    (Call (Layer n3 (Conv1D n_state 1)) false
       [Call (Layer n2 Gelu) false [Call (Layer n1 (Conv1D d_hid 1)) false [x] s1] s2] s3)
  = Ok (PTuple [B; l; PInt n_state]).
Proof.
  intros Hl Hx. rewrite !shape_at_call1, Hx. cbn [mbind result_bind layer_op].
  rewrite (conv1d_shape d_hid c B l) by done. cbn [mbind result_bind].
  change (output_shape Gelu (PTuple [B; l; PInt d_hid]))
    with (Ok (PTuple [B; l; PInt d_hid])).
  cbn [mbind result_bind]. by apply conv1d_shape.
Qed.

Lemma residual_shape_at (batch n : Z) (rate e : pyfloat) (n1 n2 n3 : string)
    (x inner : ktensor) (B l s1 s2 s3 : pyval) :
  is_dim B → is_dim l → 0 ≤ n →
  shape_at batch x = Ok (PTuple [B; l; PInt n]) →
  shape_at batch inner = Ok (PTuple [B; l; PInt n]) →
  shape_at batch
    (Call (Layer n3 (LayerNorm e)) false
       [Call (Layer n2 Add) true [x; Call (Layer n1 (Dropout rate)) false [inner] s1] s2] s3)
  = Ok (PTuple [B; l; PInt n]).
Proof.
  intros HB Hl Hn Hx Hinner.
  rewrite shape_at_call1, shape_at_call2, shape_at_call1, Hx, Hinner.
  cbn [mbind result_bind layer_op].
  change (output_shape (Dropout rate) (PTuple [B; l; PInt n]))
    with (Ok (PTuple [B; l; PInt n])).
  cbn [mbind result_bind].
  rewrite merge_same; [|done|].
  - cbn [mbind result_bind]. by apply layer_norm_shape.
  - constructor; [done|]. constructor; [right; eauto | constructor].
Qed.

(** **** An encoder layer, and the stack of them *)

Lemma PositionWiseFF_call_inv (n1 n2 n3 : string) (o1 o2 o3 : op) (x f : ktensor)
    (w w' : world) :
  PositionWiseFF.__call__
    {| PositionWiseFF.c_fc := Layer n1 o1; PositionWiseFF.activation := Layer n2 o2;
       PositionWiseFF.c_ffn_proj := Layer n3 o3 |} x w = (Ok f, w') →
  ∃ s1 s2 s3,
    f = Call (Layer n3 o3) false
          [Call (Layer n2 o2) false [Call (Layer n1 o1) false [x] s1] s2] s3.
Proof.
  unfold PositionWiseFF.__call__, call. intros H. inv_returns H.
  apply apply_layer_returns in Hstep as (s1 & -> & ->).
  apply apply_layer_returns in Hstep0 as (s2 & -> & ->).
  apply apply_layer_returns in H as (s3 & -> & ->). eauto.
Qed.

(** An encoder layer applied to a tensor of its width returns a tensor of
    the same shape, also when the model is fed a batch. *)
Lemma EncoderLayer_call_run (n_state n_head d_hid : Z) (rd ad : pyfloat) (im : bool)
    (i : Z) (w w' w0 : world) (e : EncoderLayer.t) (x : ktensor)
    (mask : option ktensor) (b l : pyval) :
  EncoderLayer.__init__ n_state n_head d_hid rd ad im i w = (Ok e, w') →
  is_dim b → is_dim l → 0 ≤ n_state →
  keras_shape_of x = PTuple [b; l; PInt n_state] →
  (if im then mask = None else is_Some mask) →
  ∃ y, EncoderLayer.__call__ e x mask w0 = (Ok y, w0)
       ∧ keras_shape_of y = PTuple [b; l; PInt n_state]
       ∧ (∃ arg s, y = Call (Layer (layer_name_of i "ln_2")
                               (LayerNorm LayerNormalization.default_eps)) false [arg] s)
       ∧ ∀ (batch : Z) (B : pyval),
           is_dim B →
           shape_at batch x = Ok (PTuple [B; l; PInt n_state]) →
           (∀ m, mask = Some m → ∃ s, shape_at batch m = Ok s) →
           shape_at batch y = Ok (PTuple [B; l; PInt n_state]).
Proof.
  intros He Hb Hl Hn Hx Hmask.
  destruct (EncoderLayer_call_total n_state n_head d_hid rd ad im i w w' w0 e x mask b l
              He Hb Hl Hn Hx Hmask) as (y & Hy & Hshape).
  exists y. split; [done|]. split; [done|].
  apply EncoderLayer_call_inv in Hy
    as (a & n & f & s1 & s2 & s3 & s4 & s5 & s6 & Ha & Hn' & Hf & -> & _).
  apply EncoderLayer_init_inv in He as ->.
  cbn [EncoderLayer.attention EncoderLayer.drop1 EncoderLayer.add1 EncoderLayer.ln1
       EncoderLayer.ffn EncoderLayer.drop2 EncoderLayer.add2 EncoderLayer.ln2] in *.
  split; [by eexists _, _|].
  intros batch B HB Hat Hm.
  rewrite (MultiHeadAttention_call_run n_state n_head n_state ad im _ _ _ w0 x mask b l
             Hl Hx Hmask) in Ha.
  injection Ha as <-.
  apply PositionWiseFF_call_inv in Hf as (t1 & t2 & t3 & ->).
  assert (Hnat : shape_at batch n = Ok (PTuple [B; l; PInt n_state])).
  { rewrite Hn'. apply residual_shape_at; try done.
    by apply (attention_shape_at batch n_state n_head n_state ad im). }
  apply residual_shape_at; try done.
  by apply (feed_forward_shape_at batch n_state d_hid n_state).
Qed.

Lemma EncoderLayer_init_run (n_state n_head d_hid : Z) (rd ad : pyfloat) (im : bool)
    (i : Z) (w : world) :
  py_mod n_state n_head = Ok 0 →
  ∃ e, EncoderLayer.__init__ n_state n_head d_hid rd ad im i w
       = (Ok e, with_layers (encoder_layer_names i) w).
Proof.
  intros Hmod. unfold EncoderLayer.__init__.
  rewrite (bind_ok _ _ _ _ _ (MultiHeadAttention_init_run n_state n_head ad im i w Hmod)).
  rewrite !bind_make. unfold PositionWiseFF.__init__.
  repeat first [rewrite bind_bind | rewrite bind_make | rewrite bind_ret].
  eexists. reflexivity.
Qed.

Lemma encoder_stack_run (a : create_model_args) (mask : option ktensor) (count : nat)
    (i : Z) (x : ktensor) (w : world) (b l : pyval) :
  ((0 < count)%nat → py_mod (embedding_dim a) (num_heads a) = Ok 0) →
  is_dim b → is_dim l → 0 ≤ embedding_dim a →
  keras_shape_of x = PTuple [b; l; PInt (embedding_dim a)] →
  (if ignore_mask a then mask = None else is_Some mask) →
  ∃ y, encoder_stack a mask count i x w
       = (Ok y, with_layers (encoder_stack_names count i) w)
       ∧ keras_shape_of y = PTuple [b; l; PInt (embedding_dim a)]
       ∧ match count with
         | O => y = x
         | S k => ∃ arg s, y = Call (Layer (layer_name_of (i + Z.of_nat k) "ln_2")
                                       (LayerNorm LayerNormalization.default_eps))
                                 false [arg] s
         end
       ∧ ∀ (batch : Z) (B : pyval),
           is_dim B →
           shape_at batch x = Ok (PTuple [B; l; PInt (embedding_dim a)]) →
           (∀ m, mask = Some m → ∃ s, shape_at batch m = Ok s) →
           shape_at batch y = Ok (PTuple [B; l; PInt (embedding_dim a)]).
Proof.
  intros Hmod Hb Hl Hn. revert i x w.
  induction count as [|count IH]; intros i x w Hx Hmask.
  - exists x. split; [reflexivity|]. split; [done|]. split; [done|]. by intros.
  - specialize (IH ltac:(intros; apply Hmod; lia)).
    destruct (EncoderLayer_init_run (embedding_dim a) (num_heads a) (d_hid a)
                (residual_dropout a) (attention_dropout a) (ignore_mask a) i w
                ltac:(apply Hmod; lia)) as [e He].
    destruct (EncoderLayer_call_run _ _ _ _ _ _ _ _ _
                (with_layers (encoder_layer_names i) w) e x mask b l He Hb Hl Hn Hx Hmask)
      as (x' & Hcall & Hx' & Hlast' & Hat').
    destruct (IH (i + 1) x' (with_layers (encoder_layer_names i) w) Hx' Hmask)
      as (y & Hrun & Hy & Hlast & Hat).
    exists y. split; [|split; [done|split]].
    + cbn [encoder_stack encoder_stack_names].
      rewrite (bind_ok _ _ _ _ _ He), (bind_ok _ _ _ _ _ Hcall), Hrun.
      by rewrite with_layers_app.
    + destruct count as [|k].
      * subst y. by rewrite Z.add_0_r.
      * by replace (i + Z.of_nat (S k)) with (i + 1 + Z.of_nat k) by lia.
    + intros batch B HB Hxat Hm. apply Hat; [done| |done]. by apply Hat'.
Qed.

(** X9.  An [EncoderLayer] adds its input to the output of its attention,
    which has width [n_state]: applied to a tensor of another width
    (neither of the two being 1) it raises [ValueError] at the first
    addition, and the call has constructed no layer. *)
Theorem EncoderLayer_width_mismatch (n_state n_head d_hid c : Z) (rd ad : pyfloat)
    (im : bool) (i : Z) (w w' w0 : world) (e : EncoderLayer.t) (x : ktensor)
    (mask : option ktensor) (b l : pyval) :
  EncoderLayer.__init__ n_state n_head d_hid rd ad im i w = (Ok e, w') →
  0 < n_head → 0 < c →
  is_dim b → is_dim l →
  keras_shape_of x = PTuple [b; l; PInt c] →
  (if im then mask = None else is_Some mask) →
  c ≠ n_state → c ≠ 1 → n_state ≠ 1 →
  EncoderLayer.__call__ e x mask w0 = (Raise ValueError, w0).
Proof.
  intros He _ _ Hb Hl Hx Hmask Hc Hc1 Hn1. apply EncoderLayer_init_inv in He as ->.
  unfold EncoderLayer.__call__, call, call_list.
  cbn [EncoderLayer.attention EncoderLayer.drop1 EncoderLayer.add1].
  rewrite (bind_ok _ _ _ _ _
             (MultiHeadAttention_call_run n_state n_head c ad im _ _ _ w0 x mask b l
                Hl Hx Hmask)).
  erewrite bind_ok by (by apply apply_layer_ok).
  apply bind_raise. unfold apply_layer. apply bind_raise. unfold lift. f_equal.
  cbn [fmap list_fmap input_shape_of layer_op mbind result_bind keras_shape_of
       output_shape merge_shape].
  rewrite Hx.
  assert (Hbatch : is_int b && is_int b && negb (dim_eqb b b) = false).
  { destruct Hb as [->|[z ->]]; [done|]. cbn [is_int andb]. by rewrite dim_eqb_int_refl. }
  rewrite Hbatch. cbn [elemwise_shape].
  assert (Hlen : ∃ d, match l, l with
                      | PNone, _ | _, PNone => Ok PNone
                      | PInt a, PInt b0 =>
                          if a =? 1 then Ok l
                          else if b0 =? 1 then Ok l
                          else if a =? b0 then Ok l else Raise ValueError
                      | _, _ => Raise TypeError
                      end = Ok d).
  { destruct Hl as [->|[z ->]]; [eauto|].
    destruct (Z.eqb_spec z 1); [eauto|]. rewrite Z.eqb_refl. eauto. }
  destruct Hlen as [d ->]. cbn [mbind result_bind].
  destruct (Z.eqb_spec c 1); [done|]. destruct (Z.eqb_spec n_state 1); [done|].
  by destruct (Z.eqb_spec c n_state).
Qed.

Lemma EncoderLayer_width_mismatch_witness :
  ∃ e w', encoder_0 empty_world = (Ok e, w')
          ∧ EncoderLayer.__call__ e
              (Input "Hidden" (PTuple [PNone; PInt 16; PInt 32]) false)
              (Some mask_input) w'
            = (Raise ValueError, w').
Proof.
  eexists _, _. split; [vm_compute; reflexivity|].
  eapply (EncoderLayer_width_mismatch 64 4 3072 32 (Dec 1 (-1)) (Dec 1 (-1)) false 0
            empty_world _ _ _ _ (Some mask_input) PNone (PInt 16)).
  - vm_compute. reflexivity.
  - lia.
  - lia.
  - left. reflexivity.
  - right. eexists. reflexivity.
  - reflexivity.
  - eexists. reflexivity.
  - lia.
  - lia.
  - lia.
Defined.

(** **** create_model *)

Lemma tied_decoder_shape (inner tied : string) (units c : Z) (b l : pyval) :
  c ≠ 0 →
  output_shape (TimeDistributed inner (TiedDense tied units)) (PTuple [b; l; PInt c])
  = Ok (PTuple [b; l; PInt units]).
Proof.
  intros Hc. cbn [output_shape dense_shape length].
  change (py_index [b; PInt c] (-1)) with (Ok (PInt c)).
  change (py_slice [b; PInt c] 0 (-1)) with [b].
  cbn [mbind result_bind py_assert].
  destruct (Z.eqb_spec c 0); [done|]. reflexivity.
Qed.

Lemma debug_tensor_run (a : create_model_args) (high : Z) (shape : list Z) (w : world) :
  0 < high →
  debug_tensor a 0 high shape w = (Ok tt, with_debug_tensor a shape w).
Proof.
  intros Hhigh. unfold debug_tensor, with_debug_tensor, randint.
  destruct (debug a); [|done].
  destruct (Z.leb_spec high 0); [lia|]. reflexivity.
Qed.

Lemma with_debug_tensor_fields (a : create_model_args) (shape : list Z) (w : world) :
  constructed (with_debug_tensor a shape w) = constructed w
  ∧ next_var (with_debug_tensor a shape w)
    = (next_var w + if debug a then 1 else 0)%nat
  ∧ rng_drawn (with_debug_tensor a shape w)
    = (rng_drawn w + if debug a then Z.to_nat (prod shape) else 0)%nat
  ∧ stdout (with_debug_tensor a shape w) = stdout w
  ∧ files_read (with_debug_tensor a shape w) = files_read w.
Proof.
  unfold with_debug_tensor. destruct (debug a); cbn; repeat split; lia.
Qed.

(** [create_model] on hyperparameters it accepts, step by step: the model
    it returns, the shapes of its outputs, and what it did to the
    state. *)
Lemma create_model_run (a : create_model_args) (w : world) :
  0 < embedding_dim a → 0 < vocab_size a →
  (0 < num_layers a → py_mod (embedding_dim a) (num_heads a) = Ok 0) →
  let L := PInt (max_len a) in
  let tokens := Input "TokenInput" (PTuple [PNone; L]) (debug a) in
  let segment_ids := Input "SegmentInput" (PTuple [PNone; L]) (debug a) in
  let mask := Input "MaskInput" (PTuple [PNone; PInt 1; L; L]) (debug a) in
  let hidden b := PTuple [b; L; PInt (embedding_dim a)] in
  let scores b := PTuple [b; L; PInt (vocab_size a)] in
  let decoder := Layer "TiedDecoderDistributed"
                   (TimeDistributed "TiedDecoder"
                      (TiedDense "TokenEmbedding" (vocab_size a))) in
  ∃ (x logits : ktensor) (w' : world),
    create_model a w
    = (Ok {| inputs := [tokens; segment_ids] ++ (if ignore_mask a then [] else [mask]);
             outputs := [x; logits]; model_name := "Transformer" |}, w')
    ∧ keras_shape_of x = hidden PNone
    ∧ (0 < num_layers a →
       ∃ arg s, x = Call (Layer (layer_name_of (num_layers a - 1) "ln_2")
                            (LayerNorm LayerNormalization.default_eps)) false [arg] s)
    ∧ logits = Call decoder false [x] (scores PNone)
    ∧ (∀ batch, shape_at batch x = Ok (hidden (PInt batch))
                ∧ shape_at batch logits = Ok (scores (PInt batch)))
    ∧ constructed w'
      = constructed w ++ layers_before_encoder a
        ++ encoder_stack_names (Z.to_nat (num_layers a)) 0
        ++ ["TiedDecoder"; "TiedDecoderDistributed"; "Transformer"]
    ∧ next_var w'
      = (next_var w + if debug a then (if ignore_mask a then 2 else 3) else 0)%nat
    ∧ rng_drawn w'
      = (rng_drawn w
         + if debug a
           then (if ignore_mask a then 0
                 else Z.to_nat (prod [3; 1; max_len a; max_len a]%Z))
                + Z.to_nat (prod [3; max_len a]%Z) + Z.to_nat (prod [3; max_len a]%Z)
           else 0)%nat
    ∧ stdout w'
      = stdout w ++ (if debug a then [PTuple [hidden (PInt 3); scores (PInt 3)]] else [])
    ∧ files_read w' = files_read w.
Proof.
  intros HE HV Hmod L tokens segment_ids mask hidden scores decoder.
  set (w0 := if ignore_mask a then w
             else with_layer "MaskInput"
                    (with_debug_tensor a [3; 1; max_len a; max_len a] w)).
  set (mask_opt := if ignore_mask a then None else Some mask).
  assert (Hmask :
    (if ignore_mask a then mret None
     else _ ← debug_tensor a 0 2 [3; 1; max_len a; max_len a];
          m ← make_input (PTuple [PNone; PInt 1; PInt (max_len a); PInt (max_len a)])
                "MaskInput" (debug a);
          mret (Some m)) w = (Ok mask_opt, w0)).
  { unfold mask_opt, w0. destruct (ignore_mask a); [done|].
    by rewrite (bind_ok _ _ _ _ _ (debug_tensor_run a 2 _ w ltac:(lia))), bind_make_input. }
  set (w1 := with_layer "TokenEmbedding"
               (with_layer "PositionInput"
                  (with_layer "SegmentInput"
                     (with_debug_tensor a [3; max_len a]
                        (with_layer "TokenInput"
                           (with_debug_tensor a [3; max_len a] w0)))))).
  set (pos := Call (Layer "PositionInput" PositionIds) false [tokens] (PTuple [PInt 1; L])).
  set (x0 := Call (Layer "Embedding" (EmbeddingSum (embedding_dim a))) true
               [tokens; segment_ids; pos] (hidden PNone)).
  destruct (encoder_stack_run a mask_opt (Z.to_nat (num_layers a)) 0 x0 w1 PNone L)
    as (x & Hrun & Hx & Hlast & Hat).
  { intros Hn. apply Hmod. lia. }
  { by left. }
  { right. by eexists. }
  { lia. }
  { done. }
  { unfold mask_opt. by destruct (ignore_mask a). }
  set (w2 := with_layers (encoder_stack_names (Z.to_nat (num_layers a)) 0) w1) in *.
  set (logits := Call decoder false [x] (scores PNone)).
  set (w3 := with_layer "TiedDecoderDistributed" (with_layer "TiedDecoder" w2)).
  assert (Hshapes : ∀ batch, shape_at batch x = Ok (hidden (PInt batch))
                             ∧ shape_at batch logits = Ok (scores (PInt batch))).
  { intros batch.
    assert (Hxat : shape_at batch x = Ok (hidden (PInt batch))).
    { apply Hat; [right; by eexists|reflexivity|].
      unfold mask_opt. intros m Hm. destruct (ignore_mask a); [done|].
      injection Hm as <-. by eexists. }
    split; [done|]. unfold logits. rewrite shape_at_call1, Hxat.
    cbn [mbind result_bind]. apply tied_decoder_shape. lia. }
  set (w4 := if debug a
             then (print (PTuple [hidden (PInt 3); scores (PInt 3)]) w3).2
             else w3).
  assert (Hlast' : 0 < num_layers a →
            ∃ arg s, x = Call (Layer (layer_name_of (num_layers a - 1) "ln_2")
                                 (LayerNorm LayerNormalization.default_eps))
                           false [arg] s).
  { intros Hlayers. destruct (Z.to_nat (num_layers a)) as [|k] eqn:Hk; [lia|].
    by replace (num_layers a - 1) with (0 + Z.of_nat k) by lia. }
  exists x, logits, (with_layer "Transformer" w4).
  split; [|split; [done|split; [done|split; [done|split; [done|]]]]].
  - unfold create_model.
    rewrite (bind_ok _ _ _ _ _ Hmask).
    rewrite (bind_ok _ _ _ _ _ (debug_tensor_run a (vocab_size a) _ w0 HV)), bind_make_input.
    rewrite (bind_ok _ _ _ _ _ (debug_tensor_run a 2 _ _ ltac:(lia))), bind_make_input.
    rewrite bind_make.
    rewrite (bind_ok _ _ _ _ _ (call_position _ _ _ _)).
    unfold Embedding.__init__. rewrite bind_bind.
    rewrite (bind_ok _ _ _ (with_layer "TokenEmbedding" _) tt) by reflexivity.
    rewrite bind_ret.
    erewrite bind_ok by (by apply call_embedding).
    cbn [Embedding.output_dim Embedding.token_emb].
    fold L hidden tokens segment_ids pos x0 w1.
    rewrite (bind_ok _ _ _ _ _ Hrun). rewrite !bind_make.
    cbn [layer_name layer_op]. fold decoder.
    rewrite (bind_ok _ _ (with_layer _ (with_layer _ w2)) w3 logits); cycle 1.
    { apply apply_layer_ok.
      cbn [fmap list_fmap input_shape_of layer_op mbind result_bind decoder].
      rewrite Hx. apply tied_decoder_shape. lia. }
    rewrite (bind_ok _ _ w3 w4 tt); cycle 1.
    { unfold w4. destruct (debug a); [|done].
      destruct (Hshapes 3) as [Hx3 Hl3].
      rewrite (bind_ok _ _ w3 w3 _) by (unfold lift; by rewrite Hx3).
      by rewrite (bind_ok _ _ w3 w3 _) by (unfold lift; by rewrite Hl3). }
    rewrite (bind_ok _ _ w4 (with_layer "Transformer" w4) tt) by reflexivity.
    unfold mret, M_ret. do 3 f_equal.
    unfold mask_opt. by destruct (ignore_mask a).
  - assert (Hw1 : constructed w1 = constructed w ++ layers_before_encoder a
                  ∧ next_var w1
                    = (next_var w + if debug a then (if ignore_mask a then 2 else 3) else 0)%nat
                  ∧ rng_drawn w1
                    = (rng_drawn w
                       + if debug a
                         then (if ignore_mask a then 0
                               else Z.to_nat (prod [3; 1; max_len a; max_len a]%Z))
                              + Z.to_nat (prod [3; max_len a]%Z)
                              + Z.to_nat (prod [3; max_len a]%Z)
                         else 0)%nat
                  ∧ stdout w1 = stdout w
                  ∧ files_read w1 = files_read w).
    { unfold w1, w0, layers_before_encoder, with_debug_tensor.
      destruct (ignore_mask a), (debug a); cbn; rewrite <- ?app_assoc;
        repeat split; try done; lia. }
    destruct Hw1 as (Hc1 & Hv1 & Hr1 & Hs1 & Hf1).
    destruct (with_layers_fields (encoder_stack_names (Z.to_nat (num_layers a)) 0) w1)
      as (Hc2 & Hv2 & _ & Hf2 & Hr2 & Hs2).
    fold w2 in Hc2, Hv2, Hr2, Hs2, Hf2.
    assert (Hw4 : constructed w4 = constructed w3 ∧ next_var w4 = next_var w3
                  ∧ rng_drawn w4 = rng_drawn w3
                  ∧ stdout w4
                    = stdout w3 ++ (if debug a
                                    then [PTuple [hidden (PInt 3); scores (PInt 3)]]
                                    else [])
                  ∧ files_read w4 = files_read w3).
    { unfold w4. destruct (debug a); cbn; by rewrite ?app_nil_r. }
    destruct Hw4 as (Hc4 & Hv4 & Hr4 & Hs4 & Hf4).
    cbn [with_layer constructed next_var rng_drawn stdout files_read].
    rewrite Hc4, Hv4, Hr4, Hs4, Hf4. unfold w3.
    cbn [with_layer constructed next_var rng_drawn stdout files_read].
    rewrite Hc2, Hv2, Hr2, Hs2, Hf2, Hc1, Hv1, Hr1, Hs1, Hf1.
    repeat split. by rewrite <- !app_assoc.
Qed.

(** **** Layer names *)

Lemma has_char_app (ch : ascii) (s t : string) :
  has_char ch (s +:+ t) = has_char ch s || has_char ch t.
Proof.
  induction s as [|c' s IH]; [done|].
  change (String c' s +:+ t) with (String c' (s +:+ t)).
  cbn [has_char]. by rewrite IH, orb_assoc.
Qed.

Lemma pretty_N_go_no_slash (x : N) (s : string) :
  has_char "/" s = false → has_char "/" (pretty_N_go x s) = false.
Proof.
  revert s. induction (N.lt_wf_0 x) as [x _ IH]; intros s Hs.
  assert (x = 0 ∨ 0 < x)%N as [->|Hx] by lia.
  - by rewrite pretty_N_go_0.
  - rewrite pretty_N_go_step by done. apply IH.
    + by apply N.div_lt.
    + cbn [has_char]. rewrite Hs, orb_false_r.
      apply bool_decide_eq_false_2. unfold pretty_N_char. by repeat case_match.
Qed.

Lemma pretty_Z_no_slash (z : Z) : has_char "/" (pretty z) = false.
Proof.
  assert (HN : ∀ x : N, has_char "/" (pretty x) = false).
  { intros x. unfold pretty, pretty_N. case_decide; [done|].
    by apply pretty_N_go_no_slash. }
  destruct z as [|p|p]; [done|apply (HN (N.pos p))|].
  change (has_char "/" ("-" +:+ pretty (N.pos p)) = false).
  by rewrite has_char_app, HN.
Qed.

Lemma append_slash_inj (a b s t : string) :
  has_char "/" a = false → has_char "/" b = false →
  a +:+ String "/" s = b +:+ String "/" t → a = b ∧ s = t.
Proof.
  revert b. induction a as [|ca a IH]; intros [|cb b] Ha Hb Heq; cbn in *.
  - by injection Heq as ->.
  - injection Heq as <- _. apply orb_false_elim in Hb as [Hb _].
    by apply bool_decide_eq_false in Hb.
  - injection Heq as -> _. apply orb_false_elim in Ha as [Ha _].
    by apply bool_decide_eq_false in Ha.
  - injection Heq as -> Heq.
    apply orb_false_elim in Ha as [_ Ha]. apply orb_false_elim in Hb as [_ Hb].
    destruct (IH b Ha Hb Heq) as [-> ->]. done.
Qed.

(** The name of a layer determines the index of its encoder layer and
    its role there. *)
Lemma layer_name_of_inj (i j : Z) (s t : string) :
  layer_name_of i s = layer_name_of j t → i = j ∧ s = t.
Proof.
  unfold layer_name_of. intros Heq.
  assert (Heq' : pretty i +:+ String "/" s = pretty j +:+ String "/" t).
  { cbn in Heq. by simplify_eq. }
  apply append_slash_inj in Heq' as [Hij ->]; [|apply pretty_Z_no_slash..].
  split; [|done]. by apply (inj pretty).
Qed.

Lemma encoder_stack_names_elem (count : nat) (i : Z) (name : string) :
  name ∈ encoder_stack_names count i →
  ∃ j s, i ≤ j < i + Z.of_nat count ∧ s ∈ encoder_layer_suffixes
         ∧ name = layer_name_of j s.
Proof.
  revert i. induction count as [|count IH]; intros i Hin; [by apply elem_of_nil in Hin|].
  cbn [encoder_stack_names] in Hin. apply elem_of_app in Hin as [Hin|Hin].
  - unfold encoder_layer_names in Hin. apply list_elem_of_fmap in Hin as (s & -> & Hs).
    exists i, s. split; [lia|done].
  - destruct (IH _ Hin) as (j & s & Hj & Hs & ->). exists j, s. split; [lia|done].
Qed.

Lemma encoder_stack_names_length (count : nat) (i : Z) :
  length (encoder_stack_names count i) = (12 * count)%nat.
Proof.
  revert i. induction count as [|count IH]; intros i; [done|].
  cbn [encoder_stack_names]. rewrite length_app, IH.
  unfold encoder_layer_names. rewrite length_fmap. cbn. lia.
Qed.

Lemma encoder_stack_names_NoDup (count : nat) (i : Z) :
  NoDup (encoder_stack_names count i).
Proof.
  revert i. induction count as [|count IH]; intros i; [constructor|].
  cbn [encoder_stack_names]. apply NoDup_app. split; [|split; [|apply IH]].
  - unfold encoder_layer_names. apply NoDup_fmap_2_strong.
    + intros s t _ _ Heq. by apply layer_name_of_inj in Heq as [_ ->].
    + refine (bool_decide_unpack (NoDup encoder_layer_suffixes) _). vm_compute. exact I.
  - intros name Hin Hin'. unfold encoder_layer_names in Hin.
    apply list_elem_of_fmap in Hin as (s & -> & _).
    apply encoder_stack_names_elem in Hin' as (j & t & Hj & _ & Heq).
    apply layer_name_of_inj in Heq as [-> _]. lia.
Qed.

Lemma encoder_stack_names_intro (count : nat) (i j : Z) (s : string) :
  i ≤ j < i + Z.of_nat count → s ∈ encoder_layer_suffixes →
  layer_name_of j s ∈ encoder_stack_names count i.
Proof.
  revert i. induction count as [|count IH]; intros i Hj Hs; [lia|].
  cbn [encoder_stack_names]. apply elem_of_app.
  destruct (decide (j = i)) as [->|Hne].
  - left. unfold encoder_layer_names. by apply list_elem_of_fmap_2.
  - right. apply IH; [lia|done].
Qed.

Lemma NoDup_app_middle {A} (l1 s l2 : list A) :
  NoDup (l1 ++ l2) → NoDup s → (∀ x, x ∈ s → x ∉ l1 ++ l2) → NoDup (l1 ++ s ++ l2).
Proof.
  intros (H1 & H12 & H2)%NoDup_app Hs Hd. apply NoDup_app. split; [done|]. split.
  - intros x Hx [Hx'|Hx']%elem_of_app.
    + apply (Hd x Hx'), elem_of_app. by left.
    + by apply (H12 x).
  - apply NoDup_app. split; [done|]. split; [|done].
    intros x Hx Hx'. apply (Hd x Hx), elem_of_app. by right.
Qed.

Lemma well_formed_heads (a : create_model_args) :
  0 < num_heads a →
  (0 < num_layers a → embedding_dim a mod num_heads a = 0) →
  0 < num_layers a → py_mod (embedding_dim a) (num_heads a) = Ok 0.
Proof.
  intros Hh Hmod Hn. unfold py_mod.
  destruct (Z.eqb_spec (num_heads a) 0); [lia|]. by rewrite Hmod.
Qed.

(** X10.  For hyperparameters of positive sizes, the width being a multiple of
    the number of heads when there is a layer to stack, [create_model]
    returns a model named [Transformer] with the inputs [TokenInput] and
    [SegmentInput] of shape [(None, max_len)], followed by [MaskInput] of
    shape [(None, 1, max_len, max_len)] unless masks are ignored, and with
    two outputs: the hidden states [(None, max_len, embedding_dim)], which
    with at least one layer are the second normalization
    [layer_<num_layers-1>/ln_2] of the last encoder layer, and the logits
    [(None, max_len, vocab_size)], which are the tied decoder, distributed
    over the positions, applied to that first output.  Fed a batch of any
    size, the outputs have that batch size. *)
Theorem create_model_shapes (a : create_model_args) (batch : Z) (w : world) :
  0 < embedding_dim a → 0 < vocab_size a → 0 < max_len a → 0 < d_hid a →
  0 < num_heads a →
  (0 < num_layers a → embedding_dim a mod num_heads a = 0) →
  let L := PInt (max_len a) in
  ∃ (m : Model) (w' : world),
    create_model a w = (Ok m, w')
    ∧ model_name m = "Transformer"
    ∧ inputs m
      = [Input "TokenInput" (PTuple [PNone; L]) (debug a);
         Input "SegmentInput" (PTuple [PNone; L]) (debug a)]
        ++ (if ignore_mask a then []
            else [Input "MaskInput" (PTuple [PNone; PInt 1; L; L]) (debug a)])
    ∧ (∃ x tied_to,
         outputs m
         = [x; Call (Layer "TiedDecoderDistributed"
                       (TimeDistributed "TiedDecoder" (TiedDense tied_to (vocab_size a))))
                 false [x] (PTuple [PNone; L; PInt (vocab_size a)])]
         ∧ (0 < num_layers a →
            ∃ arg s, x = Call (Layer (layer_name_of (num_layers a - 1) "ln_2")
                                 (LayerNorm LayerNormalization.default_eps))
                           false [arg] s))
    ∧ keras_shape_of <$> outputs m
      = [PTuple [PNone; L; PInt (embedding_dim a)];
         PTuple [PNone; L; PInt (vocab_size a)]]
    ∧ shape_at batch <$> outputs m
      = [Ok (PTuple [PInt batch; L; PInt (embedding_dim a)]);
         Ok (PTuple [PInt batch; L; PInt (vocab_size a)])].
Proof.
  intros HE HV _ _ Hh Hmod L.
  destruct (create_model_run a w HE HV (well_formed_heads a Hh Hmod))
    as (x & logits & w' & Hrun & Hx & Hlast & Hl & Hat & _).
  eexists _, w'. split; [exact Hrun|].
  cbn [model_name inputs outputs fmap list_fmap].
  split; [done|]. split; [done|]. split; [exists x, "TokenEmbedding"; by rewrite Hl|].
  destruct (Hat batch) as [-> ->]. rewrite Hx, Hl. done.
Qed.

Lemma create_model_shapes_witness :
  ∃ (m : Model) (w' : world),
    create_model (small_model_args sample_constants) empty_world = (Ok m, w')
    ∧ model_name m = "Transformer"
    ∧ inputs m
      = [Input "TokenInput" (PTuple [PNone; PInt 16]) false;
         Input "SegmentInput" (PTuple [PNone; PInt 16]) false]
        ++ [Input "MaskInput" (PTuple [PNone; PInt 1; PInt 16; PInt 16]) false]
    ∧ (∃ x tied_to,
         outputs m
         = [x; Call (Layer "TiedDecoderDistributed"
                       (TimeDistributed "TiedDecoder" (TiedDense tied_to 100)))
                 false [x] (PTuple [PNone; PInt 16; PInt 100])]
         ∧ (0 < 2 →
            ∃ arg s, x = Call (Layer (layer_name_of (2 - 1) "ln_2")
                                 (LayerNorm LayerNormalization.default_eps))
                           false [arg] s))
    ∧ keras_shape_of <$> outputs m
      = [PTuple [PNone; PInt 16; PInt 64]; PTuple [PNone; PInt 16; PInt 100]]
    ∧ shape_at 8 <$> outputs m
      = [Ok (PTuple [PInt 8; PInt 16; PInt 64]); Ok (PTuple [PInt 8; PInt 16; PInt 100])].
Proof.
  apply (create_model_shapes (small_model_args sample_constants) 8 empty_world).
  - simpl. lia.
  - simpl. lia.
  - simpl. lia.
  - simpl. lia.
  - simpl. lia.
  - intros _. reflexivity.
Defined.

(** X11.  The layers [create_model] constructs, in order: the inputs, the
    position-id generator and the embedding, then for every index [i]
    from 0 below [num_layers] the twelve layers of one [EncoderLayer],
    named [layer_<i>/...], then the decoder and the model.  The names of
    the encoder layers are pairwise distinct and differ from the other
    names [model.py] gives. *)
Theorem create_model_layer_names (a : create_model_args) (w : world) :
  0 < embedding_dim a → 0 < vocab_size a → 0 < max_len a → 0 < d_hid a →
  0 < num_heads a →
  (0 < num_layers a → embedding_dim a mod num_heads a = 0) →
  let stack := encoder_stack_names (Z.to_nat (num_layers a)) 0 in
  ∃ (m : Model) (w' : world),
    create_model a w = (Ok m, w')
    ∧ constructed w'
      = constructed w ++ layers_before_encoder a ++ stack
        ++ ["TiedDecoder"; "TiedDecoderDistributed"; "Transformer"]
    ∧ length stack = (12 * Z.to_nat (num_layers a))%nat
    ∧ (∀ name, name ∈ stack
               ↔ ∃ i s, 0 ≤ i < num_layers a ∧ s ∈ encoder_layer_suffixes
                        ∧ name = layer_name_of i s)
    ∧ NoDup (["MaskInput"; "TokenInput"; "SegmentInput"; "PositionInput"] ++ stack
             ++ ["TiedDecoder"; "TiedDecoderDistributed"; "Transformer"]).
Proof.
  intros HE HV _ _ Hh Hmod stack.
  destruct (create_model_run a w HE HV (well_formed_heads a Hh Hmod))
    as (x & logits & w' & Hrun & _ & _ & _ & _ & Hc & _).
  assert (Helem : ∀ name, name ∈ stack
                          ↔ ∃ i s, 0 ≤ i < num_layers a ∧ s ∈ encoder_layer_suffixes
                                   ∧ name = layer_name_of i s).
  { intros name. split.
    - intros (i & s & Hi & Hs & ->)%encoder_stack_names_elem. exists i, s.
      split; [lia|done].
    - intros (i & s & Hi & Hs & ->). apply encoder_stack_names_intro; [lia|done]. }
  eexists _, w'. split; [exact Hrun|]. split; [exact Hc|].
  split; [apply encoder_stack_names_length|]. split; [exact Helem|].
  apply NoDup_app_middle; [|apply encoder_stack_names_NoDup|].
  - refine (bool_decide_unpack (NoDup _) _). vm_compute. exact I.
  - intros name (i & s & _ & _ & ->)%Helem Hin. unfold layer_name_of in Hin.
    cbn [String.append app] in Hin.
    repeat (apply elem_of_cons in Hin as [Hin|Hin]; [discriminate|]).
    by apply elem_of_nil in Hin.
Qed.

Lemma create_model_layer_names_witness :
  let stack := encoder_stack_names 2 0 in
  ∃ (m : Model) (w' : world),
    create_model (small_model_args sample_constants) empty_world = (Ok m, w')
    ∧ constructed w'
      = constructed empty_world ++ layers_before_encoder (small_model_args sample_constants)
        ++ stack ++ ["TiedDecoder"; "TiedDecoderDistributed"; "Transformer"]
    ∧ length stack = (12 * 2)%nat
    ∧ (∀ name, name ∈ stack
               ↔ ∃ i s, 0 ≤ i < 2 ∧ s ∈ encoder_layer_suffixes
                        ∧ name = layer_name_of i s)
    ∧ NoDup (["MaskInput"; "TokenInput"; "SegmentInput"; "PositionInput"] ++ stack
             ++ ["TiedDecoder"; "TiedDecoderDistributed"; "Transformer"]).
Proof.
  apply (create_model_layer_names (small_model_args sample_constants) empty_world).
  - simpl. lia.
  - simpl. lia.
  - simpl. lia.
  - simpl. lia.
  - simpl. lia.
  - intros _. reflexivity.
Defined.

(** X12.  In debug mode [create_model] draws the random samples of its inputs
    ([3 * max_len * max_len] for the mask unless masks are ignored,
    [3 * max_len] for the tokens and for the segments), creates one
    variable per input, and prints one line, the shapes
    [(3, max_len, embedding_dim)] and [(3, max_len, vocab_size)] of the
    two outputs evaluated on these inputs; without debug mode it draws
    no sample, creates no variable and prints nothing. *)
Theorem create_model_debug_effects (a : create_model_args) (w : world) :
  0 < embedding_dim a → 0 < vocab_size a → 0 < max_len a → 0 < d_hid a →
  0 < num_heads a →
  (0 < num_layers a → embedding_dim a mod num_heads a = 0) →
  let L := max_len a in
  ∃ (m : Model) (w' : world),
    create_model a w = (Ok m, w')
    ∧ Z.of_nat (rng_drawn w')
      = Z.of_nat (rng_drawn w)
        + (if debug a
           then (if ignore_mask a then 0 else 3 * L * L) + 3 * L + 3 * L
           else 0)
    ∧ next_var w'
      = (next_var w + if debug a then (if ignore_mask a then 2 else 3) else 0)%nat
    ∧ stdout w'
      = stdout w
        ++ if debug a
           then [PTuple [PTuple [PInt 3; PInt L; PInt (embedding_dim a)];
                         PTuple [PInt 3; PInt L; PInt (vocab_size a)]]]
           else [].
Proof.
  intros HE HV HL _ Hh Hmod L.
  destruct (create_model_run a w HE HV (well_formed_heads a Hh Hmod))
    as (x & logits & w' & Hrun & _ & _ & _ & _ & _ & Hvars & Hdrawn & Hout & _).
  eexists _, w'. split; [exact Hrun|]. split; [|split; [exact Hvars|exact Hout]].
  rewrite Hdrawn. unfold prod. cbn [foldr]. fold L.
  assert (0 ≤ L * L) by nia.
  destruct (debug a), (ignore_mask a); lia.
Qed.

Lemma create_model_debug_effects_witness :
  ∃ (m : Model) (w' : world),
    create_model debug_model_args empty_world = (Ok m, w')
    ∧ Z.of_nat (rng_drawn w')
      = Z.of_nat (rng_drawn empty_world) + (3 * 16 * 16 + 3 * 16 + 3 * 16)
    ∧ next_var w' = (next_var empty_world + 3)%nat
    ∧ stdout w'
      = stdout empty_world
        ++ [PTuple [PTuple [PInt 3; PInt 16; PInt 64]; PTuple [PInt 3; PInt 16; PInt 100]]].
Proof.
  apply (create_model_debug_effects debug_model_args empty_world).
  - simpl. lia.
  - simpl. lia.
  - simpl. lia.
  - simpl. lia.
  - simpl. lia.
  - intros _. reflexivity.
Defined.

(** *** load_openai_model: from the checkpoint to set_weights *)

Section load_success.
Context {R : Type} `{Scalar R}.
Variable normal : nat → R.
Variable fs : gmap string (file R).
Variable c : constants.
Variable Model_weights : Model → list K.variable.
Variable Model_set_weights : Model → list (ndarray R) → M unit.

(** The shapes of the parameters lines 84 to 93 assemble. *)
Lemma init_params_returns (path : string) (shapes : list (list Z))
    (arrays : list (ndarray R)) (v : Z) (w : world) :
  fs !! (path +:+ "params_shapes.json") = Some (Json shapes) →
  Forall2 (fun n a => fs !! params_file path n = Some (Npy a)) (seq 0 10) arrays →
  Forall (fun a => shape a = [Z.of_nat (length (data a))]) arrays →
  Forall (fun s => s ≠ [] ∧ Forall (fun d => 0 ≤ d) s) shapes →
  foldr Z.add 0 (prod <$> shapes) ≤ Z.of_nat (length (arrays ≫= data)) →
  shapes !! 1%nat = Some [v; 768] →
  0 ≤ SPECIAL_COUNT c → 0 ≤ NUM_SEGMENTS c →
  ∃ params,
    init_params normal fs c path w
    = (Ok params,
       with_drawn (Z.to_nat (SPECIAL_COUNT c * 768))
         (with_files ((path +:+ "params_shapes.json") :: (params_file path <$> seq 0 10))
            w))
    ∧ shape <$> params
      = [NUM_SEGMENTS c; 768] :: <[1%nat := [v + SPECIAL_COUNT c; 768]]> shapes
        ++ [[40478 + SPECIAL_COUNT c]].
Proof.
  intros Hjson Hfiles Hflat Hshapes Hcover Hsecond Hsc Hns.
  set (slices := cut shapes (arrays ≫= data)).
  assert (Htoken : ∃ token, slices !! 1%nat = Some token ∧ shape token = [v; 768]).
  { pose proof (cut_shapes shapes (arrays ≫= data)) as Hcut. fold slices in Hcut.
    rewrite <- Hcut, list_lookup_fmap in Hsecond.
    destruct (slices !! 1%nat) as [token|]; [|done].
    injection Hsecond as Htok. eauto. }
  destruct Htoken as (token & Htoken & Htshape).
  rewrite (init_params_cut normal fs c path shapes arrays) by done. fold slices.
  set (w1 := with_files _ w).
  rewrite (bind_ok _ _ w1 w1 token)
    by (unfold lift; by rewrite (py_index_lookup _ 1 token) by (lia || done)).
  set (w2 := with_drawn (Z.to_nat (SPECIAL_COUNT c * 768)) w1).
  rewrite (bind_ok _ _ w1 w2 (NdArray [SPECIAL_COUNT c; 768]
             ((fun k => normal (rng_drawn w1 + k)%nat)
              <$> seq 0 (Z.to_nat (SPECIAL_COUNT c * 768))))); cycle 1.
  { unfold randn. destruct (Z.ltb_spec (SPECIAL_COUNT c) 0); [lia|]. done. }
  set (special := np.scale _ _).
  set (extended := NdArray [v + SPECIAL_COUNT c; 768] (data token ++ data special)).
  rewrite (bind_ok _ _ w2 w2 extended); cycle 1.
  { unfold lift, np.concatenate, special, np.scale, np.astype_float32.
    cbn [shape data]. rewrite Htshape. cbn [forallb shape]. rewrite Htshape.
    rewrite !bool_decide_eq_true_2 by done.
    cbn [andb fmap list_fmap foldr mbind list_bind data shape]. rewrite Htshape.
    unfold default. cbn [head from_option id].
    unfold extended, special, np.scale, np.astype_float32. cbn [data].
    by rewrite app_nil_r, Z.add_0_r. }
  rewrite (bind_ok _ _ w2 w2 (<[1%nat := extended]> slices)); cycle 1.
  { unfold lift, py_setitem.
    pose proof (lookup_lt_Some _ _ _ Htoken).
    destruct (Z.ltb_spec 1 0); [lia|].
    destruct (Z.leb_spec 0 1); [|lia].
    destruct (Z.ltb_spec 1 (Z.of_nat (length slices))); [|lia]. done. }
  rewrite (bind_ok _ _ w2 w2 (NdArray [NUM_SEGMENTS c; 768]
             (replicate (Z.to_nat (prod [NUM_SEGMENTS c; 768])) zero))); cycle 1.
  { unfold lift, np.zeros. cbn [forallb].
    destruct (Z.leb_spec 0 (NUM_SEGMENTS c)); [|lia]. done. }
  rewrite (bind_ok _ _ w2 w2 (NdArray [40478 + SPECIAL_COUNT c]
             (replicate (Z.to_nat (prod [40478 + SPECIAL_COUNT c])) zero))); cycle 1.
  { unfold lift, np.zeros. cbn [forallb].
    destruct (Z.leb_spec 0 (40478 + SPECIAL_COUNT c)); [|lia]. done. }
  eexists. split; [reflexivity|].
  cbn [fmap list_fmap app]. rewrite fmap_app, list_fmap_insert.
  unfold slices. by rewrite cut_shapes.
Qed.

(** X13.  With a checkpoint it can use, and [debug] off, [load_openai_model]
    reaches [set_weights]: it has read the manifest and the ten archives,
    drawn the samples of the special tokens, then built the model of
    twelve layers, width 768 and vocabulary [40478 + SPECIAL_COUNT], and
    it hands [set_weights] this model and the parameters: those of the
    manifest, the second with [SPECIAL_COUNT] more rows, a segment
    embedding in front and the bias of the decoder at the end.  What it
    returns is that model, unless [set_weights] raises. *)
Theorem load_openai_model_reaches_set_weights (path : string)
    (im uo : bool)
    (shapes : list (list Z)) (arrays : list (ndarray R)) (v : Z) (w : world) :
  fs !! (path +:+ "params_shapes.json") = Some (Json shapes) →
  Forall2 (fun n a => fs !! params_file path n = Some (Npy a)) (seq 0 10) arrays →
  Forall (fun a => shape a = [Z.of_nat (length (data a))]) arrays →
  Forall (fun s => s ≠ [] ∧ Forall (fun d => 0 ≤ d) s) shapes →
  foldr Z.add 0 (prod <$> shapes) ≤ Z.of_nat (length (arrays ≫= data)) →
  shapes !! 1%nat = Some [v; 768] →
  0 ≤ SPECIAL_COUNT c → 0 ≤ NUM_SEGMENTS c →
  ∃ (params : list (ndarray R)) (model : Model) (w2 : world),
    load_openai_model normal fs c Model_weights Model_set_weights path im uo false w
    = match Model_set_weights model params w2 with
      | (Ok _, w3) => (Ok model, w3)
      | (Raise e, w3) => (Raise e, w3)
      end
    ∧ shape <$> params
      = [NUM_SEGMENTS c; 768] :: <[1%nat := [v + SPECIAL_COUNT c; 768]]> shapes
        ++ [[40478 + SPECIAL_COUNT c]]
    ∧ model_name model = "Transformer"
    ∧ keras_shape_of <$> outputs model
      = [PTuple [PNone; PInt 512; PInt 768];
         PTuple [PNone; PInt 512; PInt (40478 + SPECIAL_COUNT c)]]
    ∧ length (inputs model) = (if im then 2 else 3)%nat
    ∧ files_read w2
      = files_read w ++ (path +:+ "params_shapes.json") :: (params_file path <$> seq 0 10)
    ∧ rng_drawn w2 = (rng_drawn w + Z.to_nat (SPECIAL_COUNT c * 768))%nat
    ∧ length (constructed w2)
      = (length (constructed w) + if im then 151 else 152)%nat.
Proof.
  intros Hjson Hfiles Hflat Hshapes Hcover Hsecond Hsc Hns.
  destruct (init_params_returns path shapes arrays v w) as (params & Hinit & Hps);
    try done.
  set (w1 := with_drawn _ _) in Hinit.
  set (a := openai_args c im uo false).
  destruct (create_model_run a w1) as (x & logits & w2 & Hrun & Hx & _ & Hl & _ & Hc & _
                                       & Hr & _ & Hf).
  { simpl. lia. }
  { simpl. lia. }
  { intros _. reflexivity. }
  cbn [a openai_args debug ignore_mask max_len embedding_dim vocab_size num_layers]
    in Hrun, Hx, Hl, Hc, Hr, Hf.
  eexists params, _, w2. split; [|split; [exact Hps|]].
  - unfold load_openai_model.
    rewrite (bind_ok _ _ _ _ _ Hinit). fold a. rewrite (bind_ok _ _ _ _ _ Hrun).
    rewrite bind_ret. unfold mbind, M_bind, mret, M_ret. reflexivity.
  - cbn [model_name outputs inputs fmap list_fmap]. rewrite Hx, Hl.
    cbn [keras_shape_of].
    destruct (with_files_fields
                ((path +:+ "params_shapes.json") :: (params_file path <$> seq 0 10)) w)
      as (Hfw & Hcw & _ & Hrw & _).
    rewrite Hf, Hr, Hc. unfold w1. cbn [with_drawn files_read rng_drawn constructed].
    rewrite Hfw, Hrw, Hcw, Nat.add_0_r.
    repeat split; [by destruct im|].
    rewrite !length_app, encoder_stack_names_length.
    unfold layers_before_encoder. cbn [ignore_mask].
    destruct im; cbn; lia.
Qed.

End load_success.

Lemma load_openai_model_reaches_set_weights_witness :
  ∃ (params : list (ndarray float)) (model : Model) (w2 : world),
    load_openai_model sample_stream checkpoint sample_constants
      (fun _ => []) (fun _ _ => mret tt) "./openai_weights/" false false false empty_world
    = match (mret tt : M unit) w2 with
      | (Ok _, w3) => (Ok model, w3)
      | (Raise e, w3) => (Raise e, w3)
      end
    ∧ shape <$> params
      = [NUM_SEGMENTS sample_constants; 768]
        :: <[1%nat := [1 + SPECIAL_COUNT sample_constants; 768]]> checkpoint_shapes
        ++ [[40478 + SPECIAL_COUNT sample_constants]]
    ∧ model_name model = "Transformer"
    ∧ keras_shape_of <$> outputs model
      = [PTuple [PNone; PInt 512; PInt 768];
         PTuple [PNone; PInt 512; PInt (40478 + SPECIAL_COUNT sample_constants)]]
    ∧ length (inputs model) = 3%nat
    ∧ files_read w2
      = files_read empty_world
        ++ ("./openai_weights/" +:+ "params_shapes.json")
           :: (params_file "./openai_weights/" <$> seq 0 10)
    ∧ rng_drawn w2
      = (rng_drawn empty_world + Z.to_nat (SPECIAL_COUNT sample_constants * 768))%nat
    ∧ length (constructed w2) = (length (constructed empty_world) + 152)%nat.
Proof.
  apply (load_openai_model_reaches_set_weights sample_stream checkpoint sample_constants
           (fun _ => []) (fun _ _ => mret tt) "./openai_weights/" false false
           checkpoint_shapes checkpoint_arrays 1 empty_world).
  - vm_compute. reflexivity.
  - unfold checkpoint_arrays. cbn [app replicate seq].
    repeat (constructor; [vm_compute; reflexivity|]). constructor.
  - unfold checkpoint_arrays. cbn [app replicate].
    repeat (constructor; [vm_compute; reflexivity|]). constructor.
  - repeat (constructor; [split; [discriminate | repeat constructor; lia]|]).
    constructor.
  - apply Z.leb_le. vm_compute. reflexivity.
  - reflexivity.
  - simpl. lia.
  - simpl. lia.
Defined.

(** *** load_openai_model: archives that hold too few entries *)

Section load_truncated.
Context {R : Type} `{Scalar R}.
Variable normal : nat → R.
Variable fs : gmap string (file R).
Variable c : constants.
Variable Model_weights : Model → list K.variable.
Variable Model_set_weights : Model → list (ndarray R) → M unit.

Lemma split_slices (stream : list R) (sizes : list Z) (acc : Z) :
  let n := Z.of_nat (length stream) in
  map_result (fun p => np.slice (NdArray [n] stream) p.1 p.2)
    (zip (acc :: np.cumsum_from acc sizes ++ [n]) (np.cumsum_from acc sizes ++ [n]))
  = Ok (slices_from stream acc sizes ++ [flat_slice stream (acc + foldr Z.add 0 sizes) n]).
Proof.
  intros n. revert acc. induction sizes as [|s sizes IH]; intros acc.
  - cbn [np.cumsum_from app zip zip_with map_result foldr slices_from].
    by rewrite Z.add_0_r.
  - cbn [np.cumsum_from app foldr slices_from]. rewrite map_result_zip_cons.
    cbn [fst snd]. rewrite IH.
    by replace (acc + s + foldr Z.add 0 sizes) with (acc + (s + foldr Z.add 0 sizes))
      by lia.
Qed.

Lemma reshape_mismatch (a : ndarray R) (newshape : list Z) :
  Forall (fun d => 0 ≤ d) newshape →
  prod newshape ≠ Z.of_nat (length (data a)) →
  reshape a newshape = Raise ValueError.
Proof.
  intros Hdims Hsize. unfold reshape.
  assert (Hknown : filter (fun d => negb (is_unknown d)) newshape = newshape).
  { clear Hsize. induction Hdims as [|d s Hd _ IH]; [done|].
    rewrite filter_cons_True.
    - by rewrite IH.
    - unfold is_unknown. by destruct (Z.eqb_spec d (-1)); [lia|]. }
  rewrite Hknown.
  assert (Hall : forallb (fun d => 0 <=? d) newshape = true).
  { apply forallb_forall. intros d Hd%list_elem_of_In.
    rewrite Forall_forall in Hdims. apply Z.leb_le. by apply Hdims. }
  rewrite Hall. cbn [negb]. rewrite Nat.sub_diag.
  by destruct (Z.eqb_spec (prod newshape) (Z.of_nat (length (data a)))).
Qed.

Lemma flat_slice_inside (stream : list R) (acc s : Z) :
  0 ≤ acc → 0 ≤ s → acc + s ≤ Z.of_nat (length stream) →
  flat_slice stream acc (acc + s)
  = NdArray [s] (take (Z.to_nat s) (drop (Z.to_nat acc) stream)).
Proof.
  intros Hacc Hs Hn. unfold flat_slice, py_clamp.
  destruct (Z.ltb_spec acc 0); [lia|]. destruct (Z.ltb_spec (acc + s) 0); [lia|].
  rewrite !Z.min_r, !Z.max_r by lia. rewrite !Z.mul_1_r.
  by replace (acc + s - acc) with s by lia.
Qed.

Lemma flat_slice_short (stream : list R) (acc s : Z) :
  0 ≤ acc → acc ≤ Z.of_nat (length stream) → Z.of_nat (length stream) < acc + s →
  Z.of_nat (length (data (flat_slice stream acc (acc + s)))) < s.
Proof.
  intros Hacc Hn Hs. unfold flat_slice, py_clamp. cbn [data].
  destruct (Z.ltb_spec acc 0); [lia|]. destruct (Z.ltb_spec (acc + s) 0); [lia|].
  rewrite length_take, length_drop. lia.
Qed.

Lemma reshape_truncated (stream : list R) (shapes : list (list Z)) (acc : Z) :
  Forall (fun s => Forall (fun d => 0 ≤ d) s) shapes →
  0 ≤ acc → acc ≤ Z.of_nat (length stream) →
  Z.of_nat (length stream) < acc + foldr Z.add 0 (prod <$> shapes) →
  zip_with_result (fun param shape => reshape param shape)
    (slices_from stream acc (prod <$> shapes)) shapes
  = Raise ValueError.
Proof.
  intros Hshapes. revert acc.
  induction Hshapes as [|s shapes Hs Hrest IH]; intros acc Hacc Hn Hsum.
  - cbn in Hsum. lia.
  - cbn [fmap list_fmap foldr] in Hsum. pose proof (prod_nonneg s Hs) as Hprod.
    cbn [fmap list_fmap slices_from zip_with_result].
    destruct (decide (acc + prod s ≤ Z.of_nat (length stream))) as [Hin|Hout].
    + rewrite flat_slice_inside by done.
      rewrite reshape_exact; cycle 1; [done| |].
      { cbn [data]. rewrite length_take, length_drop. lia. }
      cbn [mbind result_bind]. by rewrite IH by lia.
    + rewrite reshape_mismatch; [done|done|].
      pose proof (flat_slice_short stream acc (prod s) Hacc Hn ltac:(lia)). lia.
Qed.

(** X14.  When the archives hold fewer entries than the shapes of the manifest
    ask for, the last pieces of the cut come out too short, [reshape]
    refuses the first of them, and [load_openai_model] raises
    [ValueError]: it has read all the files, and has neither drawn a
    sample nor constructed a layer. *)
Theorem load_openai_model_truncated (path : string)
    (ignore_mask use_one_embedding_dropout debug : bool)
    (shapes : list (list Z)) (arrays : list (ndarray R)) (w : world) :
  fs !! (path +:+ "params_shapes.json") = Some (Json shapes) →
  Forall2 (fun n a => fs !! params_file path n = Some (Npy a)) (seq 0 10) arrays →
  Forall (fun a => shape a = [Z.of_nat (length (data a))]) arrays →
  Forall (fun s => s ≠ [] ∧ Forall (fun d => 0 ≤ d) s) shapes →
  Z.of_nat (length (arrays ≫= data)) < foldr Z.add 0 (prod <$> shapes) →
  ∃ w', load_openai_model normal fs c Model_weights Model_set_weights path
          ignore_mask use_one_embedding_dropout debug w
        = (Raise ValueError, w')
        ∧ files_read w'
          = files_read w
            ++ (path +:+ "params_shapes.json") :: (params_file path <$> seq 0 10)
        ∧ constructed w' = constructed w
        ∧ rng_drawn w' = rng_drawn w.
Proof.
  intros Hjson Hfiles Hflat Hshapes Hshort.
  assert (Hdims : Forall (fun s => Forall (fun d => 0 ≤ d) s) shapes).
  { eapply Forall_impl; [exact Hshapes|]. by intros s [_ Hs]. }
  assert (Hnonempty : existsb (fun s => bool_decide (s = [])) shapes = false).
  { apply not_true_iff_false. intros (s & Hin%list_elem_of_In & Hs)%existsb_exists.
    apply bool_decide_eq_true in Hs. rewrite Forall_forall in Hshapes.
    by destruct (Hshapes s Hin). }
  assert (Harrays : arrays ≠ []).
  { intros ->. inversion Hfiles. }
  eexists. split; [|by destruct (with_files_fields
    ((path +:+ "params_shapes.json") :: (params_file path <$> seq 0 10)) w)
    as (-> & -> & _ & -> & _)].
  unfold load_openai_model. apply bind_raise. unfold init_params.
  rewrite (bind_ok _ _ _ _ _ (json_load_ok fs _ _ _ Hjson)).
  rewrite (bind_ok _ _ _ _ _ (for_each_np_load_run fs path _ _ _ Hfiles)).
  set (w1 := with_files _ (with_file _ w)).
  rewrite (bind_ok _ _ w1 w1 _) by (unfold lift; by rewrite concatenate_flat).
  rewrite Hnonempty. rewrite (bind_ok _ _ w1 w1 tt) by done.
  rewrite (bind_ok _ _ w1 w1 _) by (unfold lift, np.split, np.cumsum;
                                     cbn [shape tail]; by rewrite split_slices).
  rewrite py_slice_drop_last.
  apply bind_raise. unfold lift. by rewrite reshape_truncated by (done || lia).
Qed.

End load_truncated.

Lemma load_openai_model_truncated_witness :
  ∃ w', load_openai_model sample_stream checkpoint_truncated sample_constants
          (fun _ => []) (fun _ _ => mret tt) "./openai_weights/" false false false
          empty_world
        = (Raise ValueError, w')
        ∧ files_read w'
          = files_read empty_world
            ++ ("./openai_weights/" +:+ "params_shapes.json")
               :: (params_file "./openai_weights/" <$> seq 0 10)
        ∧ constructed w' = constructed empty_world
        ∧ rng_drawn w' = rng_drawn empty_world.
Proof.
  apply (load_openai_model_truncated sample_stream checkpoint_truncated
           sample_constants (fun _ => []) (fun _ _ => mret tt)
           "./openai_weights/" false false false [[2]; [1; 768]; [5]] checkpoint_arrays
           empty_world).
  - vm_compute. reflexivity.
  - unfold checkpoint_arrays. cbn [app replicate seq].
    repeat (constructor; [vm_compute; reflexivity|]). constructor.
  - unfold checkpoint_arrays. cbn [app replicate].
    repeat (constructor; [vm_compute; reflexivity|]). constructor.
  - repeat (constructor; [split; [discriminate | repeat constructor; lia]|]).
    constructor.
  - apply Z.ltb_lt. vm_compute. reflexivity.
Defined.
